(** * Custodial wallet vault and signed-transfer pipeline

    A shallow embedding of the TypeScript services of the Solana MCP
    server (wallet-service.ts, tool-service.ts, user-service.ts,
    routes/api.ts, routes/transaction.ts, the API-key middleware, the
    error handler and the SQLite [Database] class) together with the
    properties of the custody / transfer specification that can be
    settled on them.

    Conventions of the embedding:
    - a JavaScript string is the sequence of its UTF-8 bytes, i.e. a Rocq
      [string]; the keys, addresses and secrets handled here are ASCII
      (hex, base58), for which code units and bytes coincide;
    - a finite JavaScript number is an exact rational ([Q]); rounding of
      binary floating point is outside the model, and the decimals of a
      token are an integer;
    - an [async] function is a state-passing function whose result is an
      [outcome]: it returns, throws, or never settles;
    - the libraries the code calls (node:crypto, @solana/web3.js, bs58,
      the sqlite driver, the RPC endpoint) are interfaces: type classes or
      records of functions. *)

From Stdlib Require Import String Ascii List ZArith NArith QArith Qround Bool Lia DecimalString.
From Stdlib.Strings Require Import Byte.
Import ListNotations.

Local Open Scope list_scope.
Local Open Scope string_scope.

(* ================================================================== *)
(** * JavaScript control flow: thrown values and outcomes *)
(* ================================================================== *)

Module Js.

(** What a [throw] carries.  [ApiError] (middleware/errorHandler.ts)
    extends [Error] with a status code. *)
Inductive thrown : Type :=
| JsError (message : string)
| JsApiError (statusCode : Z) (message : string)
| JsString (s : string)
| JsOther.

(** [error.message] of an [Error]; [String(error)] otherwise, as used in
    [error instanceof Error ? error.message : String(error)]. *)
Definition messageOrString (e : thrown) : string :=
  match e with
  | JsError m | JsApiError _ m => m
  | JsString s => s
  | JsOther => "[object Object]"
  end.

(** The result of running (and awaiting) a computation. *)
Inductive outcome (A : Type) : Type :=
| Returned (a : A)
| Thrown (e : thrown)
| Pending.

Arguments Returned {A} a.
Arguments Thrown {A} e.
Arguments Pending {A}.

(** A computation over a mutable state [S]. The state survives a throw:
    SQLite statements already executed are not rolled back. *)
Definition M (S A : Type) : Type := S -> outcome A * S.

Definition ret {S A} (a : A) : M S A := fun s => (Returned a, s).
Definition throw {S A} (e : thrown) : M S A := fun s => (Thrown e, s).
Definition bind {S A B} (m : M S A) (k : A -> M S B) : M S B :=
  fun s =>
    match m s with
    | (Returned a, s') => k a s'
    | (Thrown e, s') => (Thrown e, s')
    | (Pending, s') => (Pending, s')
    end.

(** [try { body } catch (error) { handler }] *)
Definition try_catch {S A} (body : M S A) (handler : thrown -> M S A) : M S A :=
  fun s =>
    match body s with
    | (Thrown e, s') => handler e s'
    | r => r
    end.

(** A step that does not touch the state, e.g. a call into a library. *)
Definition lift {S A} (o : outcome A) : M S A := fun s => (o, s).

End Js.

Import Js.

Declare Scope js_scope.
Delimit Scope js_scope with js.
Notation "x <- m ;; k" := (bind m (fun x => k))
  (at level 61, m at next level, right associativity) : js_scope.
Notation "m ;;; k" := (bind m (fun _ => k))
  (at level 61, right associativity) : js_scope.

(* ================================================================== *)
(** * Buffers and their hexadecimal encoding *)
(* ================================================================== *)

Module Buffer.

Definition hex_digit (n : N) : ascii :=
  match n with
  | 0%N => "0" | 1%N => "1" | 2%N => "2" | 3%N => "3"
  | 4%N => "4" | 5%N => "5" | 6%N => "6" | 7%N => "7"
  | 8%N => "8" | 9%N => "9" | 10%N => "a" | 11%N => "b"
  | 12%N => "c" | 13%N => "d" | 14%N => "e" | _ => "f"
  end%char.

(** Value of a hexadecimal digit, either case. *)
Definition hex_value (c : ascii) : option N :=
  let n := N_of_ascii c in
  if (48 <=? n)%N && (n <=? 57)%N then Some (n - 48)%N
  else if (97 <=? n)%N && (n <=? 102)%N then Some (n - 87)%N
  else if (65 <=? n)%N && (n <=? 70)%N then Some (n - 55)%N
  else None.

Definition byte_to_hex (b : byte) (rest : string) : string :=
  String (hex_digit (Byte.to_N b / 16)) (String (hex_digit (Byte.to_N b mod 16)) rest).

(** [buf.toString('hex')] *)
Fixpoint toString_hex (bs : list byte) : string :=
  match bs with
  | [] => EmptyString
  | b :: bs' => byte_to_hex b (toString_hex bs')
  end.

(** [Buffer.from(s, 'hex')]: decodes pairs of digits and stops silently
    at the first pair that is not hexadecimal (or at a lone last char). *)
Fixpoint from_hex (s : string) : list byte :=
  match s with
  | String a (String b rest) =>
      match hex_value a, hex_value b with
      | Some h, Some l =>
          match Byte.of_N (16 * h + l) with
          | Some x => x :: from_hex rest
          | None => []
          end
      | _, _ => []
      end
  | _ => []
  end.

(** [Buffer.from(s)]: the UTF-8 bytes of the string. *)
Definition from_utf8 (s : string) : list byte := list_byte_of_string s.

(** [buf.toString('utf8')] *)
Definition toString_utf8 (bs : list byte) : string := string_of_list_byte bs.

End Buffer.

(** [s.slice(0, n)] *)
Definition slice0 (n : nat) (s : string) : string := substring 0 n s.

(** [s.split(':')]: the segments between colons; never empty. *)
Fixpoint split_colon (s : string) : list string :=
  match s with
  | EmptyString => [EmptyString]
  | String c rest =>
      if Ascii.eqb c ":"%char then EmptyString :: split_colon rest
      else match split_colon rest with
           | h :: t => String c h :: t
           | [] => [String c EmptyString]
           end
  end.

(* ================================================================== *)
(** * Cipher: encryptPrivateKey / decryptPrivateKey (wallet-service.ts) *)
(* ================================================================== *)

Module Cipher.

(** node:crypto's AES-256-CBC with PKCS#7 padding, as the code uses it:
    [update] followed by [final].  Decryption fails on a bad final
    block.  The law is the one the cipher is used for. *)
Class NodeCrypto : Type := {
  aes_256_cbc_encrypt : list byte -> list byte -> list byte -> list byte;
  aes_256_cbc_decrypt : list byte -> list byte -> list byte -> option (list byte);
  aes_256_cbc_inverse : forall key iv plain,
    length key = 32%nat -> length iv = 16%nat ->
    aes_256_cbc_decrypt key iv (aes_256_cbc_encrypt key iv plain) = Some plain
}.

Section WithCrypto.
Context {crypto : NodeCrypto}.

(** [crypto.createCipheriv('aes-256-cbc', key, iv)] and its decipher
    twin validate the lengths of the IV and of the key. *)
Definition createCipheriv (key iv : list byte) : outcome (list byte * list byte) :=
  if negb (length iv =? 16)%nat then Thrown (JsError "Invalid initialization vector")
  else if negb (length key =? 32)%nat then Thrown (JsError "Invalid key length")
  else Returned (key, iv).

(** [encryptPrivateKey(privateKey)]; [iv] is the value drawn by
    [crypto.randomBytes(16)] in this call. *)
Definition encryptPrivateKey (encryptionKey : string) (iv : list byte)
    (privateKey : string) : outcome string :=
  match createCipheriv (Buffer.from_utf8 (slice0 32 encryptionKey)) iv with
  | Returned (key, iv') =>
      let encrypted :=
        Buffer.toString_hex (aes_256_cbc_encrypt key iv' (Buffer.from_utf8 privateKey)) in
      Returned (Buffer.toString_hex iv ++ ":" ++ encrypted)
  | Thrown e => Thrown e
  | Pending => Pending
  end.

(** [decryptPrivateKey(encryptedPrivateKey)] *)
Definition decryptPrivateKey (encryptionKey : string)
    (encryptedPrivateKey : string) : outcome string :=
  match split_colon encryptedPrivateKey with
  | ivHex :: rest =>
      let iv := Buffer.from_hex ivHex in
      match createCipheriv (Buffer.from_utf8 (slice0 32 encryptionKey)) iv with
      | Returned (key, iv') =>
          match rest with
          | encryptedHex :: _ =>
              match aes_256_cbc_decrypt key iv' (Buffer.from_hex encryptedHex) with
              | Some plain => Returned (Buffer.toString_utf8 plain)
              | None => Thrown (JsError "error:1C800064:Provider routines::bad decrypt")
              end
          | [] =>
              Thrown (JsError
                "The data argument must be of type string or an instance of Buffer, TypedArray, or DataView. Received undefined")
          end
      | Thrown e => Thrown e
      | Pending => Pending
      end
  | [] => Thrown (JsError "The first argument must be of type string")
  end.

End WithCrypto.
End Cipher.

(* ================================================================== *)
(** * Persistence: the two tables of wallet-service.ts *)
(* ================================================================== *)

Module Repository.

(** A row of [wallets] (WALLET_SCHEMA). *)
Record wallet_row : Type := {
  w_id : Z;
  w_public_key : string;
  w_is_custodial : bool;
  w_label : option string;
  w_encrypted_private_key : option string;
  w_created_at : string;
  w_updated_at : string
}.

(** A row of [social_accounts] (SOCIAL_ACCOUNT_SCHEMA); the exported
    type [SocialAccount] has the same fields under camel-case names. *)
Record SocialAccount : Type := {
  s_id : Z;
  s_platform : string;
  s_platformId : string;
  s_walletId : Z;
  s_createdAt : string
}.

(** What [db.run] resolves to. *)
Record RunResult : Type := { lastID : Z; changes : Z }.

(** The statements the wallet service sends through the [sqlite]
    [Database] handle, one operation per SQL text.  [get] resolves to a
    row or [undefined], [all] to an array, [run] to a [RunResult]; each
    may reject. *)
Class Database (DB : Type) : Type := {
  (** CREATE TABLE IF NOT EXISTS wallets ...; ... social_accounts ... *)
  exec_create_tables : M DB unit;
  (** SELECT ... FROM social_accounts WHERE platform = ? AND platform_id = ? *)
  get_social_by_identity : string -> string -> M DB (option SocialAccount);
  (** SELECT * FROM social_accounts WHERE platform_id = ? *)
  all_social_by_platform_id : string -> M DB (list SocialAccount);
  (** SELECT * FROM social_accounts WHERE wallet_id = ? *)
  all_social_by_wallet_id : Z -> M DB (list SocialAccount);
  (** SELECT * FROM wallets WHERE id = ? *)
  get_wallet_by_id : Z -> M DB (option wallet_row);
  (** SELECT ... FROM wallets WHERE public_key = ? *)
  get_wallet_by_public_key : string -> M DB (option wallet_row);
  (** SELECT * FROM wallets *)
  all_wallets : M DB (list wallet_row);
  (** INSERT INTO wallets (public_key, is_custodial, label, encrypted_private_key) *)
  run_insert_wallet : string -> bool -> option string -> option string -> M DB RunResult;
  (** INSERT INTO social_accounts (platform, platform_id, wallet_id) *)
  run_insert_social : string -> string -> Z -> M DB RunResult;
  (** DELETE FROM social_accounts WHERE platform = ? AND platform_id = ? *)
  run_delete_social : string -> string -> M DB RunResult
}.

(** ** SQLite's behaviour on the two schemas, in memory *)

Record MemDb : Type := {
  wallets : list wallet_row;
  social_accounts : list SocialAccount;
  (** sqlite_sequence: the largest rowid ever used (AUTOINCREMENT) *)
  wallets_seq : Z;
  social_seq : Z;
  (** the value of CURRENT_TIMESTAMP *)
  current_timestamp : string
}.

Definition is_identity (platform platformId : string) (a : SocialAccount) : bool :=
  String.eqb (s_platform a) platform && String.eqb (s_platformId a) platformId.

Definition has_public_key (publicKey : string) (w : wallet_row) : bool :=
  String.eqb (w_public_key w) publicKey.

Definition mem_get_social_by_identity (platform platformId : string)
  : M MemDb (option SocialAccount) :=
  fun d => (Returned (find (is_identity platform platformId) (social_accounts d)), d).

Definition mem_all_social_by_platform_id (platformId : string)
  : M MemDb (list SocialAccount) :=
  fun d => (Returned (filter (fun a => String.eqb (s_platformId a) platformId)
                             (social_accounts d)), d).

Definition mem_all_social_by_wallet_id (walletId : Z) : M MemDb (list SocialAccount) :=
  fun d => (Returned (filter (fun a => Z.eqb (s_walletId a) walletId)
                             (social_accounts d)), d).

Definition mem_get_wallet_by_id (walletId : Z) : M MemDb (option wallet_row) :=
  fun d => (Returned (find (fun w => Z.eqb (w_id w) walletId) (wallets d)), d).

Definition mem_get_wallet_by_public_key (publicKey : string)
  : M MemDb (option wallet_row) :=
  fun d => (Returned (find (has_public_key publicKey) (wallets d)), d).

Definition mem_all_wallets : M MemDb (list wallet_row) :=
  fun d => (Returned (wallets d), d).

(** [public_key TEXT NOT NULL UNIQUE] *)
Definition mem_run_insert_wallet (publicKey : string) (isCustodial : bool)
    (label encrypted : option string) : M MemDb RunResult :=
  fun d =>
    if existsb (has_public_key publicKey) (wallets d) then
      (Thrown (JsError "SQLITE_CONSTRAINT: UNIQUE constraint failed: wallets.public_key"), d)
    else
      let id := (wallets_seq d + 1)%Z in
      let row := {| w_id := id; w_public_key := publicKey;
                    w_is_custodial := isCustodial; w_label := label;
                    w_encrypted_private_key := encrypted;
                    w_created_at := current_timestamp d;
                    w_updated_at := current_timestamp d |} in
      (Returned {| lastID := id; changes := 1 |},
       {| wallets := (wallets d ++ [row])%list;
          social_accounts := social_accounts d;
          wallets_seq := id; social_seq := social_seq d;
          current_timestamp := current_timestamp d |}).

(** [UNIQUE(platform, platform_id)]; the FOREIGN KEY clause is not
    enforced, since the service never issues PRAGMA foreign_keys. *)
Definition mem_run_insert_social (platform platformId : string) (walletId : Z)
  : M MemDb RunResult :=
  fun d =>
    if existsb (is_identity platform platformId) (social_accounts d) then
      (Thrown (JsError
         "SQLITE_CONSTRAINT: UNIQUE constraint failed: social_accounts.platform, social_accounts.platform_id"), d)
    else
      let id := (social_seq d + 1)%Z in
      let row := {| s_id := id; s_platform := platform; s_platformId := platformId;
                    s_walletId := walletId; s_createdAt := current_timestamp d |} in
      (Returned {| lastID := id; changes := 1 |},
       {| wallets := wallets d;
          social_accounts := (social_accounts d ++ [row])%list;
          wallets_seq := wallets_seq d; social_seq := id;
          current_timestamp := current_timestamp d |}).

Definition mem_run_delete_social (platform platformId : string) : M MemDb RunResult :=
  fun d =>
    let kept := filter (fun a => negb (is_identity platform platformId a))
                       (social_accounts d) in
    (Returned {| lastID := social_seq d;
                 changes := Z.of_nat (length (social_accounts d) - length kept) |},
     {| wallets := wallets d; social_accounts := kept;
        wallets_seq := wallets_seq d; social_seq := social_seq d;
        current_timestamp := current_timestamp d |}).

#[export] Instance MemDb_Database : Database MemDb := {
  exec_create_tables := ret tt;
  get_social_by_identity := mem_get_social_by_identity;
  all_social_by_platform_id := mem_all_social_by_platform_id;
  all_social_by_wallet_id := mem_all_social_by_wallet_id;
  get_wallet_by_id := mem_get_wallet_by_id;
  get_wallet_by_public_key := mem_get_wallet_by_public_key;
  all_wallets := mem_all_wallets;
  run_insert_wallet := mem_run_insert_wallet;
  run_insert_social := mem_run_insert_social;
  run_delete_social := mem_run_delete_social
}.

(** ** A handle whose every statement rejects (file gone, disk I/O
    error, handle closed): the storage failure of the read paths. *)

Inductive BrokenDb : Type := Broken (reason : string).

Definition broken {A} : M BrokenDb A :=
  fun d => match d with Broken reason => (Thrown (JsError reason), d) end.

#[export] Instance BrokenDb_Database : Database BrokenDb := {
  exec_create_tables := broken;
  get_social_by_identity := fun _ _ => broken;
  all_social_by_platform_id := fun _ => broken;
  all_social_by_wallet_id := fun _ => broken;
  get_wallet_by_id := fun _ => broken;
  get_wallet_by_public_key := fun _ => broken;
  all_wallets := broken;
  run_insert_wallet := fun _ _ _ _ => broken;
  run_insert_social := fun _ _ _ => broken;
  run_delete_social := fun _ _ => broken
}.

(** ** A handle that records the statements sent through it *)

Inductive Statement : Type :=
| CreateTables
| SelectSocialByIdentity (platform platformId : string)
| SelectSocialByPlatformId (platformId : string)
| SelectSocialByWalletId (walletId : Z)
| SelectWalletById (walletId : Z)
| SelectWalletByPublicKey (publicKey : string)
| SelectAllWallets
| InsertWallet (publicKey : string)
| InsertSocialAccount (platform platformId : string) (walletId : Z)
| DeleteSocialAccount (platform platformId : string).

Record Traced (DB : Type) : Type := {
  inner : DB;
  (** the statements issued so far, most recent last *)
  statements : list Statement
}.
Arguments inner {DB} _.
Arguments statements {DB} _.

Definition traced {DB A} (st : Statement) (m : M DB A) : M (Traced DB) A :=
  fun t =>
    let '(o, d) := m (inner t) in
    (o, {| inner := d; statements := (statements t ++ [st])%list |}).

#[export] Instance Traced_Database (DB : Type) {database : Database DB}
  : Database (Traced DB) := {
  exec_create_tables := traced CreateTables exec_create_tables;
  get_social_by_identity := fun p i =>
    traced (SelectSocialByIdentity p i) (get_social_by_identity p i);
  all_social_by_platform_id := fun i =>
    traced (SelectSocialByPlatformId i) (all_social_by_platform_id i);
  all_social_by_wallet_id := fun w =>
    traced (SelectSocialByWalletId w) (all_social_by_wallet_id w);
  get_wallet_by_id := fun w => traced (SelectWalletById w) (get_wallet_by_id w);
  get_wallet_by_public_key := fun k =>
    traced (SelectWalletByPublicKey k) (get_wallet_by_public_key k);
  all_wallets := traced SelectAllWallets all_wallets;
  run_insert_wallet := fun k c l e => traced (InsertWallet k) (run_insert_wallet k c l e);
  run_insert_social := fun p i w =>
    traced (InsertSocialAccount p i w) (run_insert_social p i w);
  run_delete_social := fun p i => traced (DeleteSocialAccount p i) (run_delete_social p i)
}.

End Repository.

(* ================================================================== *)
(** * The ledger SDK (@solana/web3.js, bs58) as the services use it *)
(* ================================================================== *)

Module Solana.

Record Keypair : Type := { publicKey : string; secretKey : list byte }.

Record AccountMeta : Type := { pubkey : string; isSigner : bool; isWritable : bool }.

(** Instruction data is a byte array; a byte is an integer in [0, 256). *)
Record TransactionInstruction : Type := {
  programId : string;
  keys : list AccountMeta;
  data : list Z
}.

Record Transaction : Type := {
  instructions : list TransactionInstruction;
  recentBlockhash : option string;
  feePayer : option string;
  signatures : list (string * list byte)
}.

Definition new_Transaction : Transaction :=
  {| instructions := []; recentBlockhash := None; feePayer := None; signatures := [] |}.

(** [transaction.add(instruction)] *)
Definition Transaction_add (t : Transaction) (i : TransactionInstruction) : Transaction :=
  {| instructions := (instructions t ++ [i])%list; recentBlockhash := recentBlockhash t;
     feePayer := feePayer t; signatures := signatures t |}.

Definition set_recentBlockhash (t : Transaction) (b : string) : Transaction :=
  {| instructions := instructions t; recentBlockhash := Some b;
     feePayer := feePayer t; signatures := signatures t |}.

Definition set_feePayer (t : Transaction) (p : string) : Transaction :=
  {| instructions := instructions t; recentBlockhash := recentBlockhash t;
     feePayer := Some p; signatures := signatures t |}.

Class Web3 : Type := {
  (** whether [new PublicKey(s)] accepts [s] *)
  isPublicKey : string -> bool;
  bs58_encode : list byte -> string;
  (** [bs58.decode] throws on a character outside the alphabet *)
  bs58_decode : string -> option (list byte);
  (** [Keypair.fromSecretKey] throws on a malformed secret key *)
  Keypair_fromSecretKey : list byte -> option Keypair;
  (** [transaction.sign(keypair)]: compiles the message and signs it;
      throws without a blockhash or for a signer the message does not
      name *)
  Transaction_sign : Keypair -> Transaction -> outcome Transaction;
  (** [transaction.serialize()] verifies the signatures *)
  Transaction_serialize : Transaction -> outcome (list byte)
}.

Section WithWeb3.
Context {web3 : Web3}.

(** [new PublicKey(s)]; a key is kept in its base58 form. *)
Definition new_PublicKey (s : string) : outcome string :=
  if isPublicKey s then Returned s else Thrown (JsError "Invalid public key input").

End WithWeb3.

Definition TOKEN_PROGRAM_ID : string := "TokenkegQfeZyiNwAJbNbGKPFXCWuBvf9Ss623VQ5DA".
Definition SYSTEM_PROGRAM_ID : string := "11111111111111111111111111111111".

(** The [n] low bytes of [v], least significant first. *)
Fixpoint le_bytes (n : nat) (v : Z) : list Z :=
  match n with
  | O => []
  | S n' => (v mod 256)%Z :: le_bytes n' (v / 256)%Z
  end.

(** [SystemProgram.transfer({fromPubkey, toPubkey, lamports})] *)
Definition SystemProgram_transfer (fromPubkey toPubkey : string) (lamports : Z)
  : TransactionInstruction :=
  {| programId := SYSTEM_PROGRAM_ID;
     keys := [ {| pubkey := fromPubkey; isSigner := true; isWritable := true |};
               {| pubkey := toPubkey; isSigner := false; isWritable := true |} ];
     data := (le_bytes 4 2 ++ le_bytes 8 lamports)%list |}.

End Solana.

(* ================================================================== *)
(** * Wallet vault: SimpleWalletManager (wallet-service.ts) *)
(* ================================================================== *)

Module WalletService.
Import Repository Solana Cipher.

(** [`${n}`] for an integer *)
Definition Z_toString (z : Z) : string := DecimalString.NilZero.string_of_int (Z.to_int z).

Record WalletInfo : Type := {
  id : Z;
  wi_publicKey : string;
  isCustodial : bool;
  label : option string;
  encryptedPrivateKey : option string;
  createdAt : string;
  updatedAt : string;
  socialAccounts : list SocialAccount
}.

Definition toWalletInfo (w : wallet_row) (accounts : list SocialAccount) : WalletInfo :=
  {| id := w_id w; wi_publicKey := w_public_key w; isCustodial := w_is_custodial w;
     label := w_label w; encryptedPrivateKey := w_encrypted_private_key w;
     createdAt := w_created_at w; updatedAt := w_updated_at w;
     socialAccounts := accounts |}.

(** [[...new Set(xs)]]: first occurrences, in order. *)
Fixpoint unique (seen xs : list Z) : list Z :=
  match xs with
  | [] => []
  | x :: xs' =>
      if existsb (Z.eqb x) seen then unique seen xs'
      else x :: unique (x :: seen) xs'
  end.

(** [label || null], and the falsy test of an optional string *)
Definition nonEmpty (s : option string) : option string :=
  match s with
  | Some EmptyString => None
  | other => other
  end.

Section WithDatabase.
Context {DB : Type} {database : Database DB} {crypto : NodeCrypto} {web3 : Web3}.

(** The fields of the manager the methods read. *)
Record Manager : Type := {
  initialized : bool;
  db : option DB;
  encryptionKey : string
}.

Local Open Scope js_scope.

(** [await this.db.<statement>] *)
Definition onDb {A} (statement : M DB A) : M Manager A :=
  fun m =>
    match db m with
    | Some d =>
        let '(o, d') := statement d in
        (o, {| initialized := initialized m; db := Some d';
               encryptionKey := encryptionKey m |})
    | None => (Thrown (JsError "Cannot read properties of null"), m)
    end.

Definition notInitialized : thrown := JsError "Wallet service not initialized".

(** [if (!this.initialized || !this.db) throw ...] *)
Definition ensureInitialized : M Manager unit :=
  fun m =>
    if negb (initialized m) || negb (match db m with Some _ => true | None => false end)
    then (Thrown notInitialized, m)
    else (Returned tt, m).

(** [async initialize()]; [opened] is what [open({filename, driver})]
    resolves to.  The handle is stored before the tables are created. *)
Definition initialize (opened : outcome DB) : M Manager bool :=
  try_catch
    (d <- lift opened ;;
     (fun m => (Returned tt, {| initialized := initialized m; db := Some d;
                                encryptionKey := encryptionKey m |})) ;;;
     onDb exec_create_tables ;;;
     (fun m => (Returned true, {| initialized := true; db := db m;
                                  encryptionKey := encryptionKey m |})))
    (fun _ => ret false).

(** [isInitialized()] *)
Definition isInitialized : M Manager bool := fun m => (Returned (initialized m), m).

Fixpoint forEach {S A B} (f : A -> M S B) (xs : list A) : M S (list B) :=
  match xs with
  | [] => ret []
  | x :: xs' => y <- f x ;; ys <- forEach f xs' ;; ret (y :: ys)
  end.

(** [private async getWalletById(walletId)] *)
Definition getWalletById (walletId : Z) : M Manager WalletInfo :=
  ensureInitialized ;;;
  wallet <- onDb (get_wallet_by_id walletId) ;;
  match wallet with
  | None => throw (JsError ("Wallet with ID " ++ Z_toString walletId ++ " not found"))
  | Some w =>
      accounts <- onDb (all_social_by_wallet_id walletId) ;;
      ret (toWalletInfo w accounts)
  end.

(** [async getWalletsForUser(platformId)] *)
Definition getWalletsForUser (platformId : string) : M Manager (list WalletInfo) :=
  ensureInitialized ;;;
  try_catch
    (accounts <- onDb (all_social_by_platform_id platformId) ;;
     match accounts with
     | [] => ret []
     | _ =>
         let walletIds := unique [] (map s_walletId accounts) in
         forEach getWalletById walletIds
     end)
    (fun _ => ret []).

Definition alreadyLinked (platform platformId : string) : thrown :=
  JsError ("Social account " ++ platform ++ ":" ++ platformId ++ " already linked to a wallet").

(** [async createWallet(platform, platformId, label?)]; [keypair] is the
    value of [Keypair.generate()] and [iv] that of [crypto.randomBytes(16)]
    in this call. *)
Definition createWallet (keypair : Keypair) (iv : list byte)
    (platform platformId : string) (label : option string) : M Manager WalletInfo :=
  ensureInitialized ;;;
  existingAccount <- onDb (get_social_by_identity platform platformId) ;;
  match existingAccount with
  | Some _ => throw (alreadyLinked platform platformId)
  | None =>
      let publicKey := Solana.publicKey keypair in
      let privateKey := bs58_encode (secretKey keypair) in
      key <- (fun m => (Returned (encryptionKey m), m)) ;;
      encryptedPrivateKey <- lift (encryptPrivateKey key iv privateKey) ;;
      walletResult <- onDb (run_insert_wallet publicKey true (nonEmpty label)
                                              (Some encryptedPrivateKey)) ;;
      let walletId := lastID walletResult in
      onDb (run_insert_social platform platformId walletId) ;;;
      getWalletById walletId
  end.

(** [async createWalletForUser(platformId, label?)] *)
Definition createWalletForUser (keypair : Keypair) (iv : list byte)
    (platformId : string) (label : option string) : M Manager WalletInfo :=
  ensureInitialized ;;;
  try_catch
    (createWallet keypair iv "user" platformId
       (match nonEmpty label with
        | Some l => Some l
        | None => Some ("Wallet for " ++ platformId)
        end))
    (fun error =>
       throw (JsError ("Failed to create wallet for user: " ++ messageOrString error))).

(** [async getWalletByPublicKey(publicKey)] *)
Definition getWalletByPublicKey (publicKey : string) : M Manager (option WalletInfo) :=
  ensureInitialized ;;;
  try_catch
    (wallet <- onDb (get_wallet_by_public_key publicKey) ;;
     match wallet with
     | None => ret None
     | Some w =>
         accounts <- onDb (all_social_by_wallet_id (w_id w)) ;;
         ret (Some (toWalletInfo w accounts))
     end)
    (fun _ => ret None).

(** [async getSocialAccountsForWallet(publicKey)] *)
Definition getSocialAccountsForWallet (publicKey : string) : M Manager (list SocialAccount) :=
  ensureInitialized ;;;
  try_catch
    (wallet <- onDb (get_wallet_by_public_key publicKey) ;;
     match wallet with
     | None => ret []
     | Some w => onDb (all_social_by_wallet_id (w_id w))
     end)
    (fun _ => ret []).

(** [async getAllWallets()] *)
Definition getAllWallets : M Manager (list WalletInfo) :=
  ensureInitialized ;;;
  try_catch
    (rows <- onDb all_wallets ;;
     forEach (fun w =>
                accounts <- onDb (all_social_by_wallet_id (w_id w)) ;;
                ret (toWalletInfo w accounts)) rows)
    (fun _ => ret []).

(** [async getWalletBySocialAccount(platform, platformId)]; its
    [catch] rethrows. *)
Definition getWalletBySocialAccount (platform platformId : string)
  : M Manager (option WalletInfo) :=
  ensureInitialized ;;;
  try_catch
    (socialAccount <- onDb (get_social_by_identity platform platformId) ;;
     match socialAccount with
     | None => ret None
     | Some a => w <- getWalletById (s_walletId a) ;; ret (Some w)
     end)
    (fun error => throw error).

(** [async linkSocialAccountToWallet(platform, platformId, walletPublicKey)] *)
Definition linkSocialAccountToWallet (platform platformId walletPublicKey : string)
  : M Manager WalletInfo :=
  ensureInitialized ;;;
  walletRecord <- onDb (get_wallet_by_public_key walletPublicKey) ;;
  match walletRecord with
  | None => throw (JsError ("Wallet with public key " ++ walletPublicKey ++ " not found"))
  | Some w =>
      existingAccount <- onDb (get_social_by_identity platform platformId) ;;
      match existingAccount with
      | Some _ => throw (alreadyLinked platform platformId)
      | None =>
          onDb (run_insert_social platform platformId (w_id w)) ;;;
          getWalletById (w_id w)
      end
  end.

(** [async unlinkSocialAccount(platform, platformId)] *)
Definition unlinkSocialAccount (platform platformId : string) : M Manager bool :=
  ensureInitialized ;;;
  result <- onDb (run_delete_social platform platformId) ;;
  ret (0 <? changes result)%Z.

Definition cannotSign (walletPublicKey : string) : thrown :=
  JsError ("Cannot sign with wallet " ++ walletPublicKey
           ++ ": wallet not found or no private key available").

(** The keypair rebuilt from a decrypted secret:
    [Keypair.fromSecretKey(bs58.decode(privateKey))] *)
Definition keypairOfSecret (privateKey : string) : outcome Keypair :=
  match bs58_decode privateKey with
  | None => Thrown (JsError "Non-base58 character")
  | Some bytes =>
      match Keypair_fromSecretKey bytes with
      | None => Thrown (JsError "bad secret key size")
      | Some keypair => Returned keypair
      end
  end.

(** [async signWalletTransaction(walletPublicKey, transaction)] *)
Definition signWalletTransaction (walletPublicKey : string) (transaction : Transaction)
  : M Manager Transaction :=
  ensureInitialized ;;;
  wallet <- onDb (get_wallet_by_public_key walletPublicKey) ;;
  match wallet with
  | None => throw (cannotSign walletPublicKey)
  | Some w =>
      match nonEmpty (w_encrypted_private_key w) with
      | None => throw (cannotSign walletPublicKey)
      | Some encrypted =>
          key <- (fun m => (Returned (encryptionKey m), m)) ;;
          privateKey <- lift (decryptPrivateKey key encrypted) ;;
          keypair <- lift (keypairOfSecret privateKey) ;;
          lift (Transaction_sign keypair transaction)
      end
  end.

End WithDatabase.

Arguments Manager DB : clear implicits.

End WalletService.

(* ================================================================== *)
(** * JavaScript values of a parameter bag *)
(* ================================================================== *)

Module JsValue.

Inductive t : Type :=
| VUndefined
| VNull
| VBool (b : bool)
| VNumber (q : Q)
| VString (s : string).

(** How numbers print ([Number.prototype.toString]). *)
Class JsRuntime : Type := { Number_toString : Q -> string }.

Definition typeof (v : t) : string :=
  match v with
  | VUndefined => "undefined"
  | VNull => "object"
  | VBool _ => "boolean"
  | VNumber _ => "number"
  | VString _ => "string"
  end.

(** [!v] *)
Definition falsy (v : t) : bool :=
  match v with
  | VUndefined | VNull => true
  | VBool b => negb b
  | VNumber q => Qeq_bool q 0
  | VString EmptyString => true
  | VString _ => false
  end.

(** [`${v}`]; this is also what a value cast with [as string] amounts to
    when it is not a string. *)
Definition toString {rt : JsRuntime} (v : t) : string :=
  match v with
  | VUndefined => "undefined"
  | VNull => "null"
  | VBool true => "true"
  | VBool false => "false"
  | VNumber q => Number_toString q
  | VString s => s
  end.

(** [Record<string, unknown>]: own properties in insertion order. *)
Definition Params : Type := list (string * t).

Fixpoint prop (params : Params) (name : string) : t :=
  match params with
  | [] => VUndefined
  | (k, v) :: rest => if String.eqb k name then v else prop rest name
  end.

Definition Object_keys (params : Params) : list string := map fst params.

(** [xs.includes(x)] *)
Definition includes (xs : list string) (x : string) : bool := existsb (String.eqb x) xs.

(** [xs.join(sep)] *)
Fixpoint join (sep : string) (xs : list string) : string :=
  match xs with
  | [] => EmptyString
  | [x] => x
  | x :: rest => x ++ sep ++ join sep rest
  end.

End JsValue.

Definition nl : string := String (ascii_of_nat 10) EmptyString.
Definition dquote : string := String (ascii_of_nat 34) EmptyString.

(* ================================================================== *)
(** * Ledger gateway: the RPC [Connection] *)
(* ================================================================== *)

Module Ledger.

Inductive TokenFilter : Type := ByProgramId (programId : string) | ByMint (mint : string).

Inductive rpc_call : Type :=
| GetBalance (address : string)
| GetParsedTokenAccountsByOwner (owner : string) (filter : TokenFilter)
| GetTransaction (signature : string)
| GetAccountInfo (address : string)
| GetLatestBlockhash
| SendRawTransaction (wire : list byte)
| ConfirmTransaction (signature : string)
| GetVersion
| GetEpochInfo.

Record TokenAccount : Type := {
  ta_pubkey : string;
  ta_mint : string;
  ta_uiAmount : Q;
  ta_decimals : Z
}.

Record TransactionMeta : Type := { meta_err : bool; meta_fee : option Z }.
Record TransactionResponse : Type := {
  tr_meta : option TransactionMeta;
  tr_blockTime : option Z
}.

Record AccountData : Type := {
  ad_lamports : Z;
  ad_owner : string;
  ad_executable : bool;
  ad_rentEpoch : option Z
}.

Record EpochInfo : Type := {
  epoch : Z;
  blockHeight : option Z;
  absoluteSlot : Z
}.

(** The endpoint: what each request answers, and the requests made so
    far (most recent last). *)
Record Connection : Type := {
  requests : list rpc_call;
  answer_getBalance : string -> outcome Z;
  answer_getParsedTokenAccountsByOwner : string -> TokenFilter -> outcome (list TokenAccount);
  answer_getTransaction : string -> outcome (option TransactionResponse);
  answer_getAccountInfo : string -> outcome (option AccountData);
  answer_getLatestBlockhash : outcome string;
  answer_sendRawTransaction : list byte -> outcome string;
  answer_confirmTransaction : string -> outcome unit;
  answer_getVersion : outcome unit;
  answer_getEpochInfo : outcome EpochInfo
}.

Definition record_request (call : rpc_call) (c : Connection) : Connection :=
  {| requests := (requests c ++ [call])%list;
     answer_getBalance := answer_getBalance c;
     answer_getParsedTokenAccountsByOwner := answer_getParsedTokenAccountsByOwner c;
     answer_getTransaction := answer_getTransaction c;
     answer_getAccountInfo := answer_getAccountInfo c;
     answer_getLatestBlockhash := answer_getLatestBlockhash c;
     answer_sendRawTransaction := answer_sendRawTransaction c;
     answer_confirmTransaction := answer_confirmTransaction c;
     answer_getVersion := answer_getVersion c;
     answer_getEpochInfo := answer_getEpochInfo c |}.

Definition answer {A} (call : rpc_call) (c : Connection) : outcome A -> outcome A * Connection :=
  fun o => (o, record_request call c).

Definition getBalance (address : string) : M Connection Z :=
  fun c => answer (GetBalance address) c (answer_getBalance c address).
Definition getParsedTokenAccountsByOwner (owner : string) (f : TokenFilter)
  : M Connection (list TokenAccount) :=
  fun c => answer (GetParsedTokenAccountsByOwner owner f) c
                  (answer_getParsedTokenAccountsByOwner c owner f).
Definition getTransaction (signature : string) : M Connection (option TransactionResponse) :=
  fun c => answer (GetTransaction signature) c (answer_getTransaction c signature).
Definition getAccountInfo (address : string) : M Connection (option AccountData) :=
  fun c => answer (GetAccountInfo address) c (answer_getAccountInfo c address).
Definition getLatestBlockhash : M Connection string :=
  fun c => answer GetLatestBlockhash c (answer_getLatestBlockhash c).
Definition sendRawTransaction (wire : list byte) : M Connection string :=
  fun c => answer (SendRawTransaction wire) c (answer_sendRawTransaction c wire).
Definition confirmTransaction (signature : string) : M Connection unit :=
  fun c => answer (ConfirmTransaction signature) c (answer_confirmTransaction c signature).
Definition getVersion : M Connection unit :=
  fun c => answer GetVersion c (answer_getVersion c).
Definition getEpochInfo : M Connection EpochInfo :=
  fun c => answer GetEpochInfo c (answer_getEpochInfo c).

End Ledger.

(* ================================================================== *)
(** * Transfer executor and tool dispatcher: ToolService (tool-service.ts) *)
(* ================================================================== *)

Module ToolService.
Import Repository Solana Cipher WalletService JsValue Ledger.

Record ContentItem : Type := { c_type : string; c_text : option string }.

(** [ToolExecutionResult]; an absent [isError] is [false]. *)
Record ToolExecutionResult : Type := {
  content : list ContentItem;
  isError : bool
}.

Definition textContent (text : string) : list ContentItem :=
  [ {| c_type := "text"; c_text := Some text |} ].

Definition success (text : string) : ToolExecutionResult :=
  {| content := textContent text; isError := false |}.

Definition failure (text : string) : ToolExecutionResult :=
  {| content := textContent text; isError := true |}.

(** [diagnosticParameters(expectedParams, actualParams)] *)
Definition diagnosticParameters {rt : JsRuntime} (expectedParams : list string)
    (actualParams : Params) : string :=
  let receivedParams := Object_keys actualParams in
  let missing := filter (fun p => negb (includes receivedParams p)) expectedParams in
  let unexpected := filter (fun p => negb (includes expectedParams p)) receivedParams in
  let validParams := filter (fun p => includes receivedParams p) expectedParams in
  let message := EmptyString in
  let message :=
    match missing with
    | [] => message
    | _ => message ++ "Missing parameters: " ++ join ", " missing ++ nl
    end in
  let message :=
    match unexpected with
    | [] => message
    | _ => message ++ "Unexpected parameters: " ++ join ", " unexpected ++ nl
    end in
  let message := message ++ "Received valid parameters: " ++ join ", " validParams ++ nl in
  let message := message ++ "Parameter values:" ++ nl in
  fold_left
    (fun message param =>
       let value := prop actualParams param in
       message ++ "  " ++ param ++ ": " ++ toString value
               ++ " (" ++ typeof value ++ ")" ++ nl)
    validParams message.

(** [handleToolError(error, toolName)] *)
Definition handleToolError (error : thrown) (toolName : string) : ToolExecutionResult :=
  let errorMessage :=
    match error with
    | JsError m | JsApiError _ m => m
    | JsString s => s
    | JsOther => "Unknown error occurred"
    end in
  {| content := textContent ("Error executing tool " ++ toolName ++ ": " ++ errorMessage);
     isError := true |}.

(** [Math.round] and [Math.floor] on a finite number *)
Definition Math_floor (x : Q) : Z := Qfloor x.
Definition Math_round (x : Q) : Z := Qfloor (x + (1 # 2)).
(** [Math.pow(10, n)] for an integer [n] *)
Definition Math_pow10 (n : Z) : Q := Qpower 10 n.

(** [buf.writeBigUInt64LE(BigInt(v), 0)] on [Buffer.alloc(8)]: a
    RangeError outside [0, 2^64). *)
Definition writeBigUInt64LE (v : Z) : outcome (list Z) :=
  if ((0 <=? v) && (v <? 2 ^ 64))%Z then Returned (le_bytes 8 v)
  else Thrown (JsError "The value of value is out of range. It must be >= 0n and < 2n ** 64n.").

(** The instruction of [sendTokenSecure] (and of [sendToken]): scaling,
    the amount buffer, and the hand-built transfer instruction. *)
Definition tokenTransferInstruction (fromTokenAccount toTokenAccount fromPublicKey : string)
    (amount : Q) (decimals : Z) : outcome TransactionInstruction :=
  let adjustedAmount := Math_floor (amount * Math_pow10 decimals) in
  match writeBigUInt64LE adjustedAmount with
  | Returned amountBuffer =>
      Returned
        {| programId := TOKEN_PROGRAM_ID;
           keys := [ {| pubkey := fromTokenAccount; isSigner := false; isWritable := true |};
                     {| pubkey := toTokenAccount; isSigner := false; isWritable := true |};
                     {| pubkey := fromPublicKey; isSigner := true; isWritable := false |} ];
           data := 3%Z :: amountBuffer |}
  | Thrown e => Thrown e
  | Pending => Pending
  end.

Section WithServices.
Context {DB : Type} {database : Database DB} {crypto : NodeCrypto} {web3 : Web3}
        {rt : JsRuntime}.

Local Open Scope js_scope.

(** The mutable state the tool service works on: the wallet service
    singleton and [this.connection] with its request log. *)
Record World : Type := {
  walletService : Manager DB;
  connection : option Connection
}.

Definition onWalletService {A} (m : M (Manager DB) A) : M World A :=
  fun w =>
    let '(o, ws) := m (walletService w) in
    (o, {| walletService := ws; connection := connection w |}).

(** [await this.connection.<request>] *)
Definition rpc {A} (request : M Connection A) : M World A :=
  fun w =>
    match connection w with
    | Some c =>
        let '(o, c') := request c in
        (o, {| walletService := walletService w; connection := Some c' |})
    | None => (Thrown (JsError "Cannot read properties of null"), w)
    end.

(** [if (!this.connection) throw new Error('Connection not initialized')] *)
Definition requireConnection : M World unit :=
  fun w =>
    match connection w with
    | Some _ => (Returned tt, w)
    | None => (Thrown (JsError "Connection not initialized"), w)
    end.

Definition wrapError {A} (prefix : string) (body : M World A) : M World A :=
  try_catch body (fun error => throw (JsError (prefix ++ messageOrString error))).

(** [async getWalletBalance(address)]: (sol, lamports) *)
Definition getWalletBalance (address : string) : M World (Q * Z) :=
  requireConnection ;;;
  wrapError "Failed to get wallet balance: "
    (publicKey <- lift (new_PublicKey address) ;;
     balance <- rpc (getBalance publicKey) ;;
     ret (inject_Z balance / 1000000000, balance)).

(** [async getTokenBalances(address)] *)
Definition getTokenBalances (address : string) : M World (list TokenAccount) :=
  requireConnection ;;;
  wrapError "Failed to get token balances: "
    (publicKey <- lift (new_PublicKey address) ;;
     rpc (getParsedTokenAccountsByOwner publicKey (ByProgramId TOKEN_PROGRAM_ID))).

Record TransactionInfo : Type := {
  ti_signature : string;
  ti_status : string;
  ti_blockTime : option Z;
  ti_fee : Z
}.

(** [x || undefined] on an optional number *)
Definition nonZero (x : option Z) : option Z :=
  match x with
  | Some 0%Z => None
  | other => other
  end.

(** [async getTransaction(signature)] *)
Definition getTransactionInfo (signature : string) : M World TransactionInfo :=
  requireConnection ;;;
  wrapError "Failed to get transaction: "
    (transaction <- rpc (getTransaction signature) ;;
     match transaction with
     | None => throw (JsError ("Transaction not found: " ++ signature))
     | Some t =>
         let fee := match tr_meta t with
                    | Some m => match meta_fee m with Some f => f | None => 0%Z end
                    | None => 0%Z
                    end in
         let failed := match tr_meta t with Some m => meta_err m | None => false end in
         ret {| ti_signature := signature;
                ti_status := if failed then "error" else "success";
                ti_blockTime := nonZero (tr_blockTime t);
                ti_fee := fee |}
     end).

Record AccountInfo : Type := {
  ai_address : string;
  ai_lamports : Z;
  ai_owner : string;
  ai_executable : bool;
  ai_rentEpoch : Z
}.

(** [async getAccountInfo(address)] *)
Definition getAccountInfoOf (address : string) : M World AccountInfo :=
  requireConnection ;;;
  wrapError "Failed to get account info: "
    (publicKey <- lift (new_PublicKey address) ;;
     accountInfo <- rpc (getAccountInfo publicKey) ;;
     match accountInfo with
     | None => throw (JsError ("Account not found: " ++ address))
     | Some a =>
         ret {| ai_address := address; ai_lamports := ad_lamports a;
                ai_owner := ad_owner a; ai_executable := ad_executable a;
                ai_rentEpoch := match ad_rentEpoch a with Some r => r | None => 0%Z end |}
     end).

(** [async sendSolSecure(fromWalletPublicKey, toAddress, amount, walletService)] *)
Definition sendSolSecure (fromWalletPublicKey toAddress : string) (amount : Q)
  : M World string :=
  requireConnection ;;;
  wrapError "Failed to send SOL: "
    (fromPublicKey <- lift (new_PublicKey fromWalletPublicKey) ;;
     toPublicKey <- lift (new_PublicKey toAddress) ;;
     (if Qle_bool amount 0 then throw (JsError "Amount must be greater than 0")
      else ret tt) ;;;
     let lamports := Math_round (amount * 1000000000) in
     let transaction :=
       Transaction_add new_Transaction
         (SystemProgram_transfer fromPublicKey toPublicKey lamports) in
     blockhash <- rpc getLatestBlockhash ;;
     let transaction := set_recentBlockhash transaction blockhash in
     feePayer <- lift (new_PublicKey fromWalletPublicKey) ;;
     let transaction := set_feePayer transaction feePayer in
     signedTransaction <-
       onWalletService (signWalletTransaction fromWalletPublicKey transaction) ;;
     wire <- lift (Transaction_serialize signedTransaction) ;;
     signature <- rpc (sendRawTransaction wire) ;;
     rpc (confirmTransaction signature) ;;;
     ret signature).

(** [async sendTokenSecure(fromWalletPublicKey, toAddress, tokenMint,
    amount, decimals, walletService)] *)
Definition sendTokenSecure (fromWalletPublicKey toAddress tokenMint : string)
    (amount : Q) (decimals : Z) : M World string :=
  requireConnection ;;;
  wrapError "Failed to send token: "
    (fromPublicKey <- lift (new_PublicKey fromWalletPublicKey) ;;
     toPublicKey <- lift (new_PublicKey toAddress) ;;
     mintPublicKey <- lift (new_PublicKey tokenMint) ;;
     tokenAccounts <- rpc (getParsedTokenAccountsByOwner fromPublicKey (ByMint mintPublicKey)) ;;
     match tokenAccounts with
     | [] => throw (JsError ("No token account found for mint " ++ tokenMint))
     | sender :: _ =>
         let fromTokenAccount := ta_pubkey sender in
         recipientTokenAccounts <-
           rpc (getParsedTokenAccountsByOwner toPublicKey (ByMint mintPublicKey)) ;;
         match recipientTokenAccounts with
         | [] => throw (JsError
                   ("Recipient does not have a token account for mint " ++ tokenMint))
         | recipient :: _ =>
             let toTokenAccount := ta_pubkey recipient in
             instruction <- lift (tokenTransferInstruction fromTokenAccount toTokenAccount
                                    fromPublicKey amount decimals) ;;
             let transaction := Transaction_add new_Transaction instruction in
             blockhash <- rpc getLatestBlockhash ;;
             let transaction := set_recentBlockhash transaction blockhash in
             let transaction := set_feePayer transaction fromPublicKey in
             signedTransaction <-
               onWalletService (signWalletTransaction fromWalletPublicKey transaction) ;;
             wire <- lift (Transaction_serialize signedTransaction) ;;
             signature <- rpc (sendRawTransaction wire) ;;
             rpc (confirmTransaction signature) ;;;
             ret signature
         end
     end).

(** ** The dispatcher *)

Definition Handler : Type := Params -> M World ToolExecutionResult.

(** An entry of the server's tool registry; [handler] is present when
    [typeof toolInfo.handler === 'function']. *)
Record ToolInfo : Type := { handler : option Handler }.

(** The registry object: its own properties. *)
Definition Registry : Type := list (string * ToolInfo).

(** The four places [executeTool] looks for a registry in the server
    object. *)
Record McpServer : Type := {
  _toolRegistry : option Registry;
  toolRegistry : option Registry;
  tools : option Registry;
  _tools : option Registry
}.

(** [a || b || c || d || {}] on objects *)
Definition registryOf (server : McpServer) : Registry :=
  match _toolRegistry server, toolRegistry server, tools server, _tools server with
  | Some r, _, _, _ => r
  | None, Some r, _, _ => r
  | None, None, Some r, _ => r
  | None, None, None, Some r => r
  | None, None, None, None => []
  end.

(** Properties every plain object inherits from [Object.prototype];
    none of them has a [handler]. *)
Definition Object_prototype_keys : list string :=
  [ "constructor"; "__defineGetter__"; "__defineSetter__"; "hasOwnProperty";
    "__lookupGetter__"; "__lookupSetter__"; "isPrototypeOf"; "propertyIsEnumerable";
    "toString"; "valueOf"; "__proto__"; "toLocaleString" ].

Fixpoint ownProperty (registry : Registry) (name : string) : option ToolInfo :=
  match registry with
  | [] => None
  | (k, info) :: rest => if String.eqb k name then Some info else ownProperty rest name
  end.

(** [toolRegistry[toolName]] *)
Definition registryGet (registry : Registry) (name : string) : option ToolInfo :=
  match ownProperty registry name with
  | Some info => Some info
  | None => if includes Object_prototype_keys name then Some {| handler := None |} else None
  end.

Definition case_getBalance (toolName : string) (params : Params)
  : M World ToolExecutionResult :=
  match prop params "walletAddress" with
  | VString walletAddress =>
      try_catch
        (balance <- getWalletBalance walletAddress ;;
         ret (success ("Balance for " ++ walletAddress ++ ": "
                       ++ Number_toString (fst balance) ++ " SOL ("
                       ++ Number_toString (inject_Z (snd balance)) ++ " lamports)")))
        (fun error => ret (handleToolError error toolName))
  | _ => ret (failure "Missing or invalid walletAddress parameter")
  end.

Definition case_getTokenBalances (toolName : string) (params : Params)
  : M World ToolExecutionResult :=
  match prop params "walletAddress" with
  | VString walletAddress =>
      try_catch
        (tokens <- getTokenBalances walletAddress ;;
         match tokens with
         | [] => ret (success ("No token balances found for " ++ walletAddress))
         | _ =>
             ret (success ("Token balances for " ++ walletAddress ++ ":" ++ nl
                   ++ join nl (map (fun t => Number_toString (ta_uiAmount t)
                                             ++ " of mint " ++ ta_mint t) tokens)))
         end)
        (fun error => ret (handleToolError error toolName))
  | _ => ret (failure "Missing or invalid walletAddress parameter")
  end.

Definition case_getTransaction (toolName : string) (params : Params)
  : M World ToolExecutionResult :=
  match prop params "signature" with
  | VString signature =>
      try_catch
        (txInfo <- getTransactionInfo signature ;;
         ret (success ("Transaction " ++ signature ++ ":" ++ nl
                ++ "Status: " ++ ti_status txInfo ++ nl
                ++ "Fee: " ++ Number_toString (inject_Z (ti_fee txInfo)) ++ " lamports" ++ nl
                ++ "Block time: "
                ++ match nonZero (ti_blockTime txInfo) with
                   | Some t => Number_toString (inject_Z t)
                   | None => "unknown"
                   end)))
        (fun error => ret (handleToolError error toolName))
  | _ => ret (failure "Missing or invalid signature parameter")
  end.

Definition case_getAccountInfo (toolName : string) (params : Params)
  : M World ToolExecutionResult :=
  match prop params "address" with
  | VString address =>
      try_catch
        (accountInfo <- getAccountInfoOf address ;;
         ret (success ("Account " ++ address ++ ":" ++ nl
                ++ "Balance: "
                ++ Number_toString (inject_Z (ai_lamports accountInfo) / 1000000000)
                ++ " SOL" ++ nl
                ++ "Owner: " ++ ai_owner accountInfo ++ nl
                ++ "Executable: " ++ (if ai_executable accountInfo then "true" else "false"))))
        (fun error => ret (handleToolError error toolName))
  | _ => ret (failure "Missing or invalid address parameter")
  end.

(** The text of a completed identity-to-identity transfer; [unit] is
    ["SOL"] or ["tokens"]. *)
Definition transferResponseText (unit : string) (amount : Q)
    (senderPlatform senderPlatformId recipientPlatform recipientPlatformId : string)
    (walletCreated : bool) (signature : string) : string :=
  let responseText :=
    "Successfully sent " ++ Number_toString amount ++ " " ++ unit ++ " from "
    ++ senderPlatform ++ ":" ++ senderPlatformId ++ " to "
    ++ recipientPlatform ++ ":" ++ recipientPlatformId ++ "." ++ nl in
  let responseText :=
    if walletCreated then
      responseText ++ "A new wallet was created for "
                   ++ recipientPlatform ++ ":" ++ recipientPlatformId ++ "." ++ nl
    else responseText in
  responseText ++ "Transaction signature: " ++ signature.

(** The recipient's wallet, created when the lookup finds none, and the
    [walletCreated] flag. *)
Definition recipientWalletOrCreate (entropy : Keypair * list byte)
    (recipientPlatform recipientPlatformId : string) : M World (WalletInfo * bool) :=
  recipientWallet <-
    onWalletService (getWalletBySocialAccount recipientPlatform recipientPlatformId) ;;
  match recipientWallet with
  | Some wallet => ret (wallet, false)
  | None =>
      wallet <- onWalletService
                  (createWallet (fst entropy) (snd entropy)
                     recipientPlatform recipientPlatformId
                     (Some (recipientPlatform ++ "-" ++ recipientPlatformId))) ;;
      ret (wallet, true)
  end.

Definition noSenderWallet (senderPlatform senderPlatformId : string) : ToolExecutionResult :=
  failure ("No wallet found for sender " ++ senderPlatform ++ ":" ++ senderPlatformId).

Definition case_sendSolToUser (entropy : Keypair * list byte) (toolName : string)
    (params : Params) : M World ToolExecutionResult :=
  try_catch
    (let expectedParams :=
       [ "senderPlatform"; "senderPlatformId"; "recipientPlatform";
         "recipientPlatformId"; "amount" ] in
     let diagnostics := diagnosticParameters expectedParams params in
     let senderPlatform := prop params "senderPlatform" in
     let senderPlatformId := prop params "senderPlatformId" in
     let recipientPlatform := prop params "recipientPlatform" in
     let recipientPlatformId := prop params "recipientPlatformId" in
     let invalid :=
       ret (failure
         ("Missing or invalid parameters for sendSolToUser. Required: senderPlatform, senderPlatformId, recipientPlatform, recipientPlatformId, amount"
          ++ nl ++ nl ++ "Diagnostics:" ++ nl ++ diagnostics)) in
     match prop params "amount" with
     | VNumber amount =>
         if falsy senderPlatform || falsy senderPlatformId
            || falsy recipientPlatform || falsy recipientPlatformId
         then invalid
         else
           let senderPlatform := toString senderPlatform in
           let senderPlatformId := toString senderPlatformId in
           let recipientPlatform := toString recipientPlatform in
           let recipientPlatformId := toString recipientPlatformId in
           senderWallet <-
             onWalletService (getWalletBySocialAccount senderPlatform senderPlatformId) ;;
           match senderWallet with
           | None => ret (noSenderWallet senderPlatform senderPlatformId)
           | Some senderWallet =>
               recipient <-
                 recipientWalletOrCreate entropy recipientPlatform recipientPlatformId ;;
               let '(recipientWallet, walletCreated) := recipient in
               signature <- sendSolSecure (wi_publicKey senderWallet)
                                          (wi_publicKey recipientWallet) amount ;;
               ret (success (transferResponseText "SOL" amount
                               senderPlatform senderPlatformId
                               recipientPlatform recipientPlatformId
                               walletCreated signature))
           end
     | _ => invalid
     end)
    (fun error => ret (handleToolError error toolName)).

(** Token decimals are integers; the exponent is taken as one. *)
Definition case_sendTokenToUser (entropy : Keypair * list byte) (toolName : string)
    (params : Params) : M World ToolExecutionResult :=
  try_catch
    (let expectedParams :=
       [ "senderPlatform"; "senderPlatformId"; "recipientPlatform";
         "recipientPlatformId"; "tokenMint"; "amount"; "decimals" ] in
     let diagnostics := diagnosticParameters expectedParams params in
     let senderPlatform := prop params "senderPlatform" in
     let senderPlatformId := prop params "senderPlatformId" in
     let recipientPlatform := prop params "recipientPlatform" in
     let recipientPlatformId := prop params "recipientPlatformId" in
     let tokenMint := prop params "tokenMint" in
     let invalid :=
       ret (failure
         ("Missing or invalid parameters for sendTokenToUser. Required: senderPlatform, senderPlatformId, recipientPlatform, recipientPlatformId, tokenMint, amount, decimals"
          ++ nl ++ nl ++ "Diagnostics:" ++ nl ++ diagnostics)) in
     match prop params "amount", prop params "decimals" with
     | VNumber amount, VNumber decimals =>
         if falsy senderPlatform || falsy senderPlatformId
            || falsy recipientPlatform || falsy recipientPlatformId || falsy tokenMint
         then invalid
         else
           let senderPlatform := toString senderPlatform in
           let senderPlatformId := toString senderPlatformId in
           let recipientPlatform := toString recipientPlatform in
           let recipientPlatformId := toString recipientPlatformId in
           let tokenMint := toString tokenMint in
           senderWallet <-
             onWalletService (getWalletBySocialAccount senderPlatform senderPlatformId) ;;
           match senderWallet with
           | None => ret (noSenderWallet senderPlatform senderPlatformId)
           | Some senderWallet =>
               recipient <-
                 recipientWalletOrCreate entropy recipientPlatform recipientPlatformId ;;
               let '(recipientWallet, walletCreated) := recipient in
               signature <- sendTokenSecure (wi_publicKey senderWallet)
                                            (wi_publicKey recipientWallet)
                                            tokenMint amount (Qfloor decimals) ;;
               ret (success (transferResponseText "tokens" amount
                               senderPlatform senderPlatformId
                               recipientPlatform recipientPlatformId
                               walletCreated signature))
           end
     | _, _ => invalid
     end)
    (fun error => ret (handleToolError error toolName)).

(** [JSON.stringify(status, null, 2)] of the four string fields *)
Definition statusJson (health currentEpoch blockHeight currentSlot : string) : string :=
  let field name value :=
    "  " ++ dquote ++ name ++ dquote ++ ": " ++ dquote ++ value ++ dquote in
  "{" ++ nl
  ++ field "health" health ++ "," ++ nl
  ++ field "currentEpoch" currentEpoch ++ "," ++ nl
  ++ field "blockHeight" blockHeight ++ "," ++ nl
  ++ field "currentSlot" currentSlot ++ nl
  ++ "}".

Definition case_networkStatus (toolName : string) : M World ToolExecutionResult :=
  try_catch
    (requireConnection ;;;
     health <- try_catch (rpc getVersion ;;; ret "okay") (fun _ => ret "down") ;;
     wrapError "Failed to get network status: "
       (epochInfo <- rpc getEpochInfo ;;
        ret (success (statusJson health
               (Z_toString (epoch epochInfo))
               (match blockHeight epochInfo with
                | Some h => Z_toString h
                | None => "unknown"
                end)
               (Z_toString (absoluteSlot epochInfo))))))
    (fun error => ret (handleToolError error toolName)).

Definition notFound (toolName : string) (registry : Registry) : ToolExecutionResult :=
  failure ("Tool " ++ toolName
           ++ " not found or not implemented directly. Available tools in registry: "
           ++ join ", " (map fst registry)).

(** The [switch (toolName)] of the direct implementations *)
Definition directImplementation (entropy : Keypair * list byte) (registry : Registry)
    (toolName : string) (params : Params) : M World ToolExecutionResult :=
  if String.eqb toolName "getBalance" then case_getBalance toolName params
  else if String.eqb toolName "getTokenBalances" then case_getTokenBalances toolName params
  else if String.eqb toolName "getTransaction" then case_getTransaction toolName params
  else if String.eqb toolName "getAccountInfo" then case_getAccountInfo toolName params
  else if String.eqb toolName "sendSolToUser" then case_sendSolToUser entropy toolName params
  else if String.eqb toolName "sendTokenToUser"
       then case_sendTokenToUser entropy toolName params
  else if String.eqb toolName "networkStatus" then case_networkStatus toolName
  else ret (notFound toolName registry).

(** [async executeTool(toolName, params)]; [mcpServer] is [this.mcpServer]
    and [entropy] the random values a wallet creation in this call
    draws. *)
Definition executeTool (mcpServer : option McpServer) (entropy : Keypair * list byte)
    (toolName : string) (params : Params) : M World ToolExecutionResult :=
  match mcpServer with
  | None => ret (failure "Tool service not initialized")
  | Some server =>
      try_catch
        (let registry := registryOf server in
         match registryGet registry toolName with
         | None => directImplementation entropy registry toolName params
         | Some toolInfo =>
             match handler toolInfo with
             | None => ret (failure ("Tool " ++ toolName ++ " is not properly defined"))
             | Some h => result <- h params ;; ret result
             end
         end)
        (fun error => ret (handleToolError error toolName))
  end.

End WithServices.

Arguments World DB : clear implicits.
Arguments Handler DB : clear implicits.
Arguments ToolInfo DB : clear implicits.
Arguments Registry DB : clear implicits.
Arguments McpServer DB : clear implicits.

End ToolService.

(* ================================================================== *)
(** * The registered MCP tool [sendSolToUser] (MCP server module) *)
(* ================================================================== *)

Module McpTools.
Import Repository Solana Cipher WalletService JsValue Ledger ToolService.

Section WithServices.
Context {DB : Type} {database : Database DB} {crypto : NodeCrypto} {web3 : Web3}
        {rt : JsRuntime}.

Local Open Scope js_scope.

(** The handler registered by [server.tool("sendSolToUser", schema, handler)].
    The schema admits the three platform names, string ids and a
    positive amount; [opened] is what opening the database resolves to
    should the wallet service still need initializing. *)
Definition sendSolToUser (opened : outcome DB) (entropy : Keypair * list byte)
    (senderPlatform senderPlatformId recipientPlatform recipientPlatformId : string)
    (amount : Q) : M (World DB) ToolExecutionResult :=
  try_catch
    (ready <- onWalletService isInitialized ;;
     (if ready then ret true else onWalletService (initialize opened)) ;;;
     senderWallet <-
       onWalletService (getWalletBySocialAccount senderPlatform senderPlatformId) ;;
     match senderWallet with
     | None => ret (noSenderWallet senderPlatform senderPlatformId)
     | Some senderWallet =>
         recipient <- recipientWalletOrCreate entropy recipientPlatform recipientPlatformId ;;
         let '(recipientWallet, walletCreated) := recipient in
         signature <- ToolService.sendSolSecure (wi_publicKey senderWallet)
                                                (wi_publicKey recipientWallet) amount ;;
         ret (success (transferResponseText "SOL" amount
                         senderPlatform senderPlatformId
                         recipientPlatform recipientPlatformId
                         walletCreated signature))
     end)
    (fun error =>
       ret (failure ("Error sending SOL to user: "
                     ++ match error with
                        | JsError m | JsApiError _ m => m
                        | _ => "Unknown error"
                        end))).

End WithServices.
End McpTools.

(* ================================================================== *)
(** * POST /mcp/tools/:toolName (routes/api.ts) *)
(* ================================================================== *)

Module ApiRoute.
Import ToolService.

(** Milliseconds. *)
Definition TIMEOUT_MS : N := 30000.

Inductive settlement (A : Type) : Type :=
| Fulfilled (a : A)
| Rejected (e : thrown).
Arguments Fulfilled {A} a.
Arguments Rejected {A} e.

(** A promise, observed from the moment the route creates the race:
    when it settles and how, or [None] if it never does. *)
Definition Promise (A : Type) : Type := option (N * settlement A).

(** The promise of an [async] call that takes [duration] ms to settle. *)
Definition promiseOf {A} (duration : N) (o : outcome A) : Promise A :=
  match o with
  | Returned a => Some (duration, Fulfilled a)
  | Thrown e => Some (duration, Rejected e)
  | Pending => None
  end.

(** [new Promise((_, reject) => setTimeout(() => reject(e), ms))] *)
Definition rejectAfter {A} (ms : N) (e : thrown) : Promise A := Some (ms, Rejected e).

(** [Promise.race([p, q])]: settles as the one that settles first.
    Two promises settling in the same millisecond are ordered by the
    event loop; the model lets the first listed win. *)
Definition Promise_race {A} (p q : Promise A) : Promise A :=
  match p, q with
  | None, _ => q
  | Some _, None => p
  | Some (t1, _), Some (t2, _) => if (t1 <=? t2)%N then p else q
  end.

Definition timedOut : thrown :=
  JsApiError 408 ("Tool execution timed out after " ++ "30000" ++ "ms").

(** What the route does with the request: a JSON response with its
    status code, or [next(error)]. *)
Inductive Reply : Type :=
| JsonError (status : Z) (message : string) (tool : string)
| JsonSuccess (status : Z) (result : ToolExecutionResult) (tool : string)
| Next (error : thrown).

(** [result.content[0]?.text || 'Tool execution failed'] *)
Definition firstText (result : ToolExecutionResult) : string :=
  match content result with
  | item :: _ =>
      match c_text item with
      | Some (String c rest) => String c rest
      | _ => "Tool execution failed"
      end
  | [] => "Tool execution failed"
  end.

(** The route handler; [initialized] is [toolService.isInitialized()]
    and [execution] the promise [toolService.executeTool(toolName, params)]
    returns.  The result is when and how the request is answered. *)
Definition postTool (initialized : bool) (toolName : string)
    (execution : Promise ToolExecutionResult) : option (N * Reply) :=
  if negb initialized then
    Some (0%N, Next (JsApiError 503 "Tool service is not initialized"))
  else
    let executionPromise := Promise_race execution (rejectAfter TIMEOUT_MS timedOut) in
    match executionPromise with
    | Some (t, Fulfilled result) =>
        if isError result then Some (t, JsonError 500 (firstText result) toolName)
        else Some (t, JsonSuccess 200 result toolName)
    | Some (t, Rejected error) => Some (t, Next error)
    | None => None
    end.

(** The state of the services [t] ms after the request, for a handler
    that takes [duration] ms and leaves [after]: nothing in the route
    interrupts it. *)
Definition worldAt {W} (before after : W) (duration : option N) (t : N) : W :=
  match duration with
  | Some d => if (d <=? t)%N then after else before
  | None => before
  end.

Section WithServices.
Context {DB : Type} {database : Repository.Database DB} {crypto : Cipher.NodeCrypto}
        {web3 : Solana.Web3} {rt : JsValue.JsRuntime}.

(** [toolService.isInitialized()] *)
Definition toolServiceInitialized (mcpServer : option (McpServer DB)) (w : World DB)
  : bool :=
  match mcpServer, connection w with
  | Some _, Some _ => true
  | _, _ => false
  end.

(** A request to the route, for a call of [executeTool] that takes
    [duration] ms: when and how it is answered, and the state of the
    services at each later time. *)
Definition request (mcpServer : option (McpServer DB)) (entropy : Solana.Keypair * list byte)
    (toolName : string) (params : JsValue.Params) (duration : N) (w : World DB)
  : option (N * Reply) * (N -> World DB) :=
  if toolServiceInitialized mcpServer w then
    let '(o, after) := executeTool mcpServer entropy toolName params w in
    (postTool true toolName (promiseOf duration o),
     worldAt w after (match o with
                      | Pending => None
                      | _ => Some duration
                      end))
  else (postTool false toolName None, fun _ => w).

End WithServices.

End ApiRoute.

(* ================================================================== *)
(** * Transfer records: Database, TransactionService and the PATCH route *)
(* ================================================================== *)

Module TransactionStore.
Import JsValue.

Inductive Status : Type := pending | confirmed | failed.

Definition Status_toString (s : Status) : string :=
  match s with
  | pending => "pending"
  | confirmed => "confirmed"
  | failed => "failed"
  end.

Record TransactionRecord : Type := {
  id : Z;
  signature : string;
  sender_wallet_id : Z;
  recipient_wallet_id : option Z;
  recipient_address : string;
  amount : Q;
  token_mint : option string;
  token_symbol : option string;
  status : Status;
  created_at : string;
  confirmed_at : option string;
  block_time : option Z;
  fee : option Z
}.

(** The [Database] object: its [connected] flag, the [transactions]
    table, and whether opening the file and creating the tables
    succeeds. *)
Record Database : Type := {
  connected : bool;
  transactions : list TransactionRecord;
  opens : bool
}.

(** [x || null] on an optional number *)
Definition orNull (x : option Z) : option Z :=
  match x with
  | Some 0%Z => None
  | other => other
  end.

(** UPDATE transactions SET status = ?, confirmed_at = ?, block_time = ?,
    fee = ? WHERE signature = ? -- on one row *)
Definition updateRow (sig : string) (newStatus : Status) (confirmedAt : option string)
    (blockTime newFee : option Z) (r : TransactionRecord) : TransactionRecord :=
  if String.eqb (signature r) sig then
    {| id := id r; signature := signature r;
       sender_wallet_id := sender_wallet_id r;
       recipient_wallet_id := recipient_wallet_id r;
       recipient_address := recipient_address r;
       amount := amount r; token_mint := token_mint r; token_symbol := token_symbol r;
       status := newStatus;
       created_at := created_at r;
       confirmed_at := confirmedAt;
       block_time := blockTime;
       fee := newFee |}
  else r.

(** The statement, with [result.changes]. *)
Definition run_update (sig : string) (newStatus : Status) (confirmedAt : option string)
    (blockTime newFee : option Z) : M Database Z :=
  fun d =>
    (Returned (Z.of_nat (length (filter (fun r => String.eqb (signature r) sig)
                                        (transactions d)))),
     {| connected := connected d;
        transactions := map (updateRow sig newStatus confirmedAt blockTime newFee)
                            (transactions d);
        opens := opens d |}).

Local Open Scope js_scope.

(** [Database.connect()] *)
Definition connect : M Database bool :=
  fun d =>
    if opens d then
      (Returned true, {| connected := true; transactions := transactions d;
                         opens := opens d |})
    else (Returned false, d).

(** [Database.updateTransactionStatus(signature, status, blockTime?, fee?)];
    [now] is [new Date().toISOString()]. *)
Definition Database_updateTransactionStatus (now : string) (sig : string)
    (newStatus : Status) (blockTime newFee : option Z) : M Database bool :=
  try_catch
    ((fun d => if connected d then (Returned tt, d)
               else (Thrown (JsError "Database not connected"), d)) ;;;
     let confirmedAt := match newStatus with
                        | confirmed => Some now
                        | _ => None
                        end in
     changes <- run_update sig newStatus confirmedAt (orNull blockTime) (orNull newFee) ;;
     ret (0 <? changes)%Z)
    (fun error =>
       throw (JsError ("Failed to update transaction status in database: "
                       ++ messageOrString error))).

Record TransactionService : Type := {
  initialized : bool;
  db : Database
}.

Definition onDatabase {A} (m : M Database A) : M TransactionService A :=
  fun s => let '(o, d) := m (db s) in (o, {| initialized := initialized s; db := d |}).

(** [TransactionService.initialize()] *)
Definition initialize : M TransactionService bool :=
  try_catch
    (dbConnected <- onDatabase connect ;;
     if dbConnected : bool then
       fun s => (Returned true, {| initialized := true; db := db s |})
     else ret false)
    (fun _ => ret false).

(** [TransactionService.updateTransactionStatus(...)]; its [catch]
    logs and rethrows. *)
Definition updateTransactionStatus (now : string) (sig : string)
    (newStatus : Status) (blockTime newFee : option Z) : M TransactionService bool :=
  try_catch
    ((fun s => if initialized s then (Returned false, s) else initialize s) ;;;
     onDatabase (Database_updateTransactionStatus now sig newStatus blockTime newFee))
    (fun error => throw error).

(** [['pending', 'confirmed', 'failed'].includes(status)] with the
    status it names *)
Definition validStatus (v : JsValue.t) : option Status :=
  match v with
  | VString s =>
      if String.eqb s "pending" then Some pending
      else if String.eqb s "confirmed" then Some confirmed
      else if String.eqb s "failed" then Some failed
      else None
  | _ => None
  end.

Inductive Reply : Type :=
| Json (success : bool) (message : string)
| Next (error : thrown).

(** [router.patch('/:signature/status', ...)] *)
Definition patchStatus (now : string) (sig : string) (statusField : JsValue.t)
    (blockTime newFee : option Z) : M TransactionService Reply :=
  try_catch
    (match sig with
     | EmptyString => throw (JsApiError 400 "Transaction signature is required")
     | _ =>
         match validStatus statusField with
         | None =>
             throw (JsApiError 400 "Valid status (pending, confirmed, failed) is required")
         | Some newStatus =>
             (fun s => if initialized s then (Returned false, s) else initialize s) ;;;
             success <- updateTransactionStatus now sig newStatus blockTime newFee ;;
             if success : bool then
               ret (Json true ("Transaction status updated to "
                               ++ Status_toString newStatus))
             else throw (JsApiError 404 "Transaction not found")
         end
     end)
    (fun error => ret (Next error)).

End TransactionStore.

(* ================================================================== *)
(** * Middleware: API keys and the error handler *)
(* ================================================================== *)

Module Middleware.
Local Open Scope list_scope.
Local Open Scope string_scope.

(** [AUTH_CONFIG] (config/index.ts) *)
Record AuthConfig : Type := {
  apiKeys : list string;
  headerName : string;
  enabled : bool
}.

(** What the middleware leaves on the request. *)
Record AuthMarks : Type := {
  apiKey : option string;
  isAuthenticated : option bool
}.

Definition unmarked : AuthMarks := {| apiKey := None; isAuthenticated := None |}.

(** What a middleware does with the request: [next()] or [next(error)]. *)
Inductive Verdict : Type :=
| Proceed (marks : AuthMarks)
| Refuse (error : thrown).

(** [config.apiKeys.includes(apiKey)] *)
Definition includesKey (keys : list string) (key : string) : bool :=
  existsb (String.eqb key) keys.

(** [apiKeyAuth()]; [header] is [req.get(config.headerName)]. *)
Definition apiKeyAuth (config : AuthConfig) (header : option string) : Verdict :=
  if negb (enabled config) then Proceed unmarked
  else
    match header with
    | None | Some EmptyString => Refuse (JsApiError 401 "API key is required")
    | Some key =>
        if negb (includesKey (apiKeys config) key)
        then Refuse (JsApiError 403 "Invalid API key")
        else Proceed {| apiKey := Some key; isAuthenticated := None |}
    end.

(** [optionalApiKeyAuth()] *)
Definition optionalApiKeyAuth (config : AuthConfig) (header : option string) : Verdict :=
  if negb (enabled config) then Proceed unmarked
  else
    match header with
    | None | Some EmptyString => Proceed {| apiKey := None; isAuthenticated := Some false |}
    | Some key =>
        if negb (includesKey (apiKeys config) key)
        then Proceed {| apiKey := None; isAuthenticated := Some false |}
        else Proceed {| apiKey := Some key; isAuthenticated := Some true |}
    end.

(** [requireApiKey] *)
Definition requireApiKey (config : AuthConfig) (header : option string) : Verdict :=
  if negb (enabled config) then Proceed unmarked
  else
    match header with
    | None | Some EmptyString => Refuse (JsApiError 401 "API key is required")
    | Some key =>
        if negb (includesKey (apiKeys config) key)
        then Refuse (JsApiError 403 "Invalid API key")
        else Proceed {| apiKey := Some key; isAuthenticated := Some true |}
    end.

(** The check in front of the MCP transport (MCP server module): a
    401 JSON answer, or the request goes on to the transport. *)
Definition mcpEndpointAuth (config : AuthConfig) (header : option string) : option Z :=
  if enabled config then
    match header with
    | None | Some EmptyString => Some 401%Z
    | Some key => if negb (includesKey (apiKeys config) key) then Some 401%Z else None
    end
  else None.

(** An error as [errorHandler] reads it: whether it is an [ApiError]
    (with its status code), and its [name], [message], [data], [stack]. *)
Record ErrorObject : Type := {
  apiStatusCode : option Z;
  e_name : option string;
  e_message : string;
  e_data : option string;
  e_stack : option string
}.

(** The JSON body the handler sends, and the HTTP status. *)
Record ErrorResponse : Type := {
  r_httpStatus : Z;
  r_status : string;
  r_statusCode : Z;
  r_message : string;
  r_data : option string;
  r_stack : option string
}.

(** [errorHandler(err, req, res, next)]; [development] is
    [process.env.NODE_ENV === 'development']. *)
Definition errorHandler (development : bool) (err : ErrorObject) : ErrorResponse :=
  let '(statusCode, message, errorData) :=
    match apiStatusCode err with
    | Some code => (code, e_message err, e_data err)
    | None =>
        match e_name err with
        | Some name =>
            if String.eqb name "ValidationError" then (400%Z, e_message err, None)
            else (500%Z, "Internal Server Error", None)
        | None => (500%Z, "Internal Server Error", None)
        end
    end in
  {| r_httpStatus := statusCode;
     r_status := "error";
     r_statusCode := statusCode;
     r_message := message;
     r_data := errorData;
     r_stack := if development
                then match e_stack err with
                     | Some EmptyString => None
                     | other => other
                     end
                else None |}.

(** A thrown value as the handler sees it; [stack] is the trace the
    runtime attached to an [Error].  The routes construct their
    [ApiError]s without data. *)
Definition errorObjectOf (e : thrown) (stack : string) : ErrorObject :=
  match e with
  | JsError m =>
      {| apiStatusCode := None; e_name := Some "Error"; e_message := m;
         e_data := None; e_stack := Some stack |}
  | JsApiError code m =>
      {| apiStatusCode := Some code; e_name := Some "ApiError"; e_message := m;
         e_data := None; e_stack := Some stack |}
  | JsString s =>
      {| apiStatusCode := None; e_name := None; e_message := EmptyString;
         e_data := None; e_stack := None |}
  | JsOther =>
      {| apiStatusCode := None; e_name := None; e_message := EmptyString;
         e_data := None; e_stack := None |}
  end.

End Middleware.

(* ================================================================== *)
(** * Transfer history: recording and reading back *)
(* ================================================================== *)

Module TransactionHistory.
Import JsValue TransactionStore.
Local Open Scope list_scope.
Local Open Scope string_scope.

(** The argument of [recordTransaction]: a [TransactionRecord] whose
    optional fields may be absent. *)
Record TransactionData : Type := {
  d_id : option Z;
  d_signature : string;
  d_sender_wallet_id : Z;
  d_recipient_wallet_id : option Z;
  d_recipient_address : string;
  d_amount : Q;
  d_token_mint : option string;
  d_token_symbol : option string;
  d_status : Status;
  d_created_at : option string;
  d_confirmed_at : option string;
  d_block_time : option Z;
  d_fee : option Z
}.

(** [x || null] on an optional string *)
Definition orNullText (x : option string) : option string :=
  match x with
  | Some EmptyString => None
  | other => other
  end.

(** AUTOINCREMENT on a table that nothing deletes from: one more than
    the largest id in use. *)
Definition nextId (rows : list TransactionRecord) : Z :=
  1 + fold_right (fun r acc => Z.max (id r) acc) 0%Z rows.

(** The row the INSERT of [recordTransaction] stores. *)
Definition insertedRow (rowId : Z) (now : string) (data : TransactionData)
  : TransactionRecord :=
  {| id := rowId;
     signature := d_signature data;
     sender_wallet_id := d_sender_wallet_id data;
     recipient_wallet_id := orNull (d_recipient_wallet_id data);
     recipient_address := d_recipient_address data;
     amount := d_amount data;
     token_mint := orNullText (d_token_mint data);
     token_symbol := orNullText (d_token_symbol data);
     status := d_status data;
     created_at := now;
     confirmed_at := orNullText (d_confirmed_at data);
     block_time := orNull (d_block_time data);
     fee := orNull (d_fee data) |}.

(** INSERT INTO transactions (...) VALUES (...), with [result.lastID];
    [signature TEXT UNIQUE NOT NULL]. *)
Definition run_insert (now : string) (data : TransactionData) : M Database Z :=
  fun d =>
    if existsb (fun r => String.eqb (signature r) (d_signature data)) (transactions d) then
      (Thrown (JsError "SQLITE_CONSTRAINT: UNIQUE constraint failed: transactions.signature"),
       d)
    else
      let rowId := nextId (transactions d) in
      (Returned rowId,
       {| connected := connected d;
          transactions := (transactions d ++ [insertedRow rowId now data])%list;
          opens := opens d |}).

Definition requireConnected : M Database unit :=
  fun d => if connected d then (Returned tt, d)
           else (Thrown (JsError "Database not connected"), d).

Local Open Scope js_scope.

(** What [recordTransaction] resolves to:
    [{ id: result.lastID, ...transactionData, created_at: now }]. *)
Record RecordedTransaction : Type := {
  rt_id : option Z;
  rt_data : TransactionData;
  rt_created_at : string
}.

(** [Database.recordTransaction(transactionData)]; [now] is
    [new Date().toISOString()]. *)
Definition Database_recordTransaction (now : string) (data : TransactionData)
  : M Database RecordedTransaction :=
  try_catch
    (requireConnected ;;;
     lastID <- run_insert now data ;;
     ret {| rt_id := match d_id data with
                     | Some own => Some own
                     | None => Some lastID
                     end;
            rt_data := data;
            rt_created_at := now |})
    (fun error =>
       throw (JsError ("Failed to record transaction in database: "
                       ++ messageOrString error))).

(** [Database.getTransactionBySignature(signature)] *)
Definition Database_getTransactionBySignature (sig : string)
  : M Database (option TransactionRecord) :=
  try_catch
    (requireConnected ;;;
     fun d => (Returned (find (fun r => String.eqb (signature r) sig) (transactions d)), d))
    (fun error =>
       throw (JsError ("Failed to retrieve transaction from database: "
                       ++ messageOrString error))).

(** [if (!this.initialized) await this.initialize()] *)
Definition ensureService : M TransactionService bool :=
  fun s => if initialized s then (Returned false, s) else initialize s.

(** [TransactionService.recordTransaction(transactionData)] *)
Definition recordTransaction (now : string) (data : TransactionData)
  : M TransactionService RecordedTransaction :=
  try_catch
    (ensureService ;;; onDatabase (Database_recordTransaction now data))
    (fun error => throw error).

(** [TransactionService.getTransactionBySignature(signature)] *)
Definition getTransactionBySignature (sig : string)
  : M TransactionService (option TransactionRecord) :=
  try_catch
    (ensureService ;;; onDatabase (Database_getTransactionBySignature sig))
    (fun error => throw error).

Inductive Answer : Type :=
| Found (data : TransactionRecord)
| Forward (error : thrown).

(** [router.get('/:signature', ...)] *)
Definition getBySignature (sig : string) : M TransactionService Answer :=
  try_catch
    (match sig with
     | EmptyString => throw (JsApiError 400 "Transaction signature is required")
     | _ =>
         ensureService ;;;
         transaction <- getTransactionBySignature sig ;;
         match transaction with
         | None => throw (JsApiError 404 "Transaction not found")
         | Some t => ret (Found t)
         end
     end)
    (fun error => ret (Forward error)).

End TransactionHistory.

(* ================================================================== *)
(** * The cipher of the [Database] class *)
(* ================================================================== *)

Module DatabaseCipher.
Import Buffer Cipher.
Local Open Scope list_scope.
Local Open Scope string_scope.

Section WithCrypto.
Context {crypto : NodeCrypto}.

(** [Buffer.from(DB_ENCRYPTION_KEY.slice(0, 32), 'hex')] *)
Definition keyBuffer (dbEncryptionKey : string) : list byte :=
  from_hex (slice0 32 dbEncryptionKey).

(** [private encryptPrivateKey(privateKey)]; [iv] is [randomBytes(16)]. *)
Definition encryptPrivateKey (dbEncryptionKey : string) (iv : list byte)
    (privateKey : string) : outcome string :=
  match createCipheriv (keyBuffer dbEncryptionKey) iv with
  | Returned (key, iv') =>
      Returned (toString_hex iv ++ ":"
                ++ toString_hex (aes_256_cbc_encrypt key iv' (from_utf8 privateKey)))
  | Thrown e => Thrown e
  | Pending => Pending
  end.

(** [async decryptPrivateKey(encryptedPrivateKey)] *)
Definition decryptPrivateKey (dbEncryptionKey : string) (encryptedPrivateKey : string)
  : outcome string :=
  let body :=
    match split_colon encryptedPrivateKey with
    | ivHex :: encryptedData :: _ =>
        match createCipheriv (keyBuffer dbEncryptionKey) (from_hex ivHex) with
        | Returned (key, iv) =>
            match aes_256_cbc_decrypt key iv (from_hex encryptedData) with
            | Some plain => Returned (toString_utf8 plain)
            | None => Thrown (JsError "error:1C800064:Provider routines::bad decrypt")
            end
        | Thrown e => Thrown e
        | Pending => Pending
        end
    | _ => Thrown (JsError "The first argument must be of type string or an instance of Buffer, ArrayBuffer, or Array or an Array-like Object. Received undefined")
    end in
  match body with
  | Thrown error =>
      Thrown (JsError ("Failed to decrypt private key: " ++ messageOrString error))
  | other => other
  end.

End WithCrypto.

(** [WalletRecord] *)
Record WalletRecord : Type := {
  wr_id : option Z;
  public_key : string;
  is_custodial : bool;
  label : option string;
  encrypted_private_key : option string;
  created_at : option string;
  updated_at : option string
}.

(** The [wallets] table of the class, with its connection flag and
    AUTOINCREMENT sequence. *)
Record WalletTable : Type := {
  connected : bool;
  rows : list WalletRecord;
  sequence : Z
}.

Section WithCrypto.
Context {crypto : NodeCrypto}.

Local Open Scope js_scope.

(** INSERT INTO wallets (...) VALUES (...); [public_key TEXT UNIQUE]. *)
Definition run_insert_wallet (row : WalletRecord) : M WalletTable Z :=
  fun t =>
    if existsb (fun r => String.eqb (public_key r) (public_key row)) (rows t) then
      (Thrown (JsError "SQLITE_CONSTRAINT: UNIQUE constraint failed: wallets.public_key"), t)
    else
      let rowId := (sequence t + 1)%Z in
      (Returned rowId,
       {| connected := connected t;
          rows := (rows t ++ [ {| wr_id := Some rowId; public_key := public_key row;
                                  is_custodial := is_custodial row; label := label row;
                                  encrypted_private_key := encrypted_private_key row;
                                  created_at := created_at row;
                                  updated_at := updated_at row |} ])%list;
          sequence := rowId |}).

(** [async createWallet(walletData)]; [now] is [new Date().toISOString()]. *)
Definition createWallet (dbEncryptionKey : string) (iv : list byte) (now : string)
    (walletData : WalletRecord) : M WalletTable WalletRecord :=
  try_catch
    ((fun t => if connected t then (Returned tt, t)
               else (Thrown (JsError "Database not connected"), t)) ;;;
     encryptedKey <-
       match WalletService.nonEmpty (encrypted_private_key walletData) with
       | Some secret => e <- lift (encryptPrivateKey dbEncryptionKey iv secret) ;; ret (Some e)
       | None => ret None
       end ;;
     lastID <- run_insert_wallet
                 {| wr_id := None; public_key := public_key walletData;
                    is_custodial := is_custodial walletData;
                    label := WalletService.nonEmpty (label walletData);
                    encrypted_private_key := encryptedKey;
                    created_at := Some now; updated_at := Some now |} ;;
     ret {| wr_id := match wr_id walletData with
                     | Some own => Some own
                     | None => Some lastID
                     end;
            public_key := public_key walletData;
            is_custodial := is_custodial walletData; label := label walletData;
            encrypted_private_key := WalletService.nonEmpty encryptedKey;
            created_at := Some now; updated_at := Some now |})
    (fun error =>
       throw (JsError ("Failed to create wallet in database: " ++ messageOrString error))).

End WithCrypto.

End DatabaseCipher.

(* ================================================================== *)
(** * The tool list *)
(* ================================================================== *)

Module ToolList.
Import Repository Solana Cipher WalletService JsValue ToolService.
Local Open Scope list_scope.
Local Open Scope string_scope.

Record ToolDescription : Type := { td_name : string; td_description : string }.

(** The [directTools] array of [listTools]. *)
Definition directTools : list ToolDescription :=
  [ {| td_name := "getBalance"; td_description := "Get SOL balance for an address" |};
    {| td_name := "getTokenBalances";
       td_description := "Get token balances for an address" |};
    {| td_name := "getTransaction"; td_description := "Get transaction details" |};
    {| td_name := "getAccountInfo"; td_description := "Get account information" |};
    {| td_name := "networkStatus";
       td_description := "Get Solana network status information" |};
    {| td_name := "sendSolToUser";
       td_description :=
         "Send SOL from one social account to another, creating a wallet if needed" |};
    {| td_name := "sendTokenToUser";
       td_description :=
         "Send tokens from one social account to another, creating a wallet if needed" |};
    {| td_name := "sendSolSecure";
       td_description := "Send SOL securely using the wallet service" |};
    {| td_name := "sendTokenSecure";
       td_description := "Send SPL tokens securely using the wallet service" |} ].

(** One turn of the loop over [directTools]. *)
Definition addDirect (tools : list ToolDescription) (directTool : ToolDescription)
  : list ToolDescription :=
  if existsb (String.eqb (td_name directTool)) (map td_name tools) then tools
  else (tools ++ [ {| td_name := td_name directTool;
                      td_description := "[DIRECT IMPL] " ++ td_description directTool |} ])%list.

Section WithServices.
Context {DB : Type}.

(** [async listTools()]; [describe name toolInfo] is the text of
    [toolInfo.description || (toolInfo.schema && toolInfo.schema.description)]
    when there is one.  Nothing in the body throws on a registry of
    objects, so its [catch], which answers the bare direct list, is not
    entered. *)
Definition listTools (describe : string -> ToolInfo DB -> option string)
    (mcpServer : option (McpServer DB)) : outcome (list ToolDescription) :=
  match mcpServer with
  | None => Thrown (JsError "Tool service not initialized")
  | Some server =>
      let toolRegistry := registryOf server in
      let tools :=
        map (fun entry =>
               {| td_name := fst entry;
                  td_description :=
                    match describe (fst entry) (snd entry) with
                    | Some text => text
                    | None => "Tool: " ++ fst entry
                    end |}) toolRegistry in
      Returned (fold_left addDirect directTools tools)
  end.

End WithServices.

End ToolList.

(* ================================================================== *)
(** * The user service and the key-export route *)
(* ================================================================== *)

Module UserService.
Import Repository Solana Cipher WalletService.
Local Open Scope list_scope.
Local Open Scope string_scope.

Section WithDatabase.
Context {DB : Type} {database : Database DB} {crypto : NodeCrypto} {web3 : Web3}.

Local Open Scope js_scope.

(** [if (!walletService.isInitialized()) { await walletService.initialize(); }];
    [opened] is what opening the database resolves to. *)
Definition ensureWalletService (opened : outcome DB) : M (Manager DB) unit :=
  ready <- isInitialized ;;
  if ready : bool then ret tt else (initialize opened ;;; ret tt).

(** [async getUserWallet(platform, platformId)] *)
Definition getUserWallet (opened : outcome DB) (platform platformId : string)
  : M (Manager DB) (option WalletInfo) :=
  try_catch
    (ensureWalletService opened ;;; getWalletBySocialAccount platform platformId)
    (fun _ => ret None).

(** [async createUserWallet(platform, platformId, label?)] *)
Definition createUserWallet (opened : outcome DB) (keypair : Keypair) (iv : list byte)
    (platform platformId : string) (label : option string) : M (Manager DB) WalletInfo :=
  try_catch
    (ensureWalletService opened ;;; createWallet keypair iv platform platformId label)
    (fun error => throw error).

(** [async getOrCreateUserWallet(platform, platformId, label?)] *)
Definition getOrCreateUserWallet (opened : outcome DB) (keypair : Keypair) (iv : list byte)
    (platform platformId : string) (label : option string) : M (Manager DB) WalletInfo :=
  existingWallet <- getUserWallet opened platform platformId ;;
  match existingWallet with
  | Some wallet => ret wallet
  | None =>
      createUserWallet opened keypair iv platform platformId
        (Some (match nonEmpty label with
               | Some l => l
               | None => platform ++ "-" ++ platformId
               end))
  end.

(** [async linkAccountToWallet(platform, platformId, walletPublicKey)] *)
Definition linkAccountToWallet (opened : outcome DB)
    (platform platformId walletPublicKey : string) : M (Manager DB) WalletInfo :=
  try_catch
    (ensureWalletService opened ;;;
     linkSocialAccountToWallet platform platformId walletPublicKey)
    (fun error => throw error).

(** [async unlinkAccount(platform, platformId)] *)
Definition unlinkAccount (opened : outcome DB) (platform platformId : string)
  : M (Manager DB) bool :=
  try_catch
    (ensureWalletService opened ;;; unlinkSocialAccount platform platformId)
    (fun _ => ret false).

Inductive ExportReply : Type :=
| Exported (privateKey : string)
| NextError (error : thrown).

(** [userRoutes.post('/wallet/export-private-key', ...)]; the body
    field is a string when present. *)
Definition exportPrivateKey (opened : outcome DB) (walletPublicKey : option string)
  : M (Manager DB) ExportReply :=
  try_catch
    (match nonEmpty walletPublicKey with
     | None => throw (JsApiError 400 "Wallet public key is required")
     | Some publicKey =>
         ensureWalletService opened ;;;
         wallet <- getWalletByPublicKey publicKey ;;
         match wallet with
         | None => throw (JsApiError 404 "Wallet not found")
         | Some w =>
             match nonEmpty (encryptedPrivateKey w) with
             | None => throw (JsApiError 400 "No private key available for this wallet")
             | Some envelope =>
                 key <- (fun m => (Returned (encryptionKey m), m)) ;;
                 privateKey <- lift (decryptPrivateKey key envelope) ;;
                 ret (Exported privateKey)
             end
         end
     end)
    (fun error => ret (NextError error)).

End WithDatabase.

End UserService.

(* ================================================================== *)
(** * The registered MCP tool [sendTokenToUser] *)
(* ================================================================== *)

Module McpTokenTools.
Import Repository Solana Cipher WalletService JsValue Ledger ToolService.
Local Open Scope list_scope.
Local Open Scope string_scope.

Section WithServices.
Context {DB : Type} {database : Database DB} {crypto : NodeCrypto} {web3 : Web3}
        {rt : JsRuntime}.

Local Open Scope js_scope.

(** The handler registered by [server.tool("sendTokenToUser", schema, handler)]. *)
Definition sendTokenToUser (opened : outcome DB) (entropy : Keypair * list byte)
    (senderPlatform senderPlatformId recipientPlatform recipientPlatformId tokenMint : string)
    (amount : Q) (decimals : Z) : M (World DB) ToolExecutionResult :=
  try_catch
    (ready <- onWalletService isInitialized ;;
     (if ready : bool then ret true else onWalletService (initialize opened)) ;;;
     senderWallet <-
       onWalletService (getWalletBySocialAccount senderPlatform senderPlatformId) ;;
     match senderWallet with
     | None => ret (noSenderWallet senderPlatform senderPlatformId)
     | Some senderWallet =>
         recipient <- recipientWalletOrCreate entropy recipientPlatform recipientPlatformId ;;
         let '(recipientWallet, walletCreated) := recipient in
         match new_PublicKey tokenMint with
         | Returned _ =>
             signature <- ToolService.sendTokenSecure (wi_publicKey senderWallet)
                            (wi_publicKey recipientWallet) tokenMint amount decimals ;;
             ret (success (transferResponseText "tokens" amount
                             senderPlatform senderPlatformId
                             recipientPlatform recipientPlatformId
                             walletCreated signature))
         | _ => ret (failure ("Invalid token mint address: " ++ tokenMint))
         end
     end)
    (fun error =>
       ret (failure ("Error sending token to user: "
                     ++ match error with
                        | JsError m | JsApiError _ m => m
                        | _ => "Unknown error"
                        end))).

End WithServices.

End McpTokenTools.

(* ================================================================== *)
(** * Executable stand-ins for the SDK and the runtime *)
(* ================================================================== *)

Module Stubs.
Import Solana JsValue Cipher.

(** A stand-in for AES that leaves the blocks as they are; it makes the
    cipher functions executable. *)
#[export] Instance NullCipher : NodeCrypto := {
  aes_256_cbc_encrypt := fun _ _ plain => plain;
  aes_256_cbc_decrypt := fun _ _ encrypted => Some encrypted;
  aes_256_cbc_inverse := fun _ _ _ _ _ => eq_refl
}.

(** A keypair whose public key is its secret read as text, transactions
    signed by attaching the secret; enough to run the services. *)
#[export] Instance StubWeb3 : Web3 := {
  isPublicKey := fun s => negb (String.eqb s EmptyString);
  bs58_encode := string_of_list_byte;
  bs58_decode := fun s => Some (list_byte_of_string s);
  Keypair_fromSecretKey := fun bytes =>
    Some {| publicKey := string_of_list_byte bytes; secretKey := bytes |};
  Transaction_sign := fun keypair t =>
    Returned {| instructions := instructions t; recentBlockhash := recentBlockhash t;
                feePayer := feePayer t;
                signatures := [(publicKey keypair, secretKey keypair)] |};
  Transaction_serialize := fun t =>
    Returned (concat (map snd (signatures t)))
}.

(** Numbers printed as numerator/denominator. *)
#[export] Instance StubRuntime : JsRuntime := {
  Number_toString := fun q =>
    WalletService.Z_toString (Qnum q) ++ "/" ++ WalletService.Z_toString (Zpos (Qden q))
}.

Definition keypairOf (name : string) : Keypair :=
  {| publicKey := name; secretKey := list_byte_of_string name |}.

(** ** Sample states *)

Import Repository WalletService.

Definition empty_db : MemDb :=
  {| wallets := []; social_accounts := []; wallets_seq := 0; social_seq := 0;
     current_timestamp := "2025-01-01 00:00:00" |}.

Definition sample_iv : list byte := repeat x00 16.
Definition sample_iv' : list byte := repeat x01 16.
Definition sample_key : string := "0123456789abcdef0123456789abcdef".

(** A freshly initialized service on empty tables. *)
Definition fresh_manager : Manager (Traced MemDb) :=
  {| initialized := true;
     db := Some {| inner := empty_db; statements := [] |};
     encryptionKey := sample_key |}.

(** The same after [createWallet('twitter', 'alice')]. *)
Definition alice_manager : Manager (Traced MemDb) :=
  snd (createWallet (keypairOf "alicePublicKey") sample_iv "twitter" "alice" None
         fresh_manager).

(** [alice_manager] with an empty statement log. *)
Definition alice_manager_quiet : Manager (Traced MemDb) :=
  {| initialized := true;
     db := match db alice_manager with
           | Some t => Some {| inner := inner t; statements := [] |}
           | None => None
           end;
     encryptionKey := sample_key |}.

(** The statements a computation has sent, and the tables it leaves. *)
Definition issued (m : Manager (Traced MemDb)) : list Statement :=
  match db m with
  | Some t => statements t
  | None => []
  end.

Definition tablesOf (m : Manager (Traced MemDb)) : list wallet_row * list SocialAccount :=
  match db m with
  | Some t => (wallets (inner t), social_accounts (inner t))
  | None => ([], [])
  end.

(** The unlogged service on the tables of [alice_manager]. *)
Definition alice_plain : Manager MemDb :=
  {| initialized := true;
     db := match db alice_manager with
           | Some t => Some (inner t)
           | None => None
           end;
     encryptionKey := sample_key |}.

Definition alice_db : MemDb :=
  match db alice_plain with
  | Some d => d
  | None => empty_db
  end.

(** A freshly initialized, unlogged service on empty tables. *)
Definition alice_plain_fresh : Manager MemDb :=
  {| initialized := true; db := Some empty_db; encryptionKey := sample_key |}.

(** An initialized service whose database file has become unreadable. *)
Definition broken_manager : Manager BrokenDb :=
  {| initialized := true;
     db := Some (Broken "SQLITE_IOERR: disk I/O error");
     encryptionKey := sample_key |}.

(** An endpoint that answers every request. *)
Definition sample_connection : Ledger.Connection :=
  {| Ledger.requests := [];
     Ledger.answer_getBalance := fun _ => Returned 5000000000%Z;
     Ledger.answer_getParsedTokenAccountsByOwner := fun owner _ =>
       Returned [ {| Ledger.ta_pubkey := owner ++ "TokenAccount";
                     Ledger.ta_mint := "mint";
                     Ledger.ta_uiAmount := 10; Ledger.ta_decimals := 6 |} ];
     Ledger.answer_getTransaction := fun _ => Returned None;
     Ledger.answer_getAccountInfo := fun _ => Returned None;
     Ledger.answer_getLatestBlockhash := Returned "blockhash";
     Ledger.answer_sendRawTransaction := fun _ => Returned "signature1";
     Ledger.answer_confirmTransaction := fun _ => Returned tt;
     Ledger.answer_getVersion := Returned tt;
     Ledger.answer_getEpochInfo :=
       Returned {| Ledger.epoch := 700; Ledger.blockHeight := Some 1000%Z;
                   Ledger.absoluteSlot := 2000 |} |}.

(** The services with alice's wallet in store and a live endpoint. *)
Definition alice_world : ToolService.World MemDb :=
  {| ToolService.walletService := alice_plain;
     ToolService.connection := Some sample_connection |}.

(** A server object without a tool registry: every tool runs through
    the direct implementations. *)
Definition bare_server : ToolService.McpServer MemDb :=
  {| ToolService._toolRegistry := None; ToolService.toolRegistry := None;
     ToolService.tools := None; ToolService._tools := None |}.

(** A server whose registry holds one tool, and its handler throws. *)
Definition throwing_server : ToolService.McpServer MemDb :=
  {| ToolService._toolRegistry :=
       Some [ ("explode",
               {| ToolService.handler := Some (fun _ => throw (JsError "boom")) |}) ];
     ToolService.toolRegistry := None;
     ToolService.tools := None; ToolService._tools := None |}.

Definition sample_entropy : Keypair * list byte := (keypairOf "bobPublicKey", sample_iv').

(** A transfer record that the ledger has confirmed. *)
Definition confirmed_record : TransactionStore.TransactionRecord :=
  {| TransactionStore.id := 1;
     TransactionStore.signature := "signature1";
     TransactionStore.sender_wallet_id := 1;
     TransactionStore.recipient_wallet_id := None;
     TransactionStore.recipient_address := "bobPublicKey";
     TransactionStore.amount := 1;
     TransactionStore.token_mint := None;
     TransactionStore.token_symbol := None;
     TransactionStore.status := TransactionStore.confirmed;
     TransactionStore.created_at := "2025-01-01T00:00:00.000Z";
     TransactionStore.confirmed_at := Some "2025-01-01T00:00:05.000Z";
     TransactionStore.block_time := Some 1735689605%Z;
     TransactionStore.fee := Some 5000%Z |}.

Definition confirmed_service : TransactionStore.TransactionService :=
  {| TransactionStore.initialized := true;
     TransactionStore.db :=
       {| TransactionStore.connected := true;
          TransactionStore.transactions := [confirmed_record];
          TransactionStore.opens := true |} |}.

(** ** The two-call scenario: alice sends 1 SOL to bob, twice *)

Definition alice_info : WalletInfo :=
  match fst (getWalletBySocialAccount "twitter" "alice" alice_plain) with
  | Returned (Some info) => info
  | _ => toWalletInfo {| w_id := 0; w_public_key := EmptyString; w_is_custodial := false;
                         w_label := None; w_encrypted_private_key := None;
                         w_created_at := EmptyString; w_updated_at := EmptyString |} []
  end.

(** The wallet created for bob by the first call, and the services
    right after its creation. *)
Definition bob_info : WalletInfo :=
  match fst (createWallet (keypairOf "bobPublicKey") sample_iv' "twitter" "bob"
               (Some "twitter-bob") alice_plain) with
  | Returned info => info
  | _ => alice_info
  end.

Definition bob_world : ToolService.World MemDb :=
  {| ToolService.walletService :=
       snd (createWallet (keypairOf "bobPublicKey") sample_iv' "twitter" "bob"
              (Some "twitter-bob") alice_plain);
     ToolService.connection := Some sample_connection |}.

(** The services after the first transfer, and after the second. *)
Definition after_first : ToolService.World MemDb :=
  snd (ToolService.sendSolSecure "alicePublicKey" "bobPublicKey" 1 bob_world).

Definition after_second : ToolService.World MemDb :=
  snd (ToolService.sendSolSecure "alicePublicKey" "bobPublicKey" 1 after_first).

(** The services after alice has sent 1.5 tokens of six decimals. *)
Definition after_token : ToolService.World MemDb :=
  snd (ToolService.sendTokenSecure "alicePublicKey" "bobPublicKey" "mint" (3 # 2) 6
         alice_world).

Definition sample_transaction : Transaction :=
  set_feePayer
    (set_recentBlockhash
       (Transaction_add new_Transaction
          (SystemProgram_transfer "alicePublicKey" "bobPublicKey" 1000000000))
       "blockhash")
    "alicePublicKey".

(** [sample_transaction] as signed with alice's wallet. *)
Definition signed_sample : Transaction :=
  match fst (signWalletTransaction "alicePublicKey" sample_transaction alice_plain) with
  | Returned signed => signed
  | _ => sample_transaction
  end.

End Stubs.

(* ================================================================== *)
(** * Vocabulary of the properties *)
(* ================================================================== *)

Module Vocabulary.
Import Repository Solana Cipher WalletService JsValue Ledger ToolService.

(** AUTOINCREMENT: no row carries an id beyond the sequence. *)
Definition ids_within_sequence (d : MemDb) : Prop :=
  Forall (fun w => (w_id w <= wallets_seq d)%Z) (wallets d).

(** The claim as worded: the duplicate is reported by the INSERT that
    violates UNIQUE(platform, platform_id), with no existence query
    before it. *)
Definition detectedByConstraintOnly (platform platformId : string)
    (sent : list Statement) : Prop :=
  (exists walletId, In (InsertSocialAccount platform platformId walletId) sent) /\
  ~ In (SelectSocialByIdentity platform platformId) sent.

Definition invalidAmount : thrown :=
  JsError "Failed to send SOL: Amount must be greater than 0".

(** The token program's Transfer, as the ledger defines it: the tag
    byte 3, then the amount as an unsigned 64-bit little-endian integer
    (byte [i] is [amount / 256^i mod 256]); the accounts are the source
    holding account (writable), the destination holding account
    (writable) and the owner of the source (signer). *)
Definition u64_le (amount : Z) : list Z :=
  map (fun i => (amount / 256 ^ Z.of_nat i) mod 256)%Z (seq 0 8).

Definition splTokenTransfer (source destination owner : string) (amount : Z)
  : TransactionInstruction :=
  {| programId := "TokenkegQfeZyiNwAJbNbGKPFXCWuBvf9Ss623VQ5DA";
     keys := [ {| pubkey := source; isSigner := false; isWritable := true |};
               {| pubkey := destination; isSigner := false; isWritable := true |};
               {| pubkey := owner; isSigner := true; isWritable := false |} ];
     data := 3%Z :: u64_le amount |}.

(** The value of a little-endian byte string. *)
Fixpoint le_value (bytes : list Z) : Z :=
  match bytes with
  | [] => 0
  | b :: rest => b + 256 * le_value rest
  end.

Definition directNames : list string :=
  [ "getBalance"; "getTokenBalances"; "getTransaction"; "getAccountInfo";
    "sendSolToUser"; "sendTokenToUser"; "networkStatus" ].

(** A tool whose handler never settles. *)
Definition hanging_server : McpServer MemDb :=
  {| _toolRegistry := Some [ ("hang", {| handler := Some (fun _ w => (Pending, w)) |}) ];
     toolRegistry := None; tools := None; _tools := None |}.

(** Computations that leave the wallet service as it is. *)
Definition keepsWallets {A} (m : M (World MemDb) A) : Prop :=
  forall w, walletService (snd (m w)) = walletService w.

Definition transferParams (sp sid rp rid : string) (amount : Q) : Params :=
  [ ("senderPlatform", VString sp); ("senderPlatformId", VString sid);
    ("recipientPlatform", VString rp); ("recipientPlatformId", VString rid);
    ("amount", VNumber amount) ].

Definition walletCount (w : World MemDb) : nat :=
  match db (walletService w) with
  | Some d => length (wallets d)
  | None => 0
  end.

Section WithServices.
Context {crypto : NodeCrypto} {web3 : Web3} {rt : JsRuntime}.

(** [createWallet] in two stretches: up to the answer of its existence
    query, and from there on.  Another call can run between the two. *)
Definition createWallet_check (platform platformId : string)
  : M (Manager MemDb) (option SocialAccount) :=
  bind ensureInitialized (fun _ => onDb (get_social_by_identity platform platformId)).

Definition createWallet_rest (keypair : Keypair) (iv : list byte)
    (platform platformId : string) (label : option string)
    (existingAccount : option SocialAccount) : M (Manager MemDb) WalletInfo :=
  match existingAccount with
  | Some _ => throw (alreadyLinked platform platformId)
  | None =>
      bind (fun m => (Returned (encryptionKey m), m))
        (fun key =>
           bind (lift (encryptPrivateKey key iv (bs58_encode (secretKey keypair))))
             (fun encryptedPrivateKey =>
                bind (onDb (run_insert_wallet (publicKey keypair) true (nonEmpty label)
                              (Some encryptedPrivateKey)))
                  (fun walletResult =>
                     bind (onDb (run_insert_social platform platformId
                                   (lastID walletResult)))
                       (fun _ => getWalletById (lastID walletResult)))))
  end.

(** What both entry points run between [try] and [catch] once the
    parameters are validated. *)
Definition sendSolBody (entropy : Keypair * list byte) (sp sid rp rid : string) (amount : Q)
  : M (World MemDb) ToolExecutionResult :=
  bind (onWalletService (getWalletBySocialAccount sp sid))
    (fun senderWallet =>
       match senderWallet with
       | None => ret (noSenderWallet sp sid)
       | Some senderWallet =>
           bind (recipientWalletOrCreate entropy rp rid)
             (fun recipient =>
                let '(recipientWallet, walletCreated) := recipient in
                bind (sendSolSecure (wi_publicKey senderWallet)
                        (wi_publicKey recipientWallet) amount)
                  (fun signature =>
                     ret (success (transferResponseText "SOL" amount sp sid rp rid
                                     walletCreated signature))))
       end).

End WithServices.

End Vocabulary.

Module RecordVocabulary.
Import TransactionStore.

(** The fields of a record no status update writes. *)
Definition sameTransfer (r r' : TransactionRecord) : Prop :=
  id r' = id r /\ signature r' = signature r /\
  sender_wallet_id r' = sender_wallet_id r /\
  recipient_wallet_id r' = recipient_wallet_id r /\
  recipient_address r' = recipient_address r /\
  amount r' = amount r /\ token_mint r' = token_mint r /\
  token_symbol r' = token_symbol r /\ created_at r' = created_at r.

Definition confirmedAtFor (now : string) (newStatus : Status) : option string :=
  match newStatus with
  | confirmed => Some now
  | _ => None
  end.

(** How a record may differ after a status update for [sig]. *)
Definition updatedAs (now sig : string) (newStatus : Status) (blockTime newFee : option Z)
    (r r' : TransactionRecord) : Prop :=
  sameTransfer r r' /\
  (r' = r \/
   (signature r = sig /\ status r' = newStatus /\
    confirmed_at r' = confirmedAtFor now newStatus /\
    block_time r' = orNull blockTime /\ fee r' = orNull newFee)).

End RecordVocabulary.

(* ================================================================== *)
(** * Vocabulary of the further properties *)
(* ================================================================== *)

Module VaultVocabulary.
Import Repository Solana Cipher WalletService.
Local Open Scope list_scope.
Local Open Scope string_scope.

(** The manager on another handle. *)
Definition withDb {DB} (m : Manager DB) (d : DB) : Manager DB :=
  {| initialized := initialized m; db := Some d; encryptionKey := encryptionKey m |}.

(** PRIMARY KEY: no two wallet rows share an id. *)
Definition wallet_ids_distinct (d : MemDb) : Prop := NoDup (map w_id (wallets d)).

(** FOREIGN KEY (wallet_id) REFERENCES wallets(id), which SQLite does
    not enforce here: every binding names a stored wallet. *)
Definition bindings_resolve (d : MemDb) : Prop :=
  forall a, In a (social_accounts d) -> exists w, In w (wallets d) /\ w_id w = s_walletId a.

Definition sameIdentity (platform platformId platform' platformId' : string) : Prop :=
  platform' = platform /\ platformId' = platformId.

(** Absent from the tables. *)
Definition unbound (platform platformId : string) (d : MemDb) : Prop :=
  existsb (is_identity platform platformId) (social_accounts d) = false.

Definition bound (platform platformId : string) (d : MemDb) : Prop :=
  existsb (is_identity platform platformId) (social_accounts d) = true.

Definition walletNotFound (walletPublicKey : string) : thrown :=
  JsError ("Wallet with public key " ++ walletPublicKey ++ " not found").

(** The row and the binding [createWallet] inserts, and the tables it
    leaves. *)
Definition createdRow (d : MemDb) (publicKey : string) (label : option string)
    (envelope : string) : wallet_row :=
  {| w_id := wallets_seq d + 1; w_public_key := publicKey; w_is_custodial := true;
     w_label := nonEmpty label; w_encrypted_private_key := Some envelope;
     w_created_at := current_timestamp d; w_updated_at := current_timestamp d |}.

Definition createdBinding (d : MemDb) (platform platformId : string) : SocialAccount :=
  {| s_id := social_seq d + 1; s_platform := platform; s_platformId := platformId;
     s_walletId := wallets_seq d + 1; s_createdAt := current_timestamp d |}.

Definition afterCreate (d : MemDb) (row : wallet_row) (binding : SocialAccount) : MemDb :=
  {| wallets := (wallets d ++ [row])%list;
     social_accounts := (social_accounts d ++ [binding])%list;
     wallets_seq := wallets_seq d + 1; social_seq := social_seq d + 1;
     current_timestamp := current_timestamp d |}.

(** [label || `Wallet for ${platformId}`] *)
Definition userLabel (platformId : string) (label : option string) : string :=
  match nonEmpty label with
  | Some l => l
  | None => "Wallet for " ++ platformId
  end.

End VaultVocabulary.

Module VaultSamples.
Import Repository Solana Cipher WalletService Stubs.
Local Open Scope list_scope.
Local Open Scope string_scope.

(** A service that was never initialized. *)
Definition cold_manager : Manager MemDb :=
  {| initialized := false; db := None; encryptionKey := sample_key |}.

(** alice's wallet row. *)
Definition alice_row : wallet_row :=
  match wallets alice_db with
  | w :: _ => w
  | [] => {| w_id := 0; w_public_key := EmptyString; w_is_custodial := false;
             w_label := None; w_encrypted_private_key := None;
             w_created_at := EmptyString; w_updated_at := EmptyString |}
  end.

(** alice's service with a key too short for AES-256. *)
Definition short_key_manager : Manager MemDb :=
  {| initialized := true; db := Some alice_db; encryptionKey := "too short" |}.

End VaultSamples.

Module ExecutorVocabulary.
Import Repository Solana Cipher WalletService JsValue Ledger ToolService.
Local Open Scope list_scope.
Local Open Scope string_scope.

(** The requests the endpoint has received. *)
Definition requestsOf {DB} (w : World DB) : list rpc_call :=
  match connection w with
  | Some c => requests c
  | None => []
  end.

(** The transaction [sendSolSecure] hands to the wallet service. *)
Definition solTransfer (fromPubkey toPubkey : string) (lamports : Z) (blockhash : string)
  : Transaction :=
  {| instructions := [SystemProgram_transfer fromPubkey toPubkey lamports];
     recentBlockhash := Some blockhash;
     feePayer := Some fromPubkey;
     signatures := [] |}.

(** The world after the endpoint has received [calls]. *)
Definition logged {DB} (w : World DB) (calls : list rpc_call) : World DB :=
  {| walletService := walletService w;
     connection := match connection w with
                   | Some c => Some (fold_left (fun c call => record_request call c) calls c)
                   | None => None
                   end |}.

Definition isHoldingLookup (call : rpc_call) : bool :=
  match call with
  | GetParsedTokenAccountsByOwner _ (ByMint _) => true
  | _ => false
  end.

(** The status object of [networkStatus], serialized. *)
Definition networkStatusText (health : string) (info : EpochInfo) : string :=
  statusJson health (Z_toString (epoch info))
    (match blockHeight info with
     | Some h => Z_toString h
     | None => "unknown"
     end)
    (Z_toString (absoluteSlot info)).

End ExecutorVocabulary.

Module DispatchVocabulary.
Import Repository Solana Cipher WalletService JsValue Ledger ToolService.
Local Open Scope list_scope.
Local Open Scope string_scope.

Definition isString (v : JsValue.t) : bool :=
  match v with VString _ => true | _ => false end.

Definition isNumber (v : JsValue.t) : bool :=
  match v with VNumber _ => true | _ => false end.

Definition anyFalsy (params : Params) (names : list string) : bool :=
  existsb (fun name => falsy (prop params name)) names.

(** The parameter bags a direct implementation turns away: a required
    string that is not a string, an identity field that is missing or
    empty, an amount or a number of decimals that is not a number. *)
Definition illFormed (toolName : string) (params : Params) : bool :=
  if String.eqb toolName "getBalance" || String.eqb toolName "getTokenBalances"
  then negb (isString (prop params "walletAddress"))
  else if String.eqb toolName "getTransaction"
  then negb (isString (prop params "signature"))
  else if String.eqb toolName "getAccountInfo"
  then negb (isString (prop params "address"))
  else if String.eqb toolName "sendSolToUser"
  then anyFalsy params [ "senderPlatform"; "senderPlatformId"; "recipientPlatform";
                         "recipientPlatformId" ]
       || negb (isNumber (prop params "amount"))
  else if String.eqb toolName "sendTokenToUser"
  then anyFalsy params [ "senderPlatform"; "senderPlatformId"; "recipientPlatform";
                         "recipientPlatformId"; "tokenMint" ]
       || negb (isNumber (prop params "amount"))
       || negb (isNumber (prop params "decimals"))
  else false.

End DispatchVocabulary.

Module RouteVocabulary.
Import ToolService ApiRoute Middleware.
Local Open Scope list_scope.
Local Open Scope string_scope.

(** The HTTP status a request to the tool route ends with: the route's
    own, or the error handler's for what the route passed to [next]. *)
Definition httpStatusOf (development : bool) (stack : string) (reply : ApiRoute.Reply) : Z :=
  match reply with
  | JsonError status _ _ => status
  | JsonSuccess status _ _ => status
  | ApiRoute.Next error => r_httpStatus (errorHandler development (errorObjectOf error stack))
  end.

Definition passes (v : Verdict) : bool :=
  match v with Proceed _ => true | Refuse _ => false end.

End RouteVocabulary.

Module HistoryVocabulary.
Import TransactionStore TransactionHistory.
Local Open Scope list_scope.
Local Open Scope string_scope.

(** [signature TEXT UNIQUE]: no two rows share a signature. *)
Definition signatures_unique (d : Database) : Prop :=
  NoDup (map signature (transactions d)).

Definition unrecorded (sig : string) (d : Database) : Prop :=
  forall r, In r (transactions d) -> signature r <> sig.

Definition withTransactions (s : TransactionService) (rows : list TransactionRecord)
  : TransactionService :=
  {| initialized := initialized s;
     db := {| connected := connected (db s); transactions := rows; opens := opens (db s) |} |}.

End HistoryVocabulary.

Module ServiceSamples.
Import Repository Solana Cipher WalletService JsValue Ledger ToolService Stubs
  TransactionStore TransactionHistory.
Local Open Scope list_scope.
Local Open Scope string_scope.

(** An endpoint that lists no token account and whose version probe
    fails. *)
Definition bare_connection : Connection :=
  {| requests := [];
     answer_getBalance := fun _ => Returned 0%Z;
     answer_getParsedTokenAccountsByOwner := fun _ _ => Returned [];
     answer_getTransaction := fun _ => Returned None;
     answer_getAccountInfo := fun _ => Returned None;
     answer_getLatestBlockhash := Returned "blockhash";
     answer_sendRawTransaction := fun _ => Returned "signature1";
     answer_confirmTransaction := fun _ => Returned tt;
     answer_getVersion := Thrown (JsError "fetch failed");
     answer_getEpochInfo :=
       Returned {| epoch := 700%Z; blockHeight := None; absoluteSlot := 2000%Z |} |}.

Definition bare_world : World MemDb :=
  {| walletService := alice_plain; connection := Some bare_connection |}.

(** The holding accounts [sample_connection] lists for alice and bob. *)
Definition holdingOf (owner : string) : TokenAccount :=
  {| ta_pubkey := owner ++ "TokenAccount"; ta_mint := "mint";
     ta_uiAmount := 10; ta_decimals := 6 |}.

(** The transfer of 1.5 tokens of six decimals, as [sendTokenSecure]
    builds it, and as signed with alice's wallet. *)
Definition token_transaction : Transaction :=
  {| instructions :=
       [ Vocabulary.splTokenTransfer "alicePublicKeyTokenAccount"
           "bobPublicKeyTokenAccount" "alicePublicKey" 1500000 ];
     recentBlockhash := Some "blockhash";
     feePayer := Some "alicePublicKey";
     signatures := [] |}.

Definition signed_token : Transaction :=
  match fst (signWalletTransaction "alicePublicKey" token_transaction alice_plain) with
  | Returned signed => signed
  | _ => token_transaction
  end.

Definition token_wire : list byte :=
  match Transaction_serialize signed_token with
  | Returned wire => wire
  | _ => []
  end.

(** A second transfer, not yet recorded. *)
Definition second_transfer : TransactionData :=
  {| d_id := None;
     d_signature := "signature2";
     d_sender_wallet_id := 1;
     d_recipient_wallet_id := None;
     d_recipient_address := "bobPublicKey";
     d_amount := 2;
     d_token_mint := None;
     d_token_symbol := None;
     d_status := pending;
     d_created_at := None;
     d_confirmed_at := None;
     d_block_time := None;
     d_fee := None |}.

Definition sample_now : string := "2025-01-02T00:00:00.000Z".

End ServiceSamples.

(* ================================================================== *)
(** * Properties *)
(* ================================================================== *)

(** ** Hexadecimal envelopes *)

Module BufferFacts.
Import Buffer.

Lemma from_hex_byte_to_hex (b : byte) (rest : string) :
  from_hex (byte_to_hex b rest) = b :: from_hex rest.
Proof. destruct b; reflexivity. Qed.

Lemma from_hex_toString_hex (bs : list byte) : from_hex (toString_hex bs) = bs.
Proof.
  induction bs as [|b bs IH]; cbn [toString_hex].
  - reflexivity.
  - rewrite from_hex_byte_to_hex, IH. reflexivity.
Qed.

Lemma toString_hex_inj (xs ys : list byte) :
  toString_hex xs = toString_hex ys -> xs = ys.
Proof.
  intros E. rewrite <- (from_hex_toString_hex xs), <- (from_hex_toString_hex ys).
  now rewrite E.
Qed.

Lemma split_colon_byte_to_hex (b : byte) (rest : string) :
  split_colon (byte_to_hex b rest) =
  match split_colon rest with
  | h :: t => byte_to_hex b h :: t
  | [] => [byte_to_hex b EmptyString]
  end.
Proof. destruct b; simpl; destruct (split_colon rest); reflexivity. Qed.

(** A colon after a hexadecimal prefix is where [split] cuts first. *)
Lemma split_colon_hex_prefix (bs : list byte) (rest : string) :
  split_colon (toString_hex bs ++ ":" ++ rest) = toString_hex bs :: split_colon rest.
Proof.
  induction bs as [|b bs IH].
  - reflexivity.
  - change (toString_hex (b :: bs) ++ ":" ++ rest)
      with (byte_to_hex b (toString_hex bs ++ ":" ++ rest)).
    rewrite split_colon_byte_to_hex, IH. reflexivity.
Qed.

Lemma split_colon_hex (bs : list byte) : split_colon (toString_hex bs) = [toString_hex bs].
Proof.
  induction bs as [|b bs IH].
  - reflexivity.
  - cbn [toString_hex]. rewrite split_colon_byte_to_hex, IH. reflexivity.
Qed.

Lemma length_from_utf8 (s : string) : length (from_utf8 s) = String.length s.
Proof.
  unfold from_utf8. induction s as [|c s IH]; simpl.
  - reflexivity.
  - f_equal. exact IH.
Qed.

Lemma length_slice0 (n : nat) (s : string) :
  (n <= String.length s)%nat -> String.length (slice0 n s) = n.
Proof.
  unfold slice0. revert s. induction n as [|n IH]; intros s Hn.
  - destruct s; reflexivity.
  - destruct s as [|c s]; simpl in *; [lia|].
    f_equal. apply IH. lia.
Qed.

End BufferFacts.

(** ** C2: the cipher round trip *)

Module CipherFacts.
Import Buffer BufferFacts Cipher Stubs.

Section WithCrypto.
Context {crypto : NodeCrypto}.

Lemma createCipheriv_ok (key iv : list byte) :
  length key = 32%nat -> length iv = 16%nat ->
  createCipheriv key iv = Returned (key, iv).
Proof.
  intros Hk Hi. unfold createCipheriv. rewrite Hk, Hi. reflexivity.
Qed.

Lemma key_bytes (encryptionKey : string) :
  (32 <= String.length encryptionKey)%nat ->
  length (from_utf8 (slice0 32 encryptionKey)) = 32%nat.
Proof. intros H. rewrite length_from_utf8. now apply length_slice0. Qed.

Lemma encryptPrivateKey_eq (encryptionKey : string) (iv : list byte) (s : string) :
  (32 <= String.length encryptionKey)%nat -> length iv = 16%nat ->
  encryptPrivateKey encryptionKey iv s =
  Returned (toString_hex iv ++ ":"
            ++ toString_hex (aes_256_cbc_encrypt (from_utf8 (slice0 32 encryptionKey)) iv
                               (from_utf8 s))).
Proof.
  intros Hk Hi. unfold encryptPrivateKey.
  rewrite (createCipheriv_ok _ _ (key_bytes _ Hk) Hi). reflexivity.
Qed.

Lemma decryptPrivateKey_envelope (encryptionKey : string) (iv encrypted : list byte) :
  (32 <= String.length encryptionKey)%nat -> length iv = 16%nat ->
  decryptPrivateKey encryptionKey (toString_hex iv ++ ":" ++ toString_hex encrypted) =
  match aes_256_cbc_decrypt (from_utf8 (slice0 32 encryptionKey)) iv encrypted with
  | Some plain => Returned (toString_utf8 plain)
  | None => Thrown (JsError "error:1C800064:Provider routines::bad decrypt")
  end.
Proof.
  intros Hk Hi. unfold decryptPrivateKey.
  rewrite split_colon_hex_prefix, split_colon_hex, !from_hex_toString_hex.
  rewrite (createCipheriv_ok _ _ (key_bytes _ Hk) Hi). reflexivity.
Qed.


End WithCrypto.


End CipherFacts.

(** ** Reasoning about computations *)

Module JsFacts.

Lemma bind_returned {S A B} (m : M S A) (k : A -> M S B) (s s' : S) (a : A) :
  m s = (Returned a, s') -> bind m k s = k a s'.
Proof. intros E. unfold bind. now rewrite E. Qed.

Lemma bind_thrown {S A B} (m : M S A) (k : A -> M S B) (s s' : S) (e : thrown) :
  m s = (Thrown e, s') -> bind m k s = (Thrown e, s').
Proof. intros E. unfold bind. now rewrite E. Qed.

Lemma bind_pending {S A B} (m : M S A) (k : A -> M S B) (s s' : S) :
  m s = (Pending, s') -> bind m k s = (Pending, s').
Proof. intros E. unfold bind. now rewrite E. Qed.

(** A [bind] returns only through both of its parts. *)
Lemma bind_returned_inv {S A B} (m : M S A) (k : A -> M S B) (s s2 : S) (b : B) :
  bind m k s = (Returned b, s2) ->
  exists a s1, m s = (Returned a, s1) /\ k a s1 = (Returned b, s2).
Proof.
  unfold bind. destruct (m s) as [[a|e|] s1]; intros E; try discriminate.
  exists a, s1. auto.
Qed.

Lemma try_catch_returned {S A} (body : M S A) (h : thrown -> M S A) (s s' : S) (a : A) :
  body s = (Returned a, s') -> try_catch body h s = (Returned a, s').
Proof. intros E. unfold try_catch. now rewrite E. Qed.

Lemma try_catch_thrown {S A} (body : M S A) (h : thrown -> M S A) (s s' : S) (e : thrown) :
  body s = (Thrown e, s') -> try_catch body h s = h e s'.
Proof. intros E. unfold try_catch. now rewrite E. Qed.

Lemma try_catch_pending {S A} (body : M S A) (h : thrown -> M S A) (s s' : S) :
  body s = (Pending, s') -> try_catch body h s = (Pending, s').
Proof. intros E. unfold try_catch. now rewrite E. Qed.

(** A [catch] whose handler returns lets no exception out. *)
Lemma try_catch_never_throws {S A} (body : M S A) (h : thrown -> A) (s : S) (e : thrown) :
  fst (try_catch body (fun error => ret (h error)) s) <> Thrown e.
Proof.
  unfold try_catch. destruct (body s) as [[a|e'|] s']; simpl; discriminate.
Qed.

End JsFacts.

(** ** The wallet vault on SQLite's tables *)

Module WalletFacts.
Import Repository Solana Cipher WalletService JsFacts Vocabulary.
Local Open Scope list_scope.
Local Open Scope string_scope.

Section OnMemDb.
Context {crypto : NodeCrypto} {web3 : Web3}.

Lemma ensureInitialized_ok {DB} (m : Manager DB) (d : DB) :
  initialized m = true -> db m = Some d -> ensureInitialized m = (Returned tt, m).
Proof. intros Hi Hd. unfold ensureInitialized. now rewrite Hi, Hd. Qed.

(** A statement that leaves the handle as it is leaves the manager as
    it is. *)
Lemma onDb_pure {DB A} (statement : M DB A) (m : Manager DB) (d : DB) (o : outcome A) :
  db m = Some d -> statement d = (o, d) -> onDb statement m = (o, m).
Proof.
  intros Hd E. unfold onDb. rewrite Hd, E. destruct m; simpl in *. now subst.
Qed.

Lemma find_public_key (pk : string) (ws : list wallet_row) (w : wallet_row) :
  find (has_public_key pk) ws = Some w -> In w ws /\ w_public_key w = pk.
Proof.
  intros F. apply find_some in F. destruct F as [Hin Hpk]. split; [exact Hin|].
  now apply String.eqb_eq.
Qed.


End OnMemDb.

Section OnTracedDb.
Context {crypto : NodeCrypto} {web3 : Web3}.

Lemma find_app_new {A} (f : A -> bool) (xs : list A) (x : A) :
  find f xs = None -> f x = true -> find f (xs ++ [x]) = Some x.
Proof.
  intros Hn Hx. induction xs as [|y ys IH]; simpl in *.
  - now rewrite Hx.
  - destruct (f y); [discriminate|]. now apply IH.
Qed.

Lemma find_id_beyond_sequence (d : MemDb) :
  ids_within_sequence d ->
  find (fun w => Z.eqb (w_id w) (wallets_seq d + 1)) (wallets d) = None.
Proof.
  unfold ids_within_sequence. intros H. induction H as [|w ws Hw _ IH]; simpl.
  - reflexivity.
  - destruct (Z.eqb_spec (w_id w) (wallets_seq d + 1)); [lia|exact IH].
Qed.

Lemma existsb_app_new {A} (f : A -> bool) (xs : list A) (x : A) :
  f x = true -> existsb f (xs ++ [x]) = true.
Proof. intros Hx. rewrite existsb_app. simpl. rewrite Hx. now rewrite orb_true_r. Qed.

Lemma is_identity_refl (platform platformId : string) (a : SocialAccount) :
  s_platform a = platform -> s_platformId a = platformId ->
  is_identity platform platformId a = true.
Proof. intros <- <-. unfold is_identity. now rewrite !String.eqb_refl. Qed.

Lemma find_none_of_existsb {A} (f : A -> bool) (xs : list A) :
  existsb f xs = false -> find f xs = None.
Proof.
  intros H. destruct (find f xs) eqn:F; [|reflexivity].
  apply find_some in F. destruct F as [Hin Ha].
  assert (existsb f xs = true) by (apply existsb_exists; eauto). congruence.
Qed.

Lemma find_some_of_existsb {A} (f : A -> bool) (xs : list A) :
  existsb f xs = true -> exists x, find f xs = Some x.
Proof.
  intros H. destruct (find f xs) eqn:F; [eauto|].
  apply existsb_exists in H. destruct H as [a [Hin Ha]].
  apply (find_none _ _ F) in Hin. congruence.
Qed.

(** On a bound identity the existence query answers, and [createWallet]
    throws before any INSERT. *)
Lemma createWallet_bound (m : Manager (Traced MemDb)) (t : Traced MemDb)
    (keypair : Keypair) (iv : list byte) (platform platformId : string)
    (label : option string) :
  initialized m = true -> db m = Some t ->
  existsb (is_identity platform platformId) (social_accounts (inner t)) = true ->
  createWallet keypair iv platform platformId label m
  = (Thrown (alreadyLinked platform platformId),
     {| initialized := true;
        db := Some {| inner := inner t;
                      statements := (statements t
                                     ++ [SelectSocialByIdentity platform platformId])%list |};
        encryptionKey := encryptionKey m |}).
Proof.
  intros Hi Hd Hb. destruct m as [i o k]. simpl in *. subst i o.
  unfold createWallet, bind, ensureInitialized, onDb. cbn.
  destruct (find_some_of_existsb _ _ Hb) as [a F]. now rewrite F.
Qed.

(** On an unbound identity with a fresh public key both rows are
    inserted and the new wallet is returned. *)
Lemma createWallet_unbound (m : Manager (Traced MemDb)) (t : Traced MemDb)
    (keypair : Keypair) (iv : list byte) (platform platformId : string)
    (label : option string) :
  initialized m = true -> db m = Some t ->
  ids_within_sequence (inner t) ->
  existsb (is_identity platform platformId) (social_accounts (inner t)) = false ->
  existsb (has_public_key (publicKey keypair)) (wallets (inner t)) = false ->
  (32 <= String.length (encryptionKey m))%nat -> length iv = 16%nat ->
  exists info t1,
    createWallet keypair iv platform platformId label m
    = (Returned info, {| initialized := true; db := Some t1;
                         encryptionKey := encryptionKey m |}) /\
    wi_publicKey info = publicKey keypair /\
    (exists envelope,
       encryptPrivateKey (encryptionKey m) iv (bs58_encode (secretKey keypair))
       = Returned envelope /\
       encryptedPrivateKey info = Some envelope) /\
    existsb (is_identity platform platformId) (social_accounts (inner t1)) = true /\
    length (wallets (inner t1)) = S (length (wallets (inner t))) /\
    length (social_accounts (inner t1)) = S (length (social_accounts (inner t))).
Proof.
  intros Hi Hd Hwf Hs Hw Hk Hiv. destruct m as [i o k]. simpl in *. subst i o.
  destruct t as [d tr]. simpl in *.
  pose proof (find_none_of_existsb _ _ Hs) as F.
  unfold createWallet, bind, ensureInitialized, onDb, lift. cbn.
  rewrite F.
  rewrite (CipherFacts.encryptPrivateKey_eq k iv _ Hk Hiv).
  cbn. unfold traced, mem_run_insert_wallet. cbn. rewrite Hw. cbn.
  unfold traced, mem_run_insert_social. cbn. rewrite Hs. cbn.
  unfold getWalletById, bind, ensureInitialized, onDb. cbn.
  unfold traced, mem_get_wallet_by_id. cbn.
  rewrite find_app_new;
    [| now apply find_id_beyond_sequence | cbn; apply Z.eqb_refl ].
  cbn. eexists. eexists. split; [reflexivity|]. cbn.
  split; [reflexivity|].
  split; [eexists; split;
          [apply (CipherFacts.encryptPrivateKey_eq k iv _ Hk Hiv)|reflexivity]|].
  split; [apply existsb_app_new; now apply is_identity_refl|].
  rewrite !length_app. cbn. split; lia.
Qed.

(** C1, as the code has it. On an initialized service: for an identity
    that is already bound, [createWallet] throws the already-linked
    error out of its existence query, the only statement it sends, and
    leaves both tables as they were; and of two calls in a row for one
    unbound identity (whichever goes first, with a fresh public key) the
    first returns the new wallet and the second throws the
    already-linked error without touching the tables. *)
Theorem createWallet_duplicate_by_prior_check
    (m : Manager (Traced MemDb)) (t : Traced MemDb)
    (keypair1 keypair2 : Keypair) (iv1 iv2 : list byte)
    (platform platformId : string) (label1 label2 : option string) :
  initialized m = true -> db m = Some t ->
  (existsb (is_identity platform platformId) (social_accounts (inner t)) = true ->
   createWallet keypair1 iv1 platform platformId label1 m
   = (Thrown (alreadyLinked platform platformId),
      {| initialized := true;
         db := Some {| inner := inner t;
                       statements := (statements t
                                      ++ [SelectSocialByIdentity platform platformId])%list |};
         encryptionKey := encryptionKey m |}))
  /\
  (ids_within_sequence (inner t) ->
   existsb (is_identity platform platformId) (social_accounts (inner t)) = false ->
   existsb (has_public_key (publicKey keypair1)) (wallets (inner t)) = false ->
   (32 <= String.length (encryptionKey m))%nat -> length iv1 = 16%nat ->
   exists info m1 m2,
     createWallet keypair1 iv1 platform platformId label1 m = (Returned info, m1) /\
     wi_publicKey info = publicKey keypair1 /\
     createWallet keypair2 iv2 platform platformId label2 m1
     = (Thrown (alreadyLinked platform platformId), m2) /\
     Stubs.tablesOf m2 = Stubs.tablesOf m1).
Proof.
  intros Hi Hd. split.
  - now apply createWallet_bound.
  - intros Hwf Hs Hw Hk Hiv.
    destruct (createWallet_unbound m t keypair1 iv1 platform platformId label1
                Hi Hd Hwf Hs Hw Hk Hiv)
      as [info [t1 [E1 [Hpk [_ [Hb _]]]]]].
    eexists info, _, _. split; [exact E1|]. split; [exact Hpk|]. split.
    + now apply createWallet_bound with (t := t1).
    + reflexivity.
Qed.

End OnTracedDb.

Import Stubs.

(** C1 fails as worded: with (twitter, alice) bound, [createWallet]
    reports the duplicate after sending a single SELECT and no INSERT. *)
Lemma createWallet_duplicate_counterexample :
  issued (snd (createWallet (keypairOf "otherPublicKey") sample_iv' "twitter" "alice" None
                 alice_manager_quiet))
  = [SelectSocialByIdentity "twitter" "alice"] /\
  ~ detectedByConstraintOnly "twitter" "alice"
      (issued (snd (createWallet (keypairOf "otherPublicKey") sample_iv' "twitter" "alice"
                      None alice_manager_quiet))).
Proof.
  assert (E : issued (snd (createWallet (keypairOf "otherPublicKey") sample_iv'
                             "twitter" "alice" None alice_manager_quiet))
              = [SelectSocialByIdentity "twitter" "alice"]) by (vm_compute; reflexivity).
  split; [exact E|]. rewrite E. intros [[walletId Hin] _].
  destruct Hin as [Hin|[]]. discriminate.
Qed.

(** The two stretches make up [createWallet]. *)
Lemma createWallet_phases {crypto : NodeCrypto} {web3 : Web3}
    (keypair : Keypair) (iv : list byte) (platform platformId : string)
    (label : option string) (m : Manager MemDb) :
  createWallet keypair iv platform platformId label m
  = bind (createWallet_check platform platformId)
      (createWallet_rest keypair iv platform platformId label) m.
Proof.
  unfold createWallet, createWallet_check, createWallet_rest, bind.
  destruct (ensureInitialized m) as [[u|e|] m1]; reflexivity.
Qed.

(** UNIQUE(platform, platform_id) itself: an INSERT for a bound identity
    is rejected by SQLite. *)
Lemma insert_social_unique (platform platformId : string) (walletId : Z) (d : MemDb) :
  existsb (is_identity platform platformId) (social_accounts d) = true ->
  exists message,
    run_insert_social platform platformId walletId d = (Thrown (JsError message), d).
Proof.
  intros H. cbn. unfold mem_run_insert_social. rewrite H. eauto.
Qed.

(** When a second call runs its existence query before the first has
    inserted, both pass the check; the second is then stopped by the
    UNIQUE constraint, with SQLite's own error, after its wallet row has
    been inserted: one binding, two wallets. *)
Example createWallet_interleaved :
  let m0 := alice_plain_fresh in
  let '(checkA, m1) := createWallet_check "twitter" "bob" m0 in
  let '(checkB, m2) := createWallet_check "twitter" "bob" m1 in
  match checkA, checkB with
  | Returned a, Returned b =>
      let '(resultA, m3) :=
        createWallet_rest (keypairOf "bobPublicKey") sample_iv "twitter" "bob" None a m2 in
      let '(resultB, m4) :=
        createWallet_rest (keypairOf "otherPublicKey") sample_iv' "twitter" "bob" None b m3 in
      (exists info, resultA = Returned info /\ wi_publicKey info = "bobPublicKey") /\
      resultB = Thrown (JsError
        "SQLITE_CONSTRAINT: UNIQUE constraint failed: social_accounts.platform, social_accounts.platform_id") /\
      match db m4 with
      | Some d => length (wallets d) = 2%nat /\ length (social_accounts d) = 1%nat
      | None => False
      end
  | _, _ => False
  end.
Proof.
  vm_compute. split; [eexists; split; reflexivity|]. split; [reflexivity|].
  split; reflexivity.
Qed.

(** ** C10: the read paths swallow storage failures *)

(** What the reads answer on SQLite tables that hold nothing for the
    key. *)
Lemma reads_when_absent {crypto : NodeCrypto} {web3 : Web3}
    (m : Manager MemDb) (d : MemDb) (key : string) :
  initialized m = true -> db m = Some d ->
  (forall a, In a (social_accounts d) -> s_platformId a <> key) ->
  (forall w, In w (wallets d) -> w_public_key w <> key) ->
  fst (getWalletsForUser key m) = Returned [] /\
  fst (getWalletByPublicKey key m) = Returned None /\
  fst (getSocialAccountsForWallet key m) = Returned [].
Proof.
  intros Hi Hd Hs Hw.
  assert (Fs : filter (fun a => String.eqb (s_platformId a) key) (social_accounts d) = []).
  { induction (social_accounts d) as [|a l IH]; simpl; [reflexivity|].
    destruct (String.eqb_spec (s_platformId a) key) as [E|_].
    - exfalso. apply (Hs a); [now left|exact E].
    - apply IH. intros b Hb. apply Hs. now right. }
  assert (Fw : find (has_public_key key) (wallets d) = None).
  { apply find_none_of_existsb. apply not_true_is_false. intros Ex.
    apply existsb_exists in Ex. destruct Ex as [w [Hin Hk]].
    apply String.eqb_eq in Hk. exact (Hw w Hin Hk). }
  unfold getWalletsForUser, getWalletByPublicKey, getSocialAccountsForWallet.
  rewrite !(bind_returned _ _ _ _ _ (ensureInitialized_ok m d Hi Hd)).
  unfold try_catch, bind, onDb. rewrite Hd. cbn. rewrite Fs, Fw. cbn. auto.
Qed.

Section OnAnyDatabase.
Context {DB : Type} {database : Database DB} {crypto : NodeCrypto} {web3 : Web3}.

Lemma onDb_thrown {A} (statement : M DB A) (m : Manager DB) (d d' : DB) (e : thrown) :
  db m = Some d -> statement d = (Thrown e, d') ->
  fst (onDb statement m) = Thrown e.
Proof. intros Hd E. unfold onDb. now rewrite Hd, E. Qed.

(** A read whose first statement rejects ends in its [catch]. *)
Lemma swallowed {A B} (statement : M DB A) (k : A -> M (Manager DB) B)
    (m : Manager DB) (d d' : DB) (e : thrown) (fallback : B) :
  initialized m = true -> db m = Some d -> statement d = (Thrown e, d') ->
  fst (bind ensureInitialized
         (fun _ => try_catch (bind (onDb statement) k) (fun _ => ret fallback)) m)
  = Returned fallback.
Proof.
  intros Hi Hd E.
  rewrite (bind_returned _ _ _ _ _ (ensureInitialized_ok m d Hi Hd)).
  unfold try_catch, bind. pose proof (onDb_thrown statement m d d' e Hd E) as T.
  destruct (onDb statement m) as [o m1]. simpl in T. subst o. reflexivity.
Qed.

(** C10. On an initialized service, whatever the database handle: if
    the storage query of a read rejects, [getWalletsForUser],
    [getSocialAccountsForWallet] and [getAllWallets] return the empty
    array and [getWalletByPublicKey] returns null -- the very answers
    the reads give on SQLite tables that hold nothing for the key (and,
    for [getAllWallets], no wallet at all). *)
Theorem reads_swallow_storage_failures (m : Manager DB) (d : DB) (key : string) :
  initialized m = true -> db m = Some d ->
  (forall e d', all_social_by_platform_id key d = (Thrown e, d') ->
                fst (getWalletsForUser key m) = Returned [])
  /\
  (forall e d', get_wallet_by_public_key key d = (Thrown e, d') ->
                fst (getWalletByPublicKey key m) = Returned None /\
                fst (getSocialAccountsForWallet key m) = Returned [])
  /\
  (forall e d', all_wallets d = (Thrown e, d') -> fst (getAllWallets m) = Returned [])
  /\
  (forall (m0 : Manager MemDb) (d0 : MemDb),
     initialized m0 = true -> db m0 = Some d0 ->
     (forall a, In a (social_accounts d0) -> s_platformId a <> key) ->
     (forall w, In w (wallets d0) -> w_public_key w <> key) ->
     fst (getWalletsForUser key m0) = Returned [] /\
     fst (getWalletByPublicKey key m0) = Returned None /\
     fst (getSocialAccountsForWallet key m0) = Returned [] /\
     (wallets d0 = [] -> fst (getAllWallets m0) = Returned [])).
Proof.
  intros Hi Hd. split; [|split; [|split; [|
    intros m0 d0 Hi0 Hd0 Hs Hw;
    destruct (reads_when_absent m0 d0 key Hi0 Hd0 Hs Hw) as [R1 [R2 R3]];
    repeat (split; [assumption|]);
    intros Hnil; unfold getAllWallets;
    rewrite (bind_returned _ _ _ _ _ (ensureInitialized_ok m0 d0 Hi0 Hd0));
    unfold try_catch, bind, onDb; rewrite Hd0; cbn; rewrite Hnil; reflexivity ]]].
  - intros e d' E. exact (swallowed _ _ m d d' e [] Hi Hd E).
  - intros e d' E. split.
    + exact (swallowed _ _ m d d' e None Hi Hd E).
    + exact (swallowed _ _ m d d' e [] Hi Hd E).
  - intros e d' E. exact (swallowed _ _ m d d' e [] Hi Hd E).
Qed.

(** Nor does any later failure of these reads reach the caller. *)
Lemma reads_never_throw (m : Manager DB) (d : DB) (key : string) (e : thrown) :
  initialized m = true -> db m = Some d ->
  fst (getWalletsForUser key m) <> Thrown e /\
  fst (getWalletByPublicKey key m) <> Thrown e /\
  fst (getSocialAccountsForWallet key m) <> Thrown e /\
  fst (getAllWallets m) <> Thrown e.
Proof.
  intros Hi Hd.
  unfold getWalletsForUser, getWalletByPublicKey, getSocialAccountsForWallet, getAllWallets.
  rewrite !(bind_returned _ _ _ _ _ (ensureInitialized_ok m d Hi Hd)).
  repeat split; apply (try_catch_never_throws _ (fun _ => _)).
Qed.

End OnAnyDatabase.

(** The answers a caller gets when nothing is stored are the same. *)
Lemma reads_on_empty_tables :
  fst (getWalletsForUser "alice" fresh_manager) = Returned [] /\
  fst (getWalletByPublicKey "alicePublicKey" fresh_manager) = Returned None /\
  fst (getSocialAccountsForWallet "alicePublicKey" fresh_manager) = Returned [] /\
  fst (getAllWallets fresh_manager) = Returned [].
Proof. repeat split. Qed.

Lemma reads_swallow_storage_failures_witness :
  fst (getWalletsForUser "alice" broken_manager) = Returned [] /\
  fst (getWalletByPublicKey "alicePublicKey" broken_manager) = Returned None /\
  fst (getSocialAccountsForWallet "alicePublicKey" broken_manager) = Returned [] /\
  fst (getAllWallets broken_manager) = Returned [].
Proof.
  pose proof (reads_swallow_storage_failures broken_manager
                (Broken "SQLITE_IOERR: disk I/O error") "alice" eq_refl eq_refl)
    as [H1 _].
  pose proof (reads_swallow_storage_failures broken_manager
                (Broken "SQLITE_IOERR: disk I/O error") "alicePublicKey"
                eq_refl eq_refl)
    as [_ [H2 [H3 _]]].
  split; [exact (H1 _ _ eq_refl)|].
  split; [exact (proj1 (H2 _ _ eq_refl))|].
  split; [exact (proj2 (H2 _ _ eq_refl))|].
  exact (H3 _ _ eq_refl).
Defined.

Lemma createWallet_duplicate_by_prior_check_witness :
  createWallet (keypairOf "otherPublicKey") sample_iv' "twitter" "alice" None
    alice_manager_quiet
  = (Thrown (alreadyLinked "twitter" "alice"),
     {| initialized := true;
        db := Some {| inner := alice_db;
                      statements := [SelectSocialByIdentity "twitter" "alice"] |};
        encryptionKey := sample_key |})
  /\
  (exists info m1 m2,
     createWallet (keypairOf "alicePublicKey") sample_iv "twitter" "alice" None fresh_manager
     = (Returned info, m1) /\
     wi_publicKey info = "alicePublicKey" /\
     createWallet (keypairOf "otherPublicKey") sample_iv' "twitter" "alice" None m1
     = (Thrown (alreadyLinked "twitter" "alice"), m2) /\
     tablesOf m2 = tablesOf m1).
Proof.
  split.
  - exact (proj1 (createWallet_duplicate_by_prior_check
                    alice_manager_quiet {| inner := alice_db; statements := [] |}
                    (keypairOf "otherPublicKey") (keypairOf "otherPublicKey")
                    sample_iv' sample_iv' "twitter" "alice" None None
                    eq_refl eq_refl) eq_refl).
  - refine (proj2 (createWallet_duplicate_by_prior_check
                     fresh_manager {| inner := empty_db; statements := [] |}
                     (keypairOf "alicePublicKey") (keypairOf "otherPublicKey")
                     sample_iv sample_iv' "twitter" "alice" None None
                     eq_refl eq_refl) _ _ _ _ _).
    + constructor.
    + reflexivity.
    + reflexivity.
    + vm_compute. lia.
    + reflexivity.
Defined.


End WalletFacts.

(** ** The transfer executor and the dispatcher *)

Module ToolFacts.
Import Repository Solana Cipher WalletService JsValue Ledger ToolService JsFacts Stubs
  Vocabulary.
Local Open Scope list_scope.
Local Open Scope string_scope.

Section OnAnyDatabase.
Context {DB : Type} {database : Database DB} {crypto : NodeCrypto} {web3 : Web3}
        {rt : JsRuntime}.

(** C7, as the code has it. For an amount that is zero or negative
    [sendSolSecure] throws and leaves the services untouched: the
    request log of the endpoint is as before, so no blockhash was
    fetched and nothing was submitted or confirmed.  With an open
    connection and two addresses that parse as public keys, what it
    throws is the invalid-amount error. *)
Theorem sendSolSecure_rejects_nonpositive
    (w : World DB) (fromWalletPublicKey toAddress : string) (amount : Q) :
  Qle_bool amount 0 = true ->
  (exists e, sendSolSecure fromWalletPublicKey toAddress amount w = (Thrown e, w))
  /\
  (connection w <> None ->
   isPublicKey fromWalletPublicKey = true -> isPublicKey toAddress = true ->
   sendSolSecure fromWalletPublicKey toAddress amount w = (Thrown invalidAmount, w)).
Proof.
  intros Hle.
  unfold sendSolSecure, requireConnection, wrapError, try_catch, bind, lift, new_PublicKey,
    throw.
  destruct (connection w) as [c|] eqn:Hc.
  - destruct (isPublicKey fromWalletPublicKey) eqn:Hf;
      [destruct (isPublicKey toAddress) eqn:Ht|]; rewrite ?Hle; cbn; split; eauto;
      intros; discriminate.
  - split; [eauto|]. intros Hne. now elim Hne.
Qed.

End OnAnyDatabase.

(** C7 fails as worded where the recipient address does not parse: the
    address is validated before the amount, and the error is the
    address error. *)
Lemma sendSolSecure_amount_counterexample :
  fst (sendSolSecure "alicePublicKey" EmptyString 0 alice_world)
  = Thrown (JsError "Failed to send SOL: Invalid public key input") /\
  fst (sendSolSecure "alicePublicKey" EmptyString 0 alice_world) <> Thrown invalidAmount.
Proof. split; [reflexivity|]. vm_compute. discriminate. Qed.

Lemma sendSolSecure_rejects_nonpositive_witness :
  (exists e, sendSolSecure "alicePublicKey" "bobPublicKey" (-1 # 2) alice_world
             = (Thrown e, alice_world)) /\
  sendSolSecure "alicePublicKey" "bobPublicKey" (-1 # 2) alice_world
  = (Thrown invalidAmount, alice_world).
Proof.
  destruct (sendSolSecure_rejects_nonpositive alice_world "alicePublicKey" "bobPublicKey"
              (-1 # 2) eq_refl) as [H1 H2].
  split; [exact H1|]. apply H2; [discriminate|reflexivity|reflexivity].
Defined.

(** ** C8: the token transfer instruction *)

Lemma le_bytes_spec (n : nat) (v : Z) (k : nat) :
  le_bytes n (v / 256 ^ Z.of_nat k)
  = map (fun i => (v / 256 ^ Z.of_nat i) mod 256)%Z (seq k n).
Proof.
  revert k. induction n as [|n IH]; intros k; simpl.
  - reflexivity.
  - f_equal.
    replace (v / 256 ^ Z.of_nat k / 256)%Z with (v / 256 ^ Z.of_nat (S k))%Z.
    + apply IH.
    + rewrite Nat2Z.inj_succ, Z.pow_succ_r by lia.
      rewrite Z.div_div by lia. f_equal. lia.
Qed.

Lemma le_bytes_u64 (v : Z) : le_bytes 8 v = u64_le v.
Proof.
  unfold u64_le. rewrite <- (le_bytes_spec 8 v 0). simpl Z.of_nat.
  now rewrite Z.pow_0_r, Z.div_1_r.
Qed.

Lemma le_value_le_bytes (n : nat) (v : Z) :
  le_value (le_bytes n v) = (v mod 256 ^ Z.of_nat n)%Z.
Proof.
  revert v. induction n as [|n IH]; intros v.
  - simpl. now rewrite Z.mod_1_r.
  - cbn [le_bytes le_value]. rewrite IH.
    rewrite Nat2Z.inj_succ, Z.pow_succ_r by lia.
    rewrite Z.rem_mul_r by lia. reflexivity.
Qed.

Lemma le_bytes_range (n : nat) (v : Z) :
  Forall (fun b => 0 <= b < 256)%Z (le_bytes n v).
Proof.
  revert v. induction n as [|n IH]; intros v; simpl; constructor.
  - apply Z.mod_pos_bound. lia.
  - apply IH.
Qed.

Section TokenTransfer.
Context {DB : Type} {database : Database DB} {crypto : NodeCrypto} {web3 : Web3}
        {rt : JsRuntime}.

Lemma wrapError_returned_inv {A} (prefix : string) (body : M (World DB) A)
    (w w' : World DB) (a : A) :
  wrapError prefix body w = (Returned a, w') -> body w = (Returned a, w').
Proof.
  unfold wrapError, try_catch, throw. destruct (body w) as [[x|e|] w1]; intros E;
    try discriminate; exact E.
Qed.

Lemma lift_returned_inv {S A} (o : outcome A) (s s' : S) (a : A) :
  lift o s = (Returned a, s') -> o = Returned a /\ s' = s.
Proof. unfold lift. intros E. injection E as -> <-. auto. Qed.

Lemma new_PublicKey_returned (s x : string) : new_PublicKey s = Returned x -> x = s.
Proof. unfold new_PublicKey. destruct (isPublicKey s); intros E; now inversion E. Qed.

Lemma tokenTransferInstruction_returned
    (fromTokenAccount toTokenAccount fromPublicKey : string) (amount : Q) (decimals : Z) :
  (0 <= Qfloor (amount * Qpower 10 decimals) < 2 ^ 64)%Z ->
  tokenTransferInstruction fromTokenAccount toTokenAccount fromPublicKey amount decimals
  = Returned (splTokenTransfer fromTokenAccount toTokenAccount fromPublicKey
                (Qfloor (amount * Qpower 10 decimals))).
Proof.
  intros [Hlo Hhi].
  unfold tokenTransferInstruction, writeBigUInt64LE, Math_floor, Math_pow10.
  apply Z.leb_le in Hlo. apply Z.ltb_lt in Hhi. rewrite Hlo, Hhi. cbn [andb].
  unfold splTokenTransfer, TOKEN_PROGRAM_ID. now rewrite le_bytes_u64.
Qed.

Lemma tokenTransferInstruction_returned_inv
    (fromTokenAccount toTokenAccount fromPublicKey : string) (amount : Q) (decimals : Z)
    (instruction : TransactionInstruction) :
  tokenTransferInstruction fromTokenAccount toTokenAccount fromPublicKey amount decimals
  = Returned instruction ->
  (0 <= Qfloor (amount * Qpower 10 decimals) < 2 ^ 64)%Z.
Proof.
  unfold tokenTransferInstruction, writeBigUInt64LE, Math_floor, Math_pow10.
  destruct (0 <=? Qfloor (amount * Qpower 10 decimals))%Z eqn:Hlo;
    destruct (Qfloor (amount * Qpower 10 decimals) <? 2 ^ 64)%Z eqn:Hhi;
    cbn [andb]; intros E; try discriminate.
  split; [now apply Z.leb_le | now apply Z.ltb_lt].
Qed.

Tactic Notation "invert_bind" hyp(H) "as" ident(a) ident(w) ident(E) :=
  apply bind_returned_inv in H; destruct H as [a [w [E H]]].

(** A token transfer that goes through had exactly one instruction
    signed: the transfer between the first holding account the endpoint
    lists for either side. *)
Lemma sendTokenSecure_signs_transfer
    (fromWalletPublicKey toAddress tokenMint : string) (amount : Q) (decimals : Z)
    (w w' : World DB) (signature : string) :
  sendTokenSecure fromWalletPublicKey toAddress tokenMint amount decimals w
  = (Returned signature, w') ->
  exists sender senders recipient recipients (w1 w2 w3 : World DB) instruction blockhash
         (w4 : World DB) signed w5,
    rpc (getParsedTokenAccountsByOwner fromWalletPublicKey (ByMint tokenMint)) w1
    = (Returned (sender :: senders), w2) /\
    rpc (getParsedTokenAccountsByOwner toAddress (ByMint tokenMint)) w2
    = (Returned (recipient :: recipients), w3) /\
    tokenTransferInstruction (ta_pubkey sender) (ta_pubkey recipient)
      fromWalletPublicKey amount decimals
    = Returned instruction /\
    onWalletService
      (signWalletTransaction fromWalletPublicKey
         {| instructions := [instruction]; recentBlockhash := Some blockhash;
            feePayer := Some fromWalletPublicKey; signatures := [] |}) w4
    = (Returned signed, w5).
Proof.
  intros H. unfold sendTokenSecure in H.
  invert_bind H as u0 w0 E0. apply wrapError_returned_inv in H.
  invert_bind H as fromPublicKey w1 E1.
  apply lift_returned_inv in E1. destruct E1 as [E1 ->].
  apply new_PublicKey_returned in E1. subst fromPublicKey.
  invert_bind H as toPublicKey w2 E2.
  apply lift_returned_inv in E2. destruct E2 as [E2 ->].
  apply new_PublicKey_returned in E2. subst toPublicKey.
  invert_bind H as mintPublicKey w3 E3.
  apply lift_returned_inv in E3. destruct E3 as [E3 ->].
  apply new_PublicKey_returned in E3. subst mintPublicKey.
  invert_bind H as tokenAccounts w4 E4.
  destruct tokenAccounts as [|sender senders]; [discriminate|].
  invert_bind H as recipientTokenAccounts w5 E5.
  destruct recipientTokenAccounts as [|recipient recipients]; [discriminate|].
  invert_bind H as instruction w6 E6.
  apply lift_returned_inv in E6. destruct E6 as [E6 ->].
  invert_bind H as blockhash w7 E7. invert_bind H as signed w8 E8.
  exists sender, senders, recipient, recipients, w0, w4, w5, instruction, blockhash,
    w7, signed, w8.
  repeat split; assumption.
Qed.


End TokenTransfer.


Example tokenTransferInstruction_bytes :
  tokenTransferInstruction "aliceTokenAccount" "bobTokenAccount" "alicePublicKey" (3 # 2) 6
  = Returned
      {| programId := TOKEN_PROGRAM_ID;
         keys := [ {| pubkey := "aliceTokenAccount"; isSigner := false; isWritable := true |};
                   {| pubkey := "bobTokenAccount"; isSigner := false; isWritable := true |};
                   {| pubkey := "alicePublicKey"; isSigner := true; isWritable := false |} ];
         data := [3; 96; 227; 22; 0; 0; 0; 0; 0]%Z |}.
Proof. reflexivity. Qed.

(** ** C4: dispatch never throws *)

Section Dispatch.
Context {DB : Type} {database : Database DB} {crypto : NodeCrypto} {web3 : Web3}
        {rt : JsRuntime}.

Lemma handleToolError_isError (error : thrown) (toolName : string) :
  isError (handleToolError error toolName) = true.
Proof. reflexivity. Qed.

Lemma directImplementation_unknown (entropy : Keypair * list byte)
    (registry : Registry DB) (toolName : string) (params : Params) :
  includes directNames toolName = false ->
  directImplementation entropy registry toolName params = ret (notFound toolName registry).
Proof.
  unfold includes, directNames. cbn [existsb]. intros H.
  repeat (apply orb_false_elim in H; destruct H as [?E H]).
  unfold directImplementation.
  repeat match goal with
         | E : String.eqb _ _ = false |- _ => rewrite E; clear E
         end.
  reflexivity.
Qed.


End Dispatch.


End ToolFacts.

(** ** C5: the timeout race of the tool route *)

Module RouteFacts.
Import Repository Solana Cipher WalletService JsValue ToolService ApiRoute Stubs Vocabulary.
Local Open Scope list_scope.
Local Open Scope string_scope.

Lemma race_timer_wins {A} (p : Promise A) (ms : N) (e : thrown) :
  (forall t s, p = Some (t, s) -> (ms < t)%N) ->
  Promise_race p (rejectAfter ms e) = Some (ms, Rejected e).
Proof.
  intros H. unfold Promise_race, rejectAfter. destruct p as [[t s]|]; [|reflexivity].
  specialize (H t s eq_refl). destruct (N.leb_spec t ms); [lia|reflexivity].
Qed.

Lemma race_handler_wins {A} (t : N) (s : settlement A) (ms : N) (e : thrown) :
  (t < ms)%N -> Promise_race (Some (t, s)) (rejectAfter ms e) = Some (t, s).
Proof.
  intros H. unfold Promise_race, rejectAfter. destruct (N.leb_spec t ms); [reflexivity|lia].
Qed.

Section Route.
Context {DB : Type} {database : Database DB} {crypto : NodeCrypto} {web3 : Web3}
        {rt : JsRuntime}.

(** C5. The route races [executeTool] against a timer of the constant
    30000 ms.  A call that never settles, or settles after more than
    30000 ms, is answered at exactly 30000 ms with the timed-out error;
    in the second case the call still runs to its end, and from its own
    settling time on the services are in the state it leaves.  A call
    that returns in less than 30000 ms is answered at that time with its
    own result. *)
Theorem request_times_out
    (mcpServer : option (McpServer DB)) (entropy : Keypair * list byte)
    (toolName : string) (params : Params) (duration : N) (w : World DB) :
  toolServiceInitialized mcpServer w = true ->
  TIMEOUT_MS = 30000%N
  /\
  (fst (executeTool mcpServer entropy toolName params w) = Pending ->
   fst (request mcpServer entropy toolName params duration w)
   = Some (TIMEOUT_MS, Next timedOut))
  /\
  ((TIMEOUT_MS < duration)%N ->
   fst (request mcpServer entropy toolName params duration w)
   = Some (TIMEOUT_MS, Next timedOut)
   /\
   (fst (executeTool mcpServer entropy toolName params w) <> Pending ->
    forall t, (duration <= t)%N ->
      snd (request mcpServer entropy toolName params duration w) t
      = snd (executeTool mcpServer entropy toolName params w)))
  /\
  (forall result,
     (duration < TIMEOUT_MS)%N ->
     fst (executeTool mcpServer entropy toolName params w) = Returned result ->
     fst (request mcpServer entropy toolName params duration w)
     = Some (duration,
             if isError result then JsonError 500 (firstText result) toolName
             else JsonSuccess 200 result toolName)).
Proof.
  intros Hinit. unfold request. rewrite Hinit.
  destruct (executeTool mcpServer entropy toolName params w) as [o after] eqn:E.
  cbn [fst snd].
  split; [reflexivity|]. split; [|split].
  - intros ->. reflexivity.
  - intros Hlate. split.
    + unfold postTool. cbn [negb].
      rewrite race_timer_wins; [reflexivity|].
      intros t s Hp. destruct o; cbn in Hp; try discriminate;
        injection Hp as <- _; exact Hlate.
    + intros Hsettles t Ht. unfold worldAt.
      destruct o; try (now elim Hsettles);
        destruct (N.leb_spec duration t); try lia; reflexivity.
  - intros result Hearly ->. unfold postTool. cbn [negb promiseOf].
    rewrite race_handler_wins by exact Hearly. now destruct (isError result).
Qed.

End Route.

Lemma request_times_out_witness :
  fst (request (Some hanging_server) sample_entropy "hang" [] 5%N alice_world)
  = Some (30000%N, Next timedOut)
  /\
  (fst (request (Some bare_server) sample_entropy "unknownOp" [] 45000%N alice_world)
   = Some (30000%N, Next timedOut) /\
   snd (request (Some bare_server) sample_entropy "unknownOp" [] 45000%N alice_world)
       45000%N
   = snd (executeTool (Some bare_server) sample_entropy "unknownOp" [] alice_world))
  /\
  fst (request (Some bare_server) sample_entropy "unknownOp" [] 120%N alice_world)
  = Some (120%N,
          JsonError 500
            "Tool unknownOp not found or not implemented directly. Available tools in registry: "
            "unknownOp").
Proof.
  split; [|split].
  - exact (proj1 (proj2 (request_times_out (Some hanging_server) sample_entropy "hang" []
                           5%N alice_world eq_refl)) eq_refl).
  - destruct (proj1 (proj2 (proj2 (request_times_out (Some bare_server) sample_entropy
                                     "unknownOp" [] 45000%N alice_world eq_refl)))
                eq_refl) as [Hreply Hworld].
    split; [exact Hreply|].
    apply Hworld; [discriminate|apply N.le_refl].
  - exact (proj2 (proj2 (proj2 (request_times_out (Some bare_server) sample_entropy
                                  "unknownOp" [] 120%N alice_world eq_refl)))
             (notFound "unknownOp" (registryOf bare_server)) eq_refl eq_refl).
Defined.

End RouteFacts.

(** ** C9: what a status update changes *)

Module TransactionFacts.
Import JsValue TransactionStore JsFacts Stubs RecordVocabulary.
Local Open Scope list_scope.
Local Open Scope string_scope.

Lemma sameTransfer_refl (r : TransactionRecord) : sameTransfer r r.
Proof. repeat split. Qed.

Lemma updateRow_updatedAs (now sig : string) (newStatus : Status)
    (blockTime newFee : option Z) (r : TransactionRecord) :
  updatedAs now sig newStatus blockTime newFee r
    (updateRow sig newStatus (confirmedAtFor now newStatus) (orNull blockTime)
       (orNull newFee) r).
Proof.
  unfold updatedAs, updateRow. destruct (String.eqb_spec (signature r) sig) as [E|_].
  - split; [repeat split|]. right. repeat split; auto.
  - split; [apply sameTransfer_refl|now left].
Qed.

Lemma unchanged_updatedAs (now sig : string) (newStatus : Status)
    (blockTime newFee : option Z) (rows : list TransactionRecord) :
  Forall2 (updatedAs now sig newStatus blockTime newFee) rows rows.
Proof.
  induction rows as [|r rows IH]; constructor; [|exact IH].
  split; [apply sameTransfer_refl|now left].
Qed.

Lemma map_updateRow_updatedAs (now sig : string) (newStatus : Status)
    (blockTime newFee : option Z) (rows : list TransactionRecord) :
  Forall2 (updatedAs now sig newStatus blockTime newFee) rows
    (map (updateRow sig newStatus (confirmedAtFor now newStatus) (orNull blockTime)
            (orNull newFee)) rows).
Proof.
  induction rows as [|r rows IH]; simpl; constructor; [|exact IH].
  apply updateRow_updatedAs.
Qed.

(** The table after a PATCH: untouched, or the UPDATE applied. *)
Lemma patchStatus_table (now sig : string) (statusField : JsValue.t)
    (blockTime newFee : option Z) (s : TransactionService) :
  transactions (db (snd (patchStatus now sig statusField blockTime newFee s)))
  = transactions (db s)
  \/
  exists newStatus,
    validStatus statusField = Some newStatus /\
    transactions (db (snd (patchStatus now sig statusField blockTime newFee s)))
    = map (updateRow sig newStatus (confirmedAtFor now newStatus) (orNull blockTime)
             (orNull newFee)) (transactions (db s)).
Proof.
  unfold patchStatus. destruct sig as [|c sig']; [now left|].
  destruct (validStatus statusField) as [newStatus|] eqn:V; [|now left].
  destruct s as [i [conn rows op]].
  unfold try_catch, bind, updateTransactionStatus, initialize, try_catch, bind,
    onDatabase, connect, Database_updateTransactionStatus, try_catch, bind, run_update,
    throw, ret.
  destruct i, conn, op; cbn;
    try (now left);
    match goal with
    | |- context [(0 <? ?n)%Z] => destruct (0 <? n)%Z; cbn
    end;
    try (now left); right; exists newStatus; (split; [reflexivity|]);
    destruct newStatus; reflexivity.
Qed.

(** C9, as the code has it. A PATCH of a record's status keeps the
    table's rows in place and, on each of them, every field other than
    [status], [confirmed_at], [block_time] and [fee]; a row is written
    only if its signature is the one addressed.  On a connected store
    the row addressed takes the requested status whatever its current
    one: there is no guard on the transition. *)
Theorem patchStatus_changes_only_status_fields
    (now sig : string) (statusField : JsValue.t) (blockTime newFee : option Z)
    (s : TransactionService) (newStatus : Status) :
  validStatus statusField = Some newStatus ->
  Forall2 (updatedAs now sig newStatus blockTime newFee)
    (transactions (db s))
    (transactions (db (snd (patchStatus now sig statusField blockTime newFee s))))
  /\
  (initialized s = true -> connected (db s) = true -> sig <> EmptyString ->
   forall r, In r (transactions (db s)) -> signature r = sig ->
     exists r',
       In r' (transactions (db (snd (patchStatus now sig statusField blockTime newFee s))))
       /\ signature r' = sig /\ id r' = id r /\ status r' = newStatus).
Proof.
  intros V. split.
  - destruct (patchStatus_table now sig statusField blockTime newFee s)
      as [E|[st [V' E]]]; rewrite E.
    + apply unchanged_updatedAs.
    + rewrite V in V'. injection V' as <-. apply map_updateRow_updatedAs.
  - intros Hi Hc Hsig r Hin Hr.
    assert (E : transactions (db (snd (patchStatus now sig statusField blockTime newFee s)))
                = map (updateRow sig newStatus (confirmedAtFor now newStatus)
                         (orNull blockTime) (orNull newFee)) (transactions (db s))).
    { unfold patchStatus. destruct sig as [|c sig']; [now elim Hsig|]. rewrite V.
      destruct s as [i [conn rows op]]. simpl in Hi, Hc. subst i conn.
      unfold try_catch, bind, updateTransactionStatus, try_catch, bind,
        onDatabase, Database_updateTransactionStatus, try_catch, bind, run_update,
        throw, ret. cbn.
      match goal with
      | |- context [(0 <? ?n)%Z] => destruct (0 <? n)%Z; cbn
      end; destruct newStatus; reflexivity. }
    rewrite E.
    exists (updateRow sig newStatus (confirmedAtFor now newStatus) (orNull blockTime)
              (orNull newFee) r).
    split; [now apply in_map|].
    unfold updateRow. rewrite <- Hr, String.eqb_refl. cbn. auto.
Qed.

(** C9 fails as worded: a confirmed record goes back to pending, and
    loses its confirmation time. *)
Lemma status_transition_counterexample :
  map status (transactions (db confirmed_service)) = [confirmed] /\
  fst (patchStatus "2025-01-02T00:00:00.000Z" "signature1" (VString "pending") None None
         confirmed_service)
  = Returned (Json true "Transaction status updated to pending") /\
  map (fun r => (status r, confirmed_at r))
      (transactions (db (snd (patchStatus "2025-01-02T00:00:00.000Z" "signature1"
                                (VString "pending") None None confirmed_service))))
  = [(pending, None)].
Proof. repeat split. Qed.

Lemma patchStatus_changes_only_status_fields_witness :
  exists r',
    In r' (transactions (db (snd (patchStatus "2025-01-02T00:00:00.000Z" "signature1"
                                    (VString "failed") None (Some 5000%Z)
                                    confirmed_service))))
    /\ signature r' = "signature1" /\ id r' = 1%Z /\ status r' = failed.
Proof.
  refine (proj2 (patchStatus_changes_only_status_fields "2025-01-02T00:00:00.000Z"
                   "signature1" (VString "failed") None (Some 5000%Z) confirmed_service
                   failed eq_refl) eq_refl eq_refl _ confirmed_record _ eq_refl).
  - discriminate.
  - now left.
Defined.

End TransactionFacts.

(** ** C6: sending to an identity provisions the recipient's wallet *)

Module TransferFacts.
Import Repository Solana Cipher WalletService JsValue Ledger ToolService JsFacts
  WalletFacts Stubs Vocabulary.
Local Open Scope list_scope.
Local Open Scope string_scope.

Section OnSqlite.
Context {crypto : NodeCrypto} {web3 : Web3} {rt : JsRuntime}.

Lemma keeps_ret {A} (a : A) : keepsWallets (ret a).
Proof. intros w. reflexivity. Qed.

Lemma keeps_throw {A} (e : thrown) : keepsWallets (throw (A := A) e).
Proof. intros w. reflexivity. Qed.

Lemma keeps_lift {A} (o : outcome A) : keepsWallets (lift o).
Proof. intros w. reflexivity. Qed.

Lemma keeps_bind {A B} (m : M (World MemDb) A) (k : A -> M (World MemDb) B) :
  keepsWallets m -> (forall a, keepsWallets (k a)) -> keepsWallets (bind m k).
Proof.
  intros Hm Hk w. unfold bind. specialize (Hm w).
  destruct (m w) as [[a|e|] w1]; simpl in *; try assumption.
  rewrite (Hk a w1). exact Hm.
Qed.

Lemma keeps_try_catch {A} (m : M (World MemDb) A) (h : thrown -> M (World MemDb) A) :
  keepsWallets m -> (forall e, keepsWallets (h e)) -> keepsWallets (try_catch m h).
Proof.
  intros Hm Hh w. unfold try_catch. specialize (Hm w).
  destruct (m w) as [[a|e|] w1]; simpl in *; try assumption.
  rewrite (Hh e w1). exact Hm.
Qed.

Lemma keeps_rpc {A} (request : M Connection A) : keepsWallets (rpc request).
Proof.
  intros w. unfold rpc. destruct (connection w); [|reflexivity].
  now destruct (request c).
Qed.

Lemma keeps_requireConnection : keepsWallets (requireConnection (DB := MemDb)).
Proof. intros w. unfold requireConnection. now destruct (connection w). Qed.

Lemma getWalletById_pure (walletId : Z) (m : Manager MemDb) :
  snd (getWalletById walletId m) = m.
Proof.
  destruct m as [i [d|] k]; unfold getWalletById, bind, ensureInitialized, onDb;
    destruct i; cbn; try reflexivity.
  destruct (find _ (wallets d)); reflexivity.
Qed.

Lemma getWalletBySocialAccount_pure (platform platformId : string) (m : Manager MemDb) :
  snd (getWalletBySocialAccount platform platformId m) = m.
Proof.
  destruct m as [i [d|] k];
    unfold getWalletBySocialAccount, try_catch, bind, ensureInitialized, onDb;
    destruct i; cbn; try reflexivity.
  destruct (find _ (social_accounts d)) as [a|]; [|reflexivity].
  pose proof (getWalletById_pure (s_walletId a)
                {| initialized := true; db := Some d; encryptionKey := k |}) as P.
  destruct (getWalletById _ _) as [[x|e|] m1]; simpl in *; now subst.
Qed.

Lemma signWalletTransaction_pure (pk : string) (t : Transaction) (m : Manager MemDb) :
  snd (signWalletTransaction pk t m) = m.
Proof.
  destruct m as [i [d|] k];
    unfold signWalletTransaction, bind, ensureInitialized, onDb, lift, throw;
    destruct i; cbn; try reflexivity.
  destruct (find _ (wallets d)) as [w|]; [|reflexivity].
  destruct (nonEmpty _); [|reflexivity].
  destruct (decryptPrivateKey _ _); try reflexivity.
  destruct (keypairOfSecret _); reflexivity.
Qed.

Lemma keeps_onWalletService {A} (m : M (Manager MemDb) A) :
  (forall s, snd (m s) = s) -> keepsWallets (onWalletService m).
Proof.
  intros H w. unfold onWalletService. specialize (H (walletService w)).
  destruct (m (walletService w)) as [o s]. simpl in *. now subst.
Qed.

Lemma sendSolSecure_keepsWallets (a b : string) (q : Q) :
  keepsWallets (sendSolSecure a b q).
Proof.
  unfold sendSolSecure, wrapError.
  repeat first
    [ apply keeps_bind; [|intros ?]
    | apply keeps_try_catch; [|intros ?]
    | apply keeps_requireConnection
    | apply keeps_rpc
    | apply keeps_lift
    | apply keeps_ret
    | apply keeps_throw
    | apply keeps_onWalletService; apply signWalletTransaction_pure
    | match goal with |- keepsWallets (if ?c then _ else _) => destruct c end ].
Qed.

Lemma createWallet_unbound_plain (m : Manager MemDb) (d : MemDb)
    (keypair : Keypair) (iv : list byte) (platform platformId : string)
    (label : option string) :
  initialized m = true -> db m = Some d ->
  ids_within_sequence d ->
  existsb (is_identity platform platformId) (social_accounts d) = false ->
  existsb (has_public_key (publicKey keypair)) (wallets d) = false ->
  (32 <= String.length (encryptionKey m))%nat -> length iv = 16%nat ->
  exists info d1,
    createWallet keypair iv platform platformId label m
    = (Returned info, {| initialized := true; db := Some d1;
                         encryptionKey := encryptionKey m |}) /\
    wi_publicKey info = publicKey keypair /\
    length (wallets d1) = S (length (wallets d)) /\
    getWalletBySocialAccount platform platformId
      {| initialized := true; db := Some d1; encryptionKey := encryptionKey m |}
    = (Returned (Some info),
       {| initialized := true; db := Some d1; encryptionKey := encryptionKey m |}).
Proof.
  intros Hi Hd Hwf Hs Hw Hk Hiv. destruct m as [i o k]. simpl in *. subst i o.
  pose proof (find_none_of_existsb _ _ Hs) as F.
  unfold createWallet, bind, ensureInitialized, onDb, lift. cbn.
  rewrite F.
  rewrite (CipherFacts.encryptPrivateKey_eq k iv _ Hk Hiv).
  cbn. unfold mem_run_insert_wallet. cbn. rewrite Hw. cbn.
  unfold mem_run_insert_social. cbn. rewrite Hs. cbn.
  unfold getWalletBySocialAccount, try_catch, getWalletById, bind, ensureInitialized, onDb.
  cbn. unfold mem_get_wallet_by_id. cbn.
  rewrite (find_app_new _ (wallets d));
    [| now apply find_id_beyond_sequence | cbn; apply Z.eqb_refl ].
  cbn. eexists. eexists. split; [reflexivity|]. cbn.
  split; [reflexivity|].
  split; [rewrite length_app; cbn; lia|].
  rewrite (find_app_new _ (social_accounts d));
    [| exact F | now apply is_identity_refl ].
  cbn.
  rewrite (find_app_new _ (wallets d));
    [| now apply find_id_beyond_sequence | cbn; apply Z.eqb_refl ].
  reflexivity.
Qed.

Lemma lookup_none_unbound (m : Manager MemDb) (d : MemDb) (platform platformId : string) :
  initialized m = true -> db m = Some d ->
  fst (getWalletBySocialAccount platform platformId m) = Returned None ->
  existsb (is_identity platform platformId) (social_accounts d) = false.
Proof.
  intros Hi Hd. destruct m as [i o k]. simpl in *. subst i o.
  unfold getWalletBySocialAccount, try_catch, bind, ensureInitialized, onDb. cbn.
  destruct (existsb _ _) eqn:Ex; [|reflexivity].
  destruct (find_some_of_existsb _ _ Ex) as [a F]. rewrite F.
  destruct (getWalletById _ _) as [[x|e|] m1]; cbn; discriminate.
Qed.

Lemma lookup_eq (m : Manager MemDb) (platform platformId : string) (o : outcome (option WalletInfo)) :
  fst (getWalletBySocialAccount platform platformId m) = o ->
  getWalletBySocialAccount platform platformId m = (o, m).
Proof.
  intros <-. rewrite <- (getWalletBySocialAccount_pure platform platformId m) at 3.
  now destruct (getWalletBySocialAccount platform platformId m).
Qed.

Lemma onWalletService_eq {A} (c : M (Manager MemDb) A) (w : World MemDb) (o : outcome A) :
  c (walletService w) = (o, walletService w) ->
  onWalletService c w = (o, w).
Proof.
  intros E. unfold onWalletService. rewrite E. now destruct w.
Qed.


Lemma falsy_nonempty (s : string) : s <> EmptyString -> falsy (VString s) = false.
Proof. destruct s; [intros H; now elim H|reflexivity]. Qed.

Lemma case_sendSolToUser_valid (entropy : Keypair * list byte) (toolName : string)
    (sp sid rp rid : string) (amount : Q) :
  sp <> EmptyString -> sid <> EmptyString -> rp <> EmptyString -> rid <> EmptyString ->
  case_sendSolToUser (DB := MemDb) entropy toolName (transferParams sp sid rp rid amount)
  = try_catch (sendSolBody entropy sp sid rp rid amount)
      (fun error => ret (handleToolError error toolName)).
Proof.
  intros H1 H2 H3 H4. unfold case_sendSolToUser.
  change (prop (transferParams sp sid rp rid amount) "senderPlatform") with (VString sp).
  change (prop (transferParams sp sid rp rid amount) "senderPlatformId") with (VString sid).
  change (prop (transferParams sp sid rp rid amount) "recipientPlatform") with (VString rp).
  change (prop (transferParams sp sid rp rid amount) "recipientPlatformId")
    with (VString rid).
  change (prop (transferParams sp sid rp rid amount) "amount") with (VNumber amount).
  cbv zeta. rewrite !falsy_nonempty by assumption. reflexivity.
Qed.

(** A result of the body is the result of the dispatcher's direct
    implementation and of the registered tool alike. *)
Lemma sendSolBody_returned (server : McpServer MemDb) (opened : outcome MemDb)
    (entropy : Keypair * list byte) (sp sid rp rid : string) (amount : Q)
    (w w' : World MemDb) (r : ToolExecutionResult) :
  registryGet (registryOf server) "sendSolToUser" = None ->
  initialized (walletService w) = true ->
  sp <> EmptyString -> sid <> EmptyString -> rp <> EmptyString -> rid <> EmptyString ->
  sendSolBody entropy sp sid rp rid amount w = (Returned r, w') ->
  executeTool (Some server) entropy "sendSolToUser" (transferParams sp sid rp rid amount) w
  = (Returned r, w') /\
  McpTools.sendSolToUser opened entropy sp sid rp rid amount w = (Returned r, w').
Proof.
  intros Hreg Hi H1 H2 H3 H4 E. split.
  - unfold executeTool. rewrite Hreg. apply try_catch_returned.
    change (directImplementation entropy (registryOf server) "sendSolToUser"
              (transferParams sp sid rp rid amount))
      with (case_sendSolToUser (DB := MemDb) entropy "sendSolToUser"
              (transferParams sp sid rp rid amount)).
    rewrite case_sendSolToUser_valid by assumption.
    now apply try_catch_returned.
  - unfold McpTools.sendSolToUser. apply try_catch_returned.
    assert (Eready : onWalletService isInitialized w = (Returned true, w)).
    { unfold onWalletService, isInitialized. rewrite Hi. now destruct w. }
    rewrite (bind_returned _ _ _ _ _ Eready).
    rewrite (bind_returned _ _ w w true); [exact E | reflexivity].
Qed.

Lemma length_append (a b : string) :
  String.length (a ++ b) = (String.length a + String.length b)%nat.
Proof. induction a as [|c a IH]; simpl; [reflexivity|now rewrite IH]. Qed.

(** The flag can be read off the response: the two texts differ. *)
Lemma transferResponseText_flag (unit : string) (amount : Q)
    (sp sid rp rid signature : string) :
  transferResponseText unit amount sp sid rp rid true signature
  <> transferResponseText unit amount sp sid rp rid false signature.
Proof.
  intros E. apply (f_equal String.length) in E.
  unfold transferResponseText in E. rewrite !length_append in E. simpl in E. lia.
Qed.


End OnSqlite.



End TransferFacts.

(** ** The wallet service as a vault *)

Module VaultFacts.
Import Repository Solana Cipher WalletService JsFacts WalletFacts Vocabulary VaultVocabulary.
Local Open Scope list_scope.
Local Open Scope string_scope.

Section OnMemDb.
Context {crypto : NodeCrypto} {web3 : Web3}.

Lemma ready_manager (m : Manager MemDb) (d : MemDb) :
  initialized m = true -> db m = Some d -> m = withDb m d.
Proof. destruct m as [i o k]; simpl; intros -> ->. reflexivity. Qed.

(** [result.changes > 0] of the DELETE is whether a row matched. *)
Lemma deleted_count {A} (f : A -> bool) (l : list A) :
  (0 <? Z.of_nat (length l - length (filter (fun a => negb (f a)) l)))%Z = existsb f l.
Proof.
  induction l as [|a l IH]; [reflexivity|].
  cbn [filter existsb]. destruct (f a); cbn [negb orb].
  - pose proof (filter_length_le (fun a => negb (f a)) l).
    apply Z.ltb_lt. cbn [length]. lia.
  - exact IH.
Qed.

Lemma filter_idem {A} (f : A -> bool) (l : list A) : filter f (filter f l) = filter f l.
Proof.
  induction l as [|a l IH]; [reflexivity|].
  cbn [filter]. destruct (f a) eqn:E; [cbn [filter]; rewrite E; now f_equal | exact IH].
Qed.

Lemma existsb_filter_out {A} (f : A -> bool) (l : list A) :
  existsb f (filter (fun a => negb (f a)) l) = false.
Proof.
  induction l as [|a l IH]; [reflexivity|].
  cbn [filter]. destruct (f a) eqn:E; cbn [negb]; [exact IH|].
  cbn [existsb]. now rewrite E.
Qed.

Lemma is_identity_eq (p i : string) (a : SocialAccount) :
  is_identity p i a = true <-> s_platform a = p /\ s_platformId a = i.
Proof.
  unfold is_identity. rewrite andb_true_iff, !String.eqb_eq. tauto.
Qed.

(** Deleting one identity leaves the row found for any other. *)
Lemma find_other_identity (p i p' i' : string) (l : list SocialAccount) :
  ~ sameIdentity p i p' i' ->
  find (is_identity p' i') (filter (fun a => negb (is_identity p i a)) l)
  = find (is_identity p' i') l.
Proof.
  intros Hne. induction l as [|a l IH]; [reflexivity|].
  cbn [filter find]. destruct (is_identity p i a) eqn:E; cbn [negb].
  - destruct (is_identity p' i' a) eqn:E'; [|exact IH].
    exfalso. apply Hne. apply is_identity_eq in E. apply is_identity_eq in E'.
    destruct E as [<- <-], E' as [<- <-]. split; reflexivity.
  - cbn [find]. destruct (is_identity p' i' a); [reflexivity|exact IH].
Qed.

(** [unlinkSocialAccount]: answers whether the identity was bound,
    removes that binding and nothing else -- the wallet row stays -- and
    afterwards the identity resolves to no wallet and a second call
    answers false. *)
Theorem unlinkSocialAccount_removes_binding
    (m : Manager MemDb) (d : MemDb) (platform platformId : string) :
  initialized m = true -> db m = Some d ->
  exists d',
    unlinkSocialAccount platform platformId m
    = (Returned (existsb (is_identity platform platformId) (social_accounts d)), withDb m d') /\
    wallets d' = wallets d /\
    unbound platform platformId d' /\
    (forall platform' platformId',
       ~ sameIdentity platform platformId platform' platformId' ->
       find (is_identity platform' platformId') (social_accounts d')
       = find (is_identity platform' platformId') (social_accounts d)) /\
    getWalletBySocialAccount platform platformId (withDb m d')
    = (Returned None, withDb m d') /\
    unlinkSocialAccount platform platformId (withDb m d') = (Returned false, withDb m d').
Proof.
  intros Hi Hd. destruct m as [i o k]. simpl in Hi, Hd. subst i o.
  eexists. split; [|split; [|split; [|split; [|split]]]].
  - unfold unlinkSocialAccount, bind, ensureInitialized, onDb, ret, withDb. cbn.
    rewrite deleted_count. reflexivity.
  - reflexivity.
  - unfold unbound. cbn. apply existsb_filter_out.
  - intros p' i' Hne. cbn. now apply find_other_identity.
  - unfold getWalletBySocialAccount, try_catch, bind, ensureInitialized, onDb, ret, withDb.
    cbn. rewrite (find_none_of_existsb _ _ (existsb_filter_out _ _)). reflexivity.
  - unfold unlinkSocialAccount, bind, ensureInitialized, onDb, ret, withDb. cbn.
    rewrite deleted_count, existsb_filter_out, filter_idem. reflexivity.
Qed.

Lemma find_by_id_of_distinct (ws : list wallet_row) (w : wallet_row) :
  NoDup (map w_id ws) -> In w ws ->
  find (fun w' => Z.eqb (w_id w') (w_id w)) ws = Some w.
Proof.
  induction ws as [|a l IH]; intros Hnd Hin; [destruct Hin|].
  cbn [map] in Hnd. inversion Hnd as [|x xs Hnotin Hnd']; subst.
  cbn [find]. destruct Hin as [->|Hin].
  - now rewrite Z.eqb_refl.
  - destruct (Z.eqb_spec (w_id a) (w_id w)) as [E|_]; [|now apply IH].
    exfalso. apply Hnotin. rewrite E. now apply in_map.
Qed.

Lemma find_has_public_key_none (pk : string) (ws : list wallet_row) :
  (forall w, In w ws -> w_public_key w <> pk) -> find (has_public_key pk) ws = None.
Proof.
  intros H. apply find_none_of_existsb. apply not_true_is_false. intros Ex.
  apply existsb_exists in Ex. destruct Ex as [w [Hin Hk]].
  apply String.eqb_eq in Hk. exact (H w Hin Hk).
Qed.

Lemma find_has_public_key_some (pk : string) (ws : list wallet_row) :
  (exists w, In w ws /\ w_public_key w = pk) ->
  exists w, find (has_public_key pk) ws = Some w /\ In w ws /\ w_public_key w = pk.
Proof.
  intros [w [Hin Hk]].
  destruct (find_some_of_existsb (has_public_key pk) ws) as [w0 F].
  - apply existsb_exists. exists w. split; [exact Hin|]. now apply String.eqb_eq.
  - exists w0. split; [exact F|]. now apply find_public_key.
Qed.

(** [linkSocialAccountToWallet]: an unknown public key and a bound
    identity are both refused with nothing written; otherwise one
    binding is added, naming the wallet with that public key, no wallet
    row changes, the wallet is returned with the new binding among its
    accounts, and the identity resolves to it from then on. *)
Theorem linkSocialAccountToWallet_binds_identity
    (m : Manager MemDb) (d : MemDb) (platform platformId walletPublicKey : string) :
  initialized m = true -> db m = Some d -> wallet_ids_distinct d ->
  ((forall w, In w (wallets d) -> w_public_key w <> walletPublicKey) ->
   linkSocialAccountToWallet platform platformId walletPublicKey m
   = (Thrown (walletNotFound walletPublicKey), m))
  /\
  ((exists w, In w (wallets d) /\ w_public_key w = walletPublicKey) ->
   bound platform platformId d ->
   linkSocialAccountToWallet platform platformId walletPublicKey m
   = (Thrown (alreadyLinked platform platformId), m))
  /\
  ((exists w, In w (wallets d) /\ w_public_key w = walletPublicKey) ->
   unbound platform platformId d ->
   exists info d' binding,
     linkSocialAccountToWallet platform platformId walletPublicKey m
     = (Returned info, withDb m d') /\
     wi_publicKey info = walletPublicKey /\
     wallets d' = wallets d /\
     social_accounts d' = (social_accounts d ++ [binding])%list /\
     s_platform binding = platform /\ s_platformId binding = platformId /\
     s_walletId binding = id info /\
     In binding (socialAccounts info) /\
     getWalletBySocialAccount platform platformId (withDb m d')
     = (Returned (Some info), withDb m d')).
Proof.
  intros Hi Hd Hnd. destruct m as [i o k]. simpl in Hi, Hd. subst i o.
  split; [|split].
  - intros Habsent.
    unfold linkSocialAccountToWallet, bind, ensureInitialized, onDb. cbn.
    now rewrite (find_has_public_key_none _ _ Habsent).
  - intros Hw Hb. destruct (find_has_public_key_some _ _ Hw) as [w [F _]].
    unfold linkSocialAccountToWallet, bind, ensureInitialized, onDb. cbn.
    rewrite F. cbn. destruct (find_some_of_existsb _ _ Hb) as [a Fa]. now rewrite Fa.
  - intros Hw Hu. destruct (find_has_public_key_some _ _ Hw) as [w [F [Hin Hpk]]].
    unfold unbound in Hu. pose proof (find_none_of_existsb _ _ Hu) as Fs.
    unfold linkSocialAccountToWallet, bind, ensureInitialized, onDb. cbn.
    rewrite F. cbn. rewrite Fs. cbn. unfold mem_run_insert_social. rewrite Hu. cbn.
    unfold getWalletById, bind, ensureInitialized, onDb. cbn.
    unfold mem_get_wallet_by_id. cbn.
    rewrite (find_by_id_of_distinct _ _ Hnd Hin). cbn.
    eexists. eexists. eexists. split; [reflexivity|]. cbn.
    split; [exact Hpk|]. split; [reflexivity|]. split; [reflexivity|].
    split; [reflexivity|]. split; [reflexivity|]. split; [reflexivity|].
    split.
    + rewrite filter_app. apply in_or_app. right. cbn. rewrite Z.eqb_refl. now left.
    + unfold getWalletBySocialAccount, try_catch, getWalletById, bind, ensureInitialized,
        onDb, withDb. cbn.
      rewrite (find_app_new _ (social_accounts d)); [| exact Fs | now apply is_identity_refl ].
      cbn. unfold mem_get_wallet_by_id. cbn.
      rewrite (find_by_id_of_distinct _ _ Hnd Hin). reflexivity.
Qed.

Lemma find_app_hit {A} (f : A -> bool) (xs : list A) (x : A) :
  f x = true -> exists y, find f (xs ++ [x]) = Some y.
Proof.
  intros Hx. apply find_some_of_existsb. now apply existsb_app_new.
Qed.

Lemma encryptPrivateKey_settles (key : string) (iv : list byte) (s : string) :
  encryptPrivateKey key iv s <> Pending.
Proof.
  unfold encryptPrivateKey, createCipheriv.
  destruct (negb _); [discriminate|]. destruct (negb _); discriminate.
Qed.


Lemma decrypt_of_encrypt (key : string) (iv : list byte) (secret : string) :
  (32 <= String.length key)%nat -> length iv = 16%nat ->
  exists envelope,
    encryptPrivateKey key iv secret = Returned envelope /\
    nonEmpty (Some envelope) = Some envelope /\
    decryptPrivateKey key envelope = Returned secret.
Proof.
  intros Hk Hiv. eexists. split; [now apply CipherFacts.encryptPrivateKey_eq|]. split.
  - destruct iv as [|b iv]; [discriminate|]. reflexivity.
  - rewrite CipherFacts.decryptPrivateKey_envelope by assumption.
    rewrite aes_256_cbc_inverse by (try apply CipherFacts.key_bytes; assumption).
    unfold Buffer.toString_utf8, Buffer.from_utf8.
    now rewrite string_of_list_byte_of_string.
Qed.

(** The key a wallet is created with is the key it signs with: after
    [createWallet] has stored the generated keypair, under a fresh public
    key, [signWalletTransaction] for that public key decrypts the stored
    envelope, rebuilds the very keypair and signs with it, leaving the
    service as it is. *)
Theorem created_wallet_signs_with_generated_key
    (m : Manager MemDb) (d : MemDb) (keypair : Keypair) (iv : list byte)
    (platform platformId : string) (label : option string) (transaction : Transaction) :
  initialized m = true -> db m = Some d ->
  unbound platform platformId d ->
  (forall w, In w (wallets d) -> w_public_key w <> publicKey keypair) ->
  (32 <= String.length (encryptionKey m))%nat -> length iv = 16%nat ->
  bs58_decode (bs58_encode (secretKey keypair)) = Some (secretKey keypair) ->
  Keypair_fromSecretKey (secretKey keypair) = Some keypair ->
  exists info m1,
    createWallet keypair iv platform platformId label m = (Returned info, m1) /\
    signWalletTransaction (publicKey keypair) transaction m1
    = (Transaction_sign keypair transaction, m1).
Proof.
  intros Hi Hd Hs Hfresh Hk Hiv Hbs Hkp. destruct m as [i o k]. simpl in Hi, Hd, Hk. subst i o.
  unfold unbound in Hs.
  pose proof (find_has_public_key_none _ _ Hfresh) as Fw.
  assert (Hw : existsb (has_public_key (publicKey keypair)) (wallets d) = false).
  { destruct (existsb (has_public_key (publicKey keypair)) (wallets d)) eqn:Ex;
      [|reflexivity].
    destruct (find_some_of_existsb _ _ Ex) as [w F]. congruence. }
  destruct (decrypt_of_encrypt k iv (bs58_encode (secretKey keypair)) Hk Hiv)
    as [envelope [Eenc [Hne Edec]]].
  unfold createWallet, bind, ensureInitialized, onDb, lift, throw. cbn.
  rewrite (find_none_of_existsb _ _ Hs). cbn. rewrite Eenc.
  cbn. unfold mem_run_insert_wallet. rewrite Hw.
  cbn. unfold mem_run_insert_social. cbn. rewrite Hs. cbn.
  unfold getWalletById, bind, ensureInitialized, onDb. cbn.
  unfold mem_get_wallet_by_id. cbn.
  match goal with
  | |- context [find ?f (wallets d ++ [?row])] =>
      destruct (find_app_hit f (wallets d) row) as [y Fy]; [cbn; apply Z.eqb_refl|];
      rewrite Fy
  end.
  cbn. eexists. eexists. split; [reflexivity|].
  unfold signWalletTransaction, bind, ensureInitialized, onDb, lift, throw. cbn.
  unfold mem_get_wallet_by_public_key. cbn.
  rewrite (find_app_new _ (wallets d));
    [| exact Fw | unfold has_public_key; cbn; apply String.eqb_refl ].
  cbn [w_encrypted_private_key]. rewrite Hne. cbn [encryptionKey]. rewrite Edec.
  unfold keypairOfSecret. rewrite Hbs, Hkp.
  now destruct (Transaction_sign keypair transaction).
Qed.

Lemma unique_In (seen xs : list Z) (x : Z) :
  In x (unique seen xs) <-> In x xs /\ existsb (Z.eqb x) seen = false.
Proof.
  revert seen. induction xs as [|y ys IH]; intros seen; cbn [unique In].
  - tauto.
  - destruct (existsb (Z.eqb y) seen) eqn:Ey.
    + rewrite IH. split; [tauto|]. intros [[->|H] Hx]; [congruence|tauto].
    + cbn [In]. rewrite IH. cbn [existsb]. rewrite orb_false_iff, Z.eqb_neq.
      split.
      * intros [->|[H [Hne Hx]]]; [tauto|tauto].
      * intros [[->|H] Hx]; [now left|].
        destruct (Z.eq_dec y x) as [->|Hne]; [now left|right]. repeat split; auto.
Qed.

Lemma unique_NoDup (seen xs : list Z) : NoDup (unique seen xs).
Proof.
  revert seen. induction xs as [|y ys IH]; intros seen; cbn [unique].
  - constructor.
  - destruct (existsb (Z.eqb y) seen); [apply IH|].
    constructor; [|apply IH]. rewrite unique_In. cbn [existsb].
    rewrite Z.eqb_refl. intros [_ H]. discriminate.
Qed.

Lemma getWalletById_on (m : Manager MemDb) (d : MemDb) (walletId : Z) :
  initialized m = true -> db m = Some d ->
  getWalletById walletId m
  = (match find (fun w => Z.eqb (w_id w) walletId) (wallets d) with
     | Some w => Returned (toWalletInfo w (filter (fun a => Z.eqb (s_walletId a) walletId)
                                                  (social_accounts d)))
     | None => Thrown (JsError ("Wallet with ID " ++ Z_toString walletId ++ " not found"))
     end, m).
Proof.
  intros Hi Hd. destruct m as [i o k]. simpl in Hi, Hd. subst i o.
  unfold getWalletById, bind, ensureInitialized, onDb. cbn.
  now destruct (find _ (wallets d)).
Qed.

(** Fetching a list of wallets by id: all of them, in order, or the
    error of the first id that names no row. *)
Lemma forEach_getWalletById (m : Manager MemDb) (d : MemDb) (ids : list Z) :
  initialized m = true -> db m = Some d ->
  (exists infos, forEach getWalletById ids m = (Returned infos, m) /\ map id infos = ids)
  \/
  (exists e x, forEach getWalletById ids m = (Thrown e, m) /\ In x ids /\
               find (fun w => Z.eqb (w_id w) x) (wallets d) = None).
Proof.
  intros Hi Hd. induction ids as [|x xs IH].
  - left. exists []. split; reflexivity.
  - pose proof (getWalletById_on m d x Hi Hd) as G.
    destruct (find (fun w => Z.eqb (w_id w) x) (wallets d)) as [w|] eqn:F.
    + destruct IH as [[infos [E Hmap]]|[e [y [E [Hin Hy]]]]].
      * left. eexists. cbn [forEach]. unfold bind. rewrite G, E. split; [reflexivity|].
        cbn. apply find_some in F. destruct F as [_ F]. apply Z.eqb_eq in F.
        now rewrite F, Hmap.
      * right. exists e, y. cbn [forEach]. unfold bind. rewrite G, E.
        repeat split; auto. now right.
    + right. eexists. exists x. cbn [forEach]. unfold bind. rewrite G.
      split; [reflexivity|]. split; [now left|exact F].
Qed.

Lemma getWalletsForUser_on (m : Manager MemDb) (d : MemDb) (platformId : string) :
  initialized m = true -> db m = Some d ->
  getWalletsForUser platformId m
  = match filter (fun a => String.eqb (s_platformId a) platformId) (social_accounts d) with
    | [] => (Returned [], m)
    | a :: rest =>
        match forEach getWalletById (unique [] (map s_walletId (a :: rest))) m with
        | (Thrown _, m') => (Returned [], m')
        | r => r
        end
    end.
Proof.
  intros Hi Hd.
  assert (Eall : onDb (all_social_by_platform_id platformId) m
                 = (Returned (filter (fun a => String.eqb (s_platformId a) platformId)
                                     (social_accounts d)), m))
    by (apply onDb_pure with (d := d); [exact Hd|reflexivity]).
  unfold getWalletsForUser.
  rewrite (bind_returned _ _ _ _ _ (ensureInitialized_ok m d Hi Hd)).
  unfold try_catch. rewrite (bind_returned _ _ _ _ _ Eall).
  now destruct (filter _ (social_accounts d)).
Qed.

(** [getWalletsForUser] never throws on an initialized service and
    lists each wallet at most once, however many of the user's accounts
    are bound to it; every listed wallet is bound to an account with the
    given platform id, on whichever platform; and when every binding
    names a stored wallet, each such account's wallet is listed. *)
Theorem getWalletsForUser_one_entry_per_wallet
    (m : Manager MemDb) (d : MemDb) (platformId : string) :
  initialized m = true -> db m = Some d ->
  exists infos,
    getWalletsForUser platformId m = (Returned infos, m) /\
    NoDup (map id infos) /\
    (forall info, In info infos ->
       exists a, In a (social_accounts d) /\ s_platformId a = platformId /\
                 s_walletId a = id info) /\
    (bindings_resolve d ->
     forall a, In a (social_accounts d) -> s_platformId a = platformId ->
       exists info, In info infos /\ id info = s_walletId a).
Proof.
  intros Hi Hd. rewrite (getWalletsForUser_on m d platformId Hi Hd).
  set (accounts := filter (fun a => String.eqb (s_platformId a) platformId)
                          (social_accounts d)).
  assert (Hacc : forall a, In a accounts <->
                           In a (social_accounts d) /\ s_platformId a = platformId).
  { intros a. unfold accounts. rewrite filter_In, String.eqb_eq. tauto. }
  clearbody accounts. destruct accounts as [|a0 rest].
  - exists []. split; [reflexivity|]. split; [constructor|]. split.
    + intros info [].
    + intros _ a Hin Hp. exfalso. apply (proj2 (Hacc a)). auto.
  - set (accounts := a0 :: rest) in *.
    set (ids := unique [] (map s_walletId accounts)).
    assert (Hids : forall x, In x ids <-> exists a, In a accounts /\ s_walletId a = x).
    { intros x. unfold ids. rewrite unique_In, in_map_iff. cbn [existsb]. split.
      - intros [[a [E H]] _]. eauto.
      - intros [a [H E]]. split; eauto. }
    destruct (forEach_getWalletById m d ids Hi Hd) as [[infos [E Hmap]]|[e [x [E [Hin F]]]]];
      rewrite E.
    + exists infos.
      split; [reflexivity|]. split; [rewrite Hmap; apply unique_NoDup|]. split.
      * intros info Hinfo.
        assert (Hx : In (id info) ids) by (rewrite <- Hmap; now apply in_map).
        apply Hids in Hx. destruct Hx as [a [Ha Eid]]. apply Hacc in Ha.
        exists a. tauto.
      * intros _ a Ha Hp.
        assert (Hx : In (s_walletId a) ids)
          by (apply Hids; exists a; split; [apply Hacc|]; auto).
        rewrite <- Hmap in Hx. apply in_map_iff in Hx. destruct Hx as [info [Ei Hi']].
        exists info. auto.
    + exists []. split; [reflexivity|]. split; [constructor|]. split.
      * intros info [].
      * intros Hres a Ha Hp. exfalso.
        apply Hids in Hin. destruct Hin as [b [Hb Eb]]. apply Hacc in Hb.
        destruct (Hres b (proj1 Hb)) as [w [Hw Ew]].
        apply (find_none _ _ F) in Hw. rewrite Ew, Eb, Z.eqb_refl in Hw. discriminate.
Qed.

Lemma fresh_public_key (pk : string) (ws : list wallet_row) :
  (forall w, In w ws -> w_public_key w <> pk) -> existsb (has_public_key pk) ws = false.
Proof.
  intros H. destruct (existsb (has_public_key pk) ws) eqn:Ex; [|reflexivity].
  apply existsb_exists in Ex. destruct Ex as [w [Hin Hk]].
  apply String.eqb_eq in Hk. now elim (H w Hin).
Qed.

(** What a successful [createWallet] returns and leaves. *)
Lemma createWallet_stores (m : Manager MemDb) (d : MemDb)
    (keypair : Keypair) (iv : list byte) (platform platformId : string)
    (label : option string) :
  initialized m = true -> db m = Some d ->
  ids_within_sequence d -> unbound platform platformId d ->
  (forall w, In w (wallets d) -> w_public_key w <> publicKey keypair) ->
  (32 <= String.length (encryptionKey m))%nat -> length iv = 16%nat ->
  exists envelope,
    encryptPrivateKey (encryptionKey m) iv (bs58_encode (secretKey keypair))
    = Returned envelope /\
    let row := createdRow d (publicKey keypair) label envelope in
    let binding := createdBinding d platform platformId in
    createWallet keypair iv platform platformId label m
    = (Returned (toWalletInfo row
                   (filter (fun a => Z.eqb (s_walletId a) (w_id row))
                           (social_accounts d ++ [binding]))),
       withDb m (afterCreate d row binding)).
Proof.
  intros Hi Hd Hwf Hs Hfresh Hk Hiv. destruct m as [i o k]. simpl in Hi, Hd, Hk. subst i o.
  unfold unbound in Hs. pose proof (fresh_public_key _ _ Hfresh) as Hw.
  eexists. split; [apply (CipherFacts.encryptPrivateKey_eq k iv _ Hk Hiv)|].
  unfold createWallet, bind, ensureInitialized, onDb, lift. cbn.
  rewrite (find_none_of_existsb _ _ Hs). cbn.
  rewrite (CipherFacts.encryptPrivateKey_eq k iv _ Hk Hiv).
  cbn. unfold mem_run_insert_wallet. cbn. rewrite Hw. cbn.
  unfold mem_run_insert_social. cbn. rewrite Hs. cbn.
  unfold getWalletById, bind, ensureInitialized, onDb. cbn.
  unfold mem_get_wallet_by_id. cbn.
  rewrite (find_app_new _ (wallets d));
    [| now apply find_id_beyond_sequence | cbn; apply Z.eqb_refl ].
  reflexivity.
Qed.

(** A created wallet is found again, by the identity it was created
    for and by its public key alike, as the very record [createWallet]
    returned: custodial, labelled as asked, holding the identity among
    its accounts, and with the secret stored only as its envelope. *)
Theorem created_wallet_is_found
    (m : Manager MemDb) (d : MemDb) (keypair : Keypair) (iv : list byte)
    (platform platformId : string) (label : option string) :
  initialized m = true -> db m = Some d ->
  ids_within_sequence d -> unbound platform platformId d ->
  (forall w, In w (wallets d) -> w_public_key w <> publicKey keypair) ->
  (32 <= String.length (encryptionKey m))%nat -> length iv = 16%nat ->
  exists info m1 envelope,
    createWallet keypair iv platform platformId label m = (Returned info, m1) /\
    wi_publicKey info = publicKey keypair /\
    isCustodial info = true /\
    WalletService.label info = nonEmpty label /\
    encryptedPrivateKey info = Some envelope /\
    decryptPrivateKey (encryptionKey m) envelope
    = Returned (bs58_encode (secretKey keypair)) /\
    (exists a, In a (socialAccounts info) /\
               s_platform a = platform /\ s_platformId a = platformId /\
               s_walletId a = id info) /\
    getWalletBySocialAccount platform platformId m1 = (Returned (Some info), m1) /\
    getWalletByPublicKey (publicKey keypair) m1 = (Returned (Some info), m1) /\
    getSocialAccountsForWallet (publicKey keypair) m1 = (Returned (socialAccounts info), m1).
Proof.
  intros Hi Hd Hwf Hs Hfresh Hk Hiv.
  destruct (createWallet_stores m d keypair iv platform platformId label
              Hi Hd Hwf Hs Hfresh Hk Hiv) as [envelope [Eenc Ecreate]].
  cbv zeta in Ecreate.
  destruct (decrypt_of_encrypt (encryptionKey m) iv (bs58_encode (secretKey keypair))
              Hk Hiv) as [envelope' [Eenc' [_ Edec]]].
  rewrite Eenc in Eenc'. injection Eenc' as <-.
  eexists. eexists. exists envelope. split; [exact Ecreate|].
  destruct m as [i o k]. simpl in Hi, Hd, Hk. subst i o.
  unfold unbound in Hs.
  assert (Fid : find (fun w => Z.eqb (w_id w) (wallets_seq d + 1))
                     (wallets d ++ [createdRow d (publicKey keypair) label envelope])
                = Some (createdRow d (publicKey keypair) label envelope))
    by (apply find_app_new; [now apply find_id_beyond_sequence | cbn; apply Z.eqb_refl]).
  assert (Fpk : find (has_public_key (publicKey keypair))
                     (wallets d ++ [createdRow d (publicKey keypair) label envelope])
                = Some (createdRow d (publicKey keypair) label envelope))
    by (apply find_app_new;
        [now apply find_has_public_key_none
        | unfold has_public_key; cbn; apply String.eqb_refl]).
  split; [reflexivity|]. split; [reflexivity|]. split; [reflexivity|].
  split; [reflexivity|]. split; [exact Edec|]. split; [|split; [|split]].
  - exists (createdBinding d platform platformId). split; [|repeat split].
    cbn [socialAccounts toWalletInfo]. rewrite filter_app. apply in_or_app. right.
    cbn. rewrite Z.eqb_refl. now left.
  - unfold getWalletBySocialAccount, try_catch, getWalletById, bind, ensureInitialized,
      onDb, withDb. cbn.
    rewrite (find_app_new _ (social_accounts d));
      [| now apply find_none_of_existsb | now apply is_identity_refl ].
    cbn. unfold mem_get_wallet_by_id. cbn. rewrite Fid. reflexivity.
  - unfold getWalletByPublicKey, try_catch, bind, ensureInitialized, onDb, withDb. cbn.
    unfold mem_get_wallet_by_public_key. cbn. rewrite Fpk. reflexivity.
  - unfold getSocialAccountsForWallet, try_catch, bind, ensureInitialized, onDb, withDb. cbn.
    unfold mem_get_wallet_by_public_key. cbn. rewrite Fpk. reflexivity.
Qed.

(** [createWalletForUser] creates under the platform [user]: a platform
    id already bound there is refused with the prefixed already-linked
    error and nothing written; otherwise the wallet is created, labelled
    with the given label or, when that is absent or empty, with
    "Wallet for <id>", and (user, id) resolves to it. *)
Theorem createWalletForUser_binds_user_platform
    (m : Manager MemDb) (d : MemDb) (keypair : Keypair) (iv : list byte)
    (platformId : string) (label : option string) :
  initialized m = true -> db m = Some d ->
  (bound "user" platformId d ->
   createWalletForUser keypair iv platformId label m
   = (Thrown (JsError ("Failed to create wallet for user: Social account user:"
                       ++ platformId ++ " already linked to a wallet")), m))
  /\
  (ids_within_sequence d -> unbound "user" platformId d ->
   (forall w, In w (wallets d) -> w_public_key w <> publicKey keypair) ->
   (32 <= String.length (encryptionKey m))%nat -> length iv = 16%nat ->
   exists info m1,
     createWalletForUser keypair iv platformId label m = (Returned info, m1) /\
     wi_publicKey info = publicKey keypair /\
     WalletService.label info = Some (userLabel platformId label) /\
     getWalletBySocialAccount "user" platformId m1 = (Returned (Some info), m1)).
Proof.
  intros Hi Hd. unfold createWalletForUser.
  rewrite (bind_returned _ _ _ _ _ (ensureInitialized_ok m d Hi Hd)).
  split.
  - intros Hb. destruct (find_some_of_existsb _ _ Hb) as [a F].
    rewrite (try_catch_thrown _ _ m m (alreadyLinked "user" platformId)); [reflexivity|].
    destruct m as [i o k]. simpl in Hi, Hd. subst i o.
    unfold createWallet, bind, ensureInitialized, onDb. cbn. now rewrite F.
  - intros Hwf Hs Hfresh Hk Hiv.
    destruct (createWallet_stores m d keypair iv "user" platformId
                (match nonEmpty label with
                 | Some l => Some l
                 | None => Some ("Wallet for " ++ platformId)
                 end) Hi Hd Hwf Hs Hfresh Hk Hiv) as [envelope [Eenc Ecreate]].
    cbv zeta in Ecreate.
    eexists. eexists. split; [apply try_catch_returned; exact Ecreate|].
    split; [reflexivity|]. split.
    + cbn. unfold userLabel. destruct label as [[|c l]|]; reflexivity.
    + destruct m as [i o k]. simpl in Hi, Hd, Hk. subst i o. unfold unbound in Hs.
      unfold getWalletBySocialAccount, try_catch, getWalletById, bind, ensureInitialized,
        onDb, withDb. cbn.
      rewrite (find_app_new _ (social_accounts d));
        [| now apply find_none_of_existsb | now apply is_identity_refl ].
      cbn. unfold mem_get_wallet_by_id. cbn.
      rewrite (find_app_new _ (wallets d));
        [| now apply find_id_beyond_sequence | cbn; apply Z.eqb_refl ].
      reflexivity.
Qed.

Lemma length_slice0_le (n : nat) (s : string) :
  (String.length (slice0 n s) <= String.length s)%nat.
Proof.
  unfold slice0. revert s. induction n as [|n IH]; intros s.
  - destruct s; simpl; lia.
  - destruct s as [|c s]; simpl; [lia|]. specialize (IH s). lia.
Qed.

Lemma short_key_rejected (key : string) (iv : list byte) :
  (String.length key < 32)%nat ->
  exists e, createCipheriv (Buffer.from_utf8 (slice0 32 key)) iv = Thrown e /\
            (length iv = 16%nat -> e = JsError "Invalid key length").
Proof.
  intros Hshort. unfold createCipheriv.
  assert (Hlen : (length (Buffer.from_utf8 (slice0 32 key)) =? 32)%nat = false).
  { apply Nat.eqb_neq. rewrite BufferFacts.length_from_utf8.
    pose proof (length_slice0_le 32 key). lia. }
  rewrite Hlen. destruct (length iv =? 16)%nat eqn:Hiv; cbn [negb].
  - eexists. split; [reflexivity|]. reflexivity.
  - eexists. split; [reflexivity|]. intros E. rewrite E in Hiv. discriminate.
Qed.

(** With an encryption key of fewer than 32 characters the vault cannot
    keep a secret: [encryptPrivateKey] and [decryptPrivateKey] throw on
    every input (the cipher refuses the key), so [createWallet] and
    [signWalletTransaction] throw for every argument and leave the
    service exactly as it was. *)
Theorem short_key_disables_custody
    (m : Manager MemDb) (d : MemDb) (keypair : Keypair) (iv : list byte)
    (platform platformId walletPublicKey secret envelope : string)
    (label : option string) (transaction : Transaction) :
  initialized m = true -> db m = Some d ->
  (String.length (encryptionKey m) < 32)%nat ->
  (exists e, encryptPrivateKey (encryptionKey m) iv secret = Thrown e /\
             (length iv = 16%nat -> e = JsError "Invalid key length")) /\
  (exists e, decryptPrivateKey (encryptionKey m) envelope = Thrown e) /\
  (exists e, createWallet keypair iv platform platformId label m = (Thrown e, m)) /\
  (exists e, signWalletTransaction walletPublicKey transaction m = (Thrown e, m)).
Proof.
  intros Hi Hd Hshort.
  assert (Henc : forall iv0 s, exists e,
             encryptPrivateKey (encryptionKey m) iv0 s = Thrown e /\
             (length iv0 = 16%nat -> e = JsError "Invalid key length")).
  { intros iv0 s. destruct (short_key_rejected _ iv0 Hshort) as [e [E He]].
    exists e. unfold encryptPrivateKey. rewrite E. auto. }
  assert (Hdec : forall env, exists e, decryptPrivateKey (encryptionKey m) env = Thrown e).
  { intros env. unfold decryptPrivateKey. destruct (split_colon env) as [|ivHex rest]; [eauto|].
    destruct (short_key_rejected _ (Buffer.from_hex ivHex) Hshort) as [e [E _]].
    rewrite E. eauto. }
  split; [apply Henc|]. split; [apply Hdec|].
  destruct m as [i o k]. simpl in Hi, Hd, Henc, Hdec. subst i o. split.
  - unfold createWallet, bind, ensureInitialized, onDb, lift, throw. cbn.
    destruct (find (is_identity platform platformId) (social_accounts d)); [eauto|].
    cbn. destruct (Henc iv (bs58_encode (secretKey keypair))) as [e [E _]]. rewrite E. eauto.
  - unfold signWalletTransaction, bind, ensureInitialized, onDb, lift, throw. cbn.
    destruct (find (has_public_key walletPublicKey) (wallets d)) as [w|]; [|eauto].
    destruct (nonEmpty (w_encrypted_private_key w)) as [env|]; [|eauto].
    cbn. destruct (Hdec env) as [e E]. rewrite E. eauto.
Qed.

End OnMemDb.

Section OnAnyDatabase.
Context {DB : Type} {database : Database DB} {crypto : NodeCrypto} {web3 : Web3}.

Lemma ensureInitialized_refuses (m : Manager DB) :
  initialized m = false \/ db m = None ->
  ensureInitialized m = (Thrown notInitialized, m).
Proof.
  unfold ensureInitialized. intros [H|H]; rewrite H; [reflexivity|].
  now rewrite orb_true_r.
Qed.

(** The guard sits outside every [try]: on a service that is not
    initialized each method throws the not-initialized error and touches
    nothing -- the reads that swallow storage failures included. *)
Theorem uninitialized_service_refuses_every_call
    (m : Manager DB) (keypair : Keypair) (iv : list byte)
    (platform platformId key : string) (label : option string)
    (transaction : Transaction) :
  initialized m = false \/ db m = None ->
  getWalletsForUser key m = (Thrown notInitialized, m) /\
  createWalletForUser keypair iv platformId label m = (Thrown notInitialized, m) /\
  createWallet keypair iv platform platformId label m = (Thrown notInitialized, m) /\
  getWalletByPublicKey key m = (Thrown notInitialized, m) /\
  getSocialAccountsForWallet key m = (Thrown notInitialized, m) /\
  getAllWallets m = (Thrown notInitialized, m) /\
  getWalletBySocialAccount platform platformId m = (Thrown notInitialized, m) /\
  linkSocialAccountToWallet platform platformId key m = (Thrown notInitialized, m) /\
  unlinkSocialAccount platform platformId m = (Thrown notInitialized, m) /\
  signWalletTransaction key transaction m = (Thrown notInitialized, m).
Proof.
  intros H. apply ensureInitialized_refuses in H.
  repeat split; now apply bind_thrown.
Qed.

(** [initialize] never throws, and what it returns is the readiness it
    leaves behind: true only when the handle was opened and the tables
    created, with that handle kept; false leaves the service refusing
    calls. *)
Theorem initialize_reports_readiness (m : Manager DB) (opened : outcome DB) :
  initialized m = false ->
  (forall e, fst (initialize opened m) <> Thrown e) /\
  (forall m', initialize opened m = (Returned true, m') ->
     initialized m' = true /\ encryptionKey m' = encryptionKey m /\
     exists d d', opened = Returned d /\ exec_create_tables d = (Returned tt, d') /\
                  db m' = Some d') /\
  (forall m', initialize opened m = (Returned false, m') ->
     initialized m' = false /\
     ((exists e, opened = Thrown e /\ m' = m) \/
      (exists d e d', opened = Returned d /\ exec_create_tables d = (Thrown e, d')))) /\
  (forall m' key, initialize opened m = (Returned false, m') ->
     getWalletByPublicKey key m' = (Thrown notInitialized, m')).
Proof.
  intros Hi.
  assert (Hshape :
    forall b m', initialize opened m = (Returned b, m') ->
      (b = true /\ initialized m' = true /\ encryptionKey m' = encryptionKey m /\
       exists d d', opened = Returned d /\ exec_create_tables d = (Returned tt, d') /\
                    db m' = Some d') \/
      (b = false /\ initialized m' = false /\
       ((exists e, opened = Thrown e /\ m' = m) \/
        (exists d e d', opened = Returned d /\ exec_create_tables d = (Thrown e, d'))))).
  { intros b m'. unfold initialize, try_catch, bind, lift, onDb, ret.
    destruct opened as [d|e|]; cbn.
    - destruct (exec_create_tables d) as [[[]|e|] d'] eqn:Ex; cbn; intros E;
        try discriminate; injection E as <- <-.
      + left. cbn. repeat split. exists d, d'. auto.
      + right. cbn. split; [reflexivity|]. split; [exact Hi|]. right. eauto.
    - intros E. injection E as <- <-. right. split; [reflexivity|]. split; [exact Hi|].
      left. eauto.
    - discriminate. }
  split; [|split; [|split]].
  - intros e. apply (try_catch_never_throws _ (fun _ => false)).
  - intros m' E. destruct (Hshape _ _ E) as [[_ H]|[H _]]; [exact H|discriminate].
  - intros m' E. destruct (Hshape _ _ E) as [[H _]|[_ [H1 H2]]]; [discriminate|].
    split; assumption.
  - intros m' key E. destruct (Hshape _ _ E) as [[H _]|[_ [H1 _]]]; [discriminate|].
    apply bind_thrown. apply ensureInitialized_refuses. now left.
Qed.

End OnAnyDatabase.

Import Stubs VaultSamples.

Lemma alice_db_within_sequence : ids_within_sequence alice_db.
Proof. repeat constructor. vm_compute. discriminate. Qed.

Lemma alice_db_ids_distinct : wallet_ids_distinct alice_db.
Proof. repeat constructor. intros []. Qed.

Lemma alice_db_only_alice (pk : string) :
  pk <> "alicePublicKey" -> forall w, In w (wallets alice_db) -> w_public_key w <> pk.
Proof. intros Hne w [<-|[]] E. apply Hne. now rewrite <- E. Qed.

Lemma unlinkSocialAccount_removes_binding_witness :
  exists d',
    unlinkSocialAccount "twitter" "alice" alice_plain = (Returned true, withDb alice_plain d') /\
    wallets d' = wallets alice_db /\
    getWalletBySocialAccount "twitter" "alice" (withDb alice_plain d')
    = (Returned None, withDb alice_plain d') /\
    unlinkSocialAccount "twitter" "alice" (withDb alice_plain d')
    = (Returned false, withDb alice_plain d').
Proof.
  destruct (unlinkSocialAccount_removes_binding alice_plain alice_db "twitter" "alice"
              eq_refl eq_refl) as [d' [E [Hw [_ [_ [Hl Hu]]]]]].
  exists d'. repeat split; assumption.
Defined.

Lemma linkSocialAccountToWallet_binds_identity_witness :
  linkSocialAccountToWallet "discord" "alice" "nobody" alice_plain
  = (Thrown (walletNotFound "nobody"), alice_plain) /\
  linkSocialAccountToWallet "twitter" "alice" "alicePublicKey" alice_plain
  = (Thrown (alreadyLinked "twitter" "alice"), alice_plain) /\
  (exists info d' binding,
     linkSocialAccountToWallet "discord" "alice" "alicePublicKey" alice_plain
     = (Returned info, withDb alice_plain d') /\
     wi_publicKey info = "alicePublicKey" /\
     In binding (socialAccounts info) /\
     s_platform binding = "discord" /\ s_platformId binding = "alice" /\
     getWalletBySocialAccount "discord" "alice" (withDb alice_plain d')
     = (Returned (Some info), withDb alice_plain d')).
Proof.
  assert (Halice : exists w, In w (wallets alice_db) /\ w_public_key w = "alicePublicKey")
    by (exists alice_row; split; [exact (or_introl eq_refl) | reflexivity]).
  split; [|split].
  - apply (proj1 (linkSocialAccountToWallet_binds_identity alice_plain alice_db
                    "discord" "alice" "nobody" eq_refl eq_refl alice_db_ids_distinct)).
    apply alice_db_only_alice. discriminate.
  - exact (proj1 (proj2 (linkSocialAccountToWallet_binds_identity alice_plain alice_db
                           "twitter" "alice" "alicePublicKey" eq_refl eq_refl
                           alice_db_ids_distinct)) Halice eq_refl).
  - destruct (proj2 (proj2 (linkSocialAccountToWallet_binds_identity alice_plain alice_db
                              "discord" "alice" "alicePublicKey" eq_refl eq_refl
                              alice_db_ids_distinct)) Halice eq_refl)
      as [info [d' [binding [E [Hpk [_ [_ [Hp [Hi [_ [Hin Hl]]]]]]]]]]].
    exists info, d', binding. repeat split; assumption.
Defined.


Lemma created_wallet_signs_with_generated_key_witness :
  exists info m1,
    createWallet (keypairOf "bobPublicKey") sample_iv' "twitter" "bob" None alice_plain
    = (Returned info, m1) /\
    signWalletTransaction "bobPublicKey" sample_transaction m1
    = (Transaction_sign (keypairOf "bobPublicKey") sample_transaction, m1).
Proof.
  apply (created_wallet_signs_with_generated_key alice_plain alice_db
           (keypairOf "bobPublicKey") sample_iv' "twitter" "bob" None sample_transaction
           eq_refl eq_refl eq_refl).
  - apply alice_db_only_alice. discriminate.
  - vm_compute. lia.
  - reflexivity.
  - reflexivity.
  - reflexivity.
Defined.

Lemma uninitialized_service_refuses_every_call_witness :
  createWallet (keypairOf "bobPublicKey") sample_iv' "twitter" "bob" None cold_manager
  = (Thrown notInitialized, cold_manager) /\
  getWalletByPublicKey "alicePublicKey" cold_manager = (Thrown notInitialized, cold_manager).
Proof.
  destruct (uninitialized_service_refuses_every_call cold_manager
              (keypairOf "bobPublicKey") sample_iv' "twitter" "bob" "alicePublicKey" None
              sample_transaction (or_introl eq_refl))
    as [_ [_ [H1 [H2 _]]]].
  split; assumption.
Defined.

Lemma initialize_reports_readiness_witness :
  (forall e, fst (initialize (Returned empty_db) cold_manager) <> Thrown e) /\
  (forall e, fst (initialize (DB := MemDb) (Thrown (JsError "SQLITE_CANTOPEN")) cold_manager)
             <> Thrown e).
Proof.
  split.
  - exact (proj1 (initialize_reports_readiness cold_manager (Returned empty_db) eq_refl)).
  - exact (proj1 (initialize_reports_readiness cold_manager
                    (Thrown (JsError "SQLITE_CANTOPEN")) eq_refl)).
Defined.

Lemma getWalletsForUser_one_entry_per_wallet_witness :
  exists infos,
    getWalletsForUser "alice" alice_plain = (Returned infos, alice_plain) /\
    NoDup (map id infos).
Proof.
  destruct (getWalletsForUser_one_entry_per_wallet alice_plain alice_db "alice"
              eq_refl eq_refl) as [infos [E [Hnd _]]].
  exists infos. split; assumption.
Defined.

Lemma created_wallet_is_found_witness :
  exists info m1 envelope,
    createWallet (keypairOf "bobPublicKey") sample_iv' "twitter" "bob" (Some "tips")
      alice_plain
    = (Returned info, m1) /\
    WalletService.label info = Some "tips" /\
    encryptedPrivateKey info = Some envelope /\
    getWalletBySocialAccount "twitter" "bob" m1 = (Returned (Some info), m1) /\
    getWalletByPublicKey "bobPublicKey" m1 = (Returned (Some info), m1).
Proof.
  destruct (created_wallet_is_found alice_plain alice_db (keypairOf "bobPublicKey")
              sample_iv' "twitter" "bob" (Some "tips") eq_refl eq_refl
              alice_db_within_sequence eq_refl
              (alice_db_only_alice "bobPublicKey" ltac:(discriminate))
              ltac:(vm_compute; lia) eq_refl)
    as [info [m1 [envelope [E [_ [_ [Hl [He [_ [_ [H1 [H2 _]]]]]]]]]]]].
  exists info, m1, envelope. repeat split; assumption.
Defined.

Lemma createWalletForUser_binds_user_platform_witness :
  exists info m1,
    createWalletForUser (keypairOf "bobPublicKey") sample_iv' "42" None alice_plain
    = (Returned info, m1) /\
    WalletService.label info = Some "Wallet for 42" /\
    getWalletBySocialAccount "user" "42" m1 = (Returned (Some info), m1).
Proof.
  destruct (proj2 (createWalletForUser_binds_user_platform alice_plain alice_db
                     (keypairOf "bobPublicKey") sample_iv' "42" None eq_refl eq_refl)
              alice_db_within_sequence eq_refl
              (alice_db_only_alice "bobPublicKey" ltac:(discriminate))
              ltac:(vm_compute; lia) eq_refl)
    as [info [m1 [E [_ [Hl H1]]]]].
  exists info, m1. repeat split; assumption.
Defined.

Lemma short_key_disables_custody_witness :
  (exists e, createWallet (keypairOf "bobPublicKey") sample_iv' "twitter" "bob" None
               short_key_manager = (Thrown e, short_key_manager)) /\
  (exists e, signWalletTransaction "alicePublicKey" sample_transaction short_key_manager
             = (Thrown e, short_key_manager)).
Proof.
  destruct (short_key_disables_custody short_key_manager alice_db
              (keypairOf "bobPublicKey") sample_iv' "twitter" "bob" "alicePublicKey"
              "secret" "envelope" None sample_transaction eq_refl eq_refl
              ltac:(vm_compute; lia))
    as [_ [_ [H1 H2]]].
  split; assumption.
Defined.

End VaultFacts.

(** ** The transfer executors and the endpoint *)

Module ExecutorFacts.
Import Repository Solana Cipher WalletService JsValue Ledger ToolService JsFacts
  Vocabulary VaultVocabulary ExecutorVocabulary.
Local Open Scope list_scope.
Local Open Scope string_scope.

Section OnAnyDatabase.
Context {DB : Type} {database : Database DB} {crypto : NodeCrypto} {web3 : Web3}
        {rt : JsRuntime}.


Lemma logged_requests (w : World DB) (c : Connection) (calls : list rpc_call) :
  connection w = Some c -> requestsOf (logged w calls) = (requests c ++ calls)%list.
Proof.
  intros Hc. unfold requestsOf, logged. cbn. rewrite Hc. clear Hc.
  revert c. induction calls as [|call calls IH]; intros c; cbn.
  - now rewrite app_nil_r.
  - rewrite IH. cbn. now rewrite <- app_assoc.
Qed.

(** [sendTokenSecure] needs a holding account on either side: when the
    endpoint lists none for the sender it throws the no-token-account
    error after that one lookup, and when it lists none for the
    recipient it throws the recipient error after the two lookups; in
    both cases nothing else was requested and the wallet service was
    not consulted. *)
Theorem sendTokenSecure_requires_holding_accounts
    (fromWalletPublicKey toAddress tokenMint : string) (amount : Q) (decimals : Z)
    (w : World DB) (c : Connection) :
  connection w = Some c ->
  isPublicKey fromWalletPublicKey = true -> isPublicKey toAddress = true ->
  isPublicKey tokenMint = true ->
  (answer_getParsedTokenAccountsByOwner c fromWalletPublicKey (ByMint tokenMint)
   = Returned [] ->
   sendTokenSecure fromWalletPublicKey toAddress tokenMint amount decimals w
   = (Thrown (JsError ("Failed to send token: No token account found for mint "
                       ++ tokenMint)),
      logged w [GetParsedTokenAccountsByOwner fromWalletPublicKey (ByMint tokenMint)]))
  /\
  (forall sender senders,
     answer_getParsedTokenAccountsByOwner c fromWalletPublicKey (ByMint tokenMint)
     = Returned (sender :: senders) ->
     answer_getParsedTokenAccountsByOwner c toAddress (ByMint tokenMint) = Returned [] ->
     sendTokenSecure fromWalletPublicKey toAddress tokenMint amount decimals w
     = (Thrown (JsError
                  ("Failed to send token: Recipient does not have a token account for mint "
                   ++ tokenMint)),
        logged w [GetParsedTokenAccountsByOwner fromWalletPublicKey (ByMint tokenMint);
                  GetParsedTokenAccountsByOwner toAddress (ByMint tokenMint)])).
Proof.
  intros Hc Hf Ht Hm.
  unfold sendTokenSecure, requireConnection, wrapError, try_catch, bind, lift, new_PublicKey,
    throw, rpc, logged.
  rewrite Hc, Hf, Ht, Hm. cbn. rewrite Hc. unfold getParsedTokenAccountsByOwner, answer.
  split.
  - intros E. rewrite E. reflexivity.
  - intros sender senders E1 E2. rewrite E1. cbn. rewrite E2. reflexivity.
Qed.



(** The direct [networkStatus] tool succeeds whenever the endpoint
    reports its epoch, also when the version probe fails: the probe
    only decides whether the health reads okay or down.  Without the
    epoch the result is the error envelope. *)
Theorem networkStatus_reports_health
    (server : McpServer DB) (entropy : Keypair * list byte) (params : Params)
    (w : World DB) (c : Connection) :
  registryGet (registryOf server) "networkStatus" = None ->
  connection w = Some c ->
  (forall info, answer_getEpochInfo c = Returned info ->
     (answer_getVersion c = Returned tt ->
      executeTool (Some server) entropy "networkStatus" params w
      = (Returned (success (networkStatusText "okay" info)),
         logged w [GetVersion; GetEpochInfo])) /\
     (forall e, answer_getVersion c = Thrown e ->
      executeTool (Some server) entropy "networkStatus" params w
      = (Returned (success (networkStatusText "down" info)),
         logged w [GetVersion; GetEpochInfo])))
  /\
  (forall e, answer_getEpochInfo c = Thrown e -> answer_getVersion c <> Pending ->
     executeTool (Some server) entropy "networkStatus" params w
     = (Returned (handleToolError
                    (JsError ("Failed to get network status: " ++ messageOrString e))
                    "networkStatus"),
        logged w [GetVersion; GetEpochInfo])).
Proof.
  intros Hreg Hc. unfold executeTool. rewrite Hreg.
  change (directImplementation entropy (registryOf server) "networkStatus" params)
    with (case_networkStatus (DB := DB) "networkStatus").
  unfold case_networkStatus, requireConnection, wrapError, try_catch, bind, lift, throw,
    rpc, logged, networkStatusText. rewrite Hc. cbn. rewrite Hc.
  unfold getVersion, getEpochInfo, answer.
  split.
  - intros info Ei. split.
    + intros Ev. rewrite Ev. cbn. rewrite Ei. reflexivity.
    + intros e Ev. rewrite Ev. cbn. rewrite Ei. reflexivity.
  - intros e Ei Hv. destruct (answer_getVersion c) as [[]|e'|]; [| |now elim Hv];
      cbn; rewrite Ei; reflexivity.
Qed.

End OnAnyDatabase.

End ExecutorFacts.

(** ** Validation and provisioning in [executeTool] *)

Module DispatchFacts.
Import Repository Solana Cipher WalletService JsValue Ledger ToolService JsFacts
  WalletFacts TransferFacts Vocabulary VaultVocabulary ExecutorVocabulary DispatchVocabulary.
Local Open Scope list_scope.
Local Open Scope string_scope.

Section OnAnyDatabase.
Context {DB : Type} {database : Database DB} {crypto : NodeCrypto} {web3 : Web3}
        {rt : JsRuntime}.

(** The direct implementations validate before they act: an ill-formed
    parameter bag is answered with an error envelope, and neither the
    wallet service nor the endpoint is touched. *)
Theorem executeTool_validates_before_acting
    (server : McpServer DB) (entropy : Keypair * list byte) (toolName : string)
    (params : Params) (w : World DB) :
  registryGet (registryOf server) toolName = None ->
  illFormed toolName params = true ->
  exists text,
    executeTool (Some server) entropy toolName params w = (Returned (failure text), w).
Proof.
  intros Hreg Hill. unfold executeTool. rewrite Hreg.
  unfold illFormed, directImplementation in *.
  destruct (String.eqb toolName "getBalance") eqn:E1.
  { cbn [orb] in Hill. unfold case_getBalance.
    destruct (prop params "walletAddress"); try discriminate; eexists; reflexivity. }
  destruct (String.eqb toolName "getTokenBalances") eqn:E2.
  { cbn [orb] in Hill. unfold case_getTokenBalances.
    destruct (prop params "walletAddress"); try discriminate; eexists; reflexivity. }
  cbn [orb] in Hill.
  destruct (String.eqb toolName "getTransaction") eqn:E3.
  { unfold case_getTransaction.
    destruct (prop params "signature"); try discriminate; eexists; reflexivity. }
  destruct (String.eqb toolName "getAccountInfo") eqn:E4.
  { unfold case_getAccountInfo.
    destruct (prop params "address"); try discriminate; eexists; reflexivity. }
  destruct (String.eqb toolName "sendSolToUser") eqn:E5.
  { unfold case_sendSolToUser, anyFalsy in *. cbn [existsb] in Hill.
    destruct (prop params "amount"); cbn [isNumber negb] in Hill;
      try (eexists; reflexivity).
    destruct (falsy (prop params "senderPlatform")),
             (falsy (prop params "senderPlatformId")),
             (falsy (prop params "recipientPlatform")),
             (falsy (prop params "recipientPlatformId"));
      cbn [orb] in Hill |- *; try discriminate; eexists; reflexivity. }
  destruct (String.eqb toolName "sendTokenToUser") eqn:E6; [|discriminate].
  unfold case_sendTokenToUser, anyFalsy in *. cbn [existsb] in Hill.
  destruct (prop params "amount"); cbn [isNumber negb orb] in Hill;
    try (eexists; reflexivity).
  destruct (prop params "decimals"); cbn [isNumber negb orb] in Hill;
    try (eexists; reflexivity).
  destruct (falsy (prop params "senderPlatform")),
           (falsy (prop params "senderPlatformId")),
           (falsy (prop params "recipientPlatform")),
           (falsy (prop params "recipientPlatformId")),
           (falsy (prop params "tokenMint"));
    cbn [orb] in Hill |- *; try discriminate; eexists; reflexivity.
Qed.

End OnAnyDatabase.

Section OnSqlite.
Context {crypto : NodeCrypto} {web3 : Web3} {rt : JsRuntime}.

Lemma sendSolSecure_nonpositive (w : World MemDb) (a b : string) (amount : Q) :
  connection w <> None -> isPublicKey a = true -> isPublicKey b = true ->
  Qle_bool amount 0 = true ->
  sendSolSecure a b amount w = (Thrown invalidAmount, w).
Proof.
  intros Hc Ha Hb Hle.
  unfold sendSolSecure, requireConnection, wrapError, try_catch, bind, lift, new_PublicKey,
    throw.
  destruct (connection w); [|now elim Hc]. now rewrite Ha, Hb, Hle.
Qed.

(** Provisioning is not undone: when the recipient of [sendSolToUser]
    had no wallet, one is created before the transfer is attempted, and
    if the transfer then fails -- as it does for an amount that is not
    positive, before any request to the endpoint -- the caller gets the
    error envelope while the new wallet stays, bound to the recipient. *)
Theorem failed_transfer_keeps_provisioned_wallet
    (server : McpServer MemDb) (keypair : Keypair) (iv : list byte)
    (sp sid rp rid : string) (amount : Q) (w : World MemDb) (d : MemDb)
    (senderWallet : WalletInfo) :
  registryGet (registryOf server) "sendSolToUser" = None ->
  initialized (walletService w) = true -> db (walletService w) = Some d ->
  sp <> EmptyString -> sid <> EmptyString -> rp <> EmptyString -> rid <> EmptyString ->
  fst (getWalletBySocialAccount sp sid (walletService w)) = Returned (Some senderWallet) ->
  fst (getWalletBySocialAccount rp rid (walletService w)) = Returned None ->
  ids_within_sequence d ->
  existsb (has_public_key (publicKey keypair)) (wallets d) = false ->
  (32 <= String.length (encryptionKey (walletService w)))%nat -> length iv = 16%nat ->
  exists created w1,
    onWalletService (createWallet keypair iv rp rid (Some (rp ++ "-" ++ rid))) w
    = (Returned created, w1) /\
    walletCount w1 = S (walletCount w) /\
    fst (getWalletBySocialAccount rp rid (walletService w1)) = Returned (Some created) /\
    requestsOf w1 = requestsOf w /\
    (forall e w2,
       sendSolSecure (wi_publicKey senderWallet) (wi_publicKey created) amount w1
       = (Thrown e, w2) ->
       executeTool (Some server) (keypair, iv) "sendSolToUser"
         (transferParams sp sid rp rid amount) w
       = (Returned (handleToolError e "sendSolToUser"), w2) /\
       walletService w2 = walletService w1) /\
    (Qle_bool amount 0 = true -> connection w <> None ->
     isPublicKey (wi_publicKey senderWallet) = true -> isPublicKey (publicKey keypair) = true ->
     executeTool (Some server) (keypair, iv) "sendSolToUser"
       (transferParams sp sid rp rid amount) w
     = (Returned (handleToolError invalidAmount "sendSolToUser"), w1)).
Proof.
  intros Hreg Hi Hd Hsp Hsid Hrp Hrid Hsender Hrecipient Hwf Hfresh Hkey Hiv.
  pose proof (lookup_none_unbound _ d rp rid Hi Hd Hrecipient) as Hunbound.
  destruct (createWallet_unbound_plain (walletService w) d keypair iv rp rid
              (Some (rp ++ "-" ++ rid)) Hi Hd Hwf Hunbound Hfresh Hkey Hiv)
    as [created [d1 [Ecreate [Hpk [Hcount Hlookup]]]]].
  set (m1 := {| initialized := true; db := Some d1;
                encryptionKey := encryptionKey (walletService w) |}) in *.
  set (w1 := {| walletService := m1; connection := connection w |}).
  assert (Eon : onWalletService (createWallet keypair iv rp rid (Some (rp ++ "-" ++ rid))) w
                = (Returned created, w1)).
  { unfold onWalletService. now rewrite Ecreate. }
  assert (Hrun : forall e w2,
             sendSolSecure (wi_publicKey senderWallet) (wi_publicKey created) amount w1
             = (Thrown e, w2) ->
             executeTool (Some server) (keypair, iv) "sendSolToUser"
               (transferParams sp sid rp rid amount) w
             = (Returned (handleToolError e "sendSolToUser"), w2)).
  { intros e w2 Hsend. unfold executeTool. rewrite Hreg.
    change (directImplementation (keypair, iv) (registryOf server) "sendSolToUser"
              (transferParams sp sid rp rid amount))
      with (case_sendSolToUser (DB := MemDb) (keypair, iv) "sendSolToUser"
              (transferParams sp sid rp rid amount)).
    rewrite case_sendSolToUser_valid by assumption.
    apply try_catch_returned.
    rewrite (try_catch_thrown _ _ w w2 e); [reflexivity|].
    unfold sendSolBody.
    rewrite (bind_returned _ _ w w (Some senderWallet));
      [| apply onWalletService_eq; now apply lookup_eq ].
    rewrite (bind_returned _ _ w w1 (created, true)).
    - now rewrite (bind_thrown _ _ _ _ _ Hsend).
    - unfold recipientWalletOrCreate.
      rewrite (bind_returned _ _ w w None);
        [| apply onWalletService_eq; now apply lookup_eq ].
      cbn [fst snd]. now rewrite (bind_returned _ _ _ _ _ Eon). }
  exists created, w1. split; [exact Eon|].
  split; [unfold walletCount; cbn; now rewrite Hd|].
  split; [cbn [walletService w1]; now rewrite Hlookup|].
  split; [reflexivity|]. split.
  - intros e w2 Hsend. split; [now apply Hrun|].
    pose proof (sendSolSecure_keepsWallets (wi_publicKey senderWallet)
                  (wi_publicKey created) amount w1) as K.
    rewrite Hsend in K. exact K.
  - intros Hle Hc Hs Hr. apply Hrun. apply sendSolSecure_nonpositive; try assumption.
    now rewrite Hpk.
Qed.

End OnSqlite.

End DispatchFacts.

(** ** API keys and the tool route *)

Module MiddlewareFacts.
Import Repository Solana Cipher WalletService JsValue ToolService ApiRoute JsFacts
  Middleware RouteVocabulary.
Local Open Scope list_scope.
Local Open Scope string_scope.

(** The three places that check an API key let the same requests in:
    with authentication enabled, exactly those whose header carries a
    non-empty key of the configured list; disabled, every request.
    [apiKeyAuth] and [requireApiKey] refuse a missing key with 401 and
    an unknown one with 403, the MCP endpoint answers 401 to both, and
    [optionalApiKeyAuth] refuses nothing and marks the request
    authenticated only for a listed key. *)
Theorem api_key_checks_agree (config : AuthConfig) (header : option string) :
  let admitted :=
    negb (enabled config)
    || match header with
       | Some (String c rest) => includesKey (apiKeys config) (String c rest)
       | _ => false
       end in
  passes (apiKeyAuth config header) = admitted /\
  passes (requireApiKey config header) = admitted /\
  (match mcpEndpointAuth config header with None => true | Some _ => false end) = admitted /\
  (admitted = false ->
   exists code message,
     apiKeyAuth config header = Refuse (JsApiError code message) /\
     requireApiKey config header = Refuse (JsApiError code message) /\
     (code = 401 \/ code = 403)%Z /\
     (code = 401%Z <-> (header = None \/ header = Some EmptyString)) /\
     mcpEndpointAuth config header = Some 401%Z) /\
  (exists marks,
     optionalApiKeyAuth config header = Proceed marks /\
     (isAuthenticated marks = Some true <->
      enabled config = true /\ admitted = true)).
Proof.
  unfold apiKeyAuth, requireApiKey, mcpEndpointAuth, optionalApiKeyAuth.
  destruct (enabled config); cbn [negb orb].
  - assert (Hmissing :
      forall h, h = None \/ h = Some EmptyString ->
        exists code message,
          Refuse (JsApiError 401 "API key is required") = Refuse (JsApiError code message) /\
          Refuse (JsApiError 401 "API key is required") = Refuse (JsApiError code message) /\
          (code = 401 \/ code = 403)%Z /\
          (code = 401%Z <-> (h = None \/ h = Some EmptyString)) /\
          Some 401%Z = Some 401%Z).
    { intros h Hh. exists 401%Z, "API key is required".
      split; [reflexivity|]. split; [reflexivity|]. split; [now left|].
      split; [tauto|reflexivity]. }
    destruct header as [[|c rest]|].
    + split; [reflexivity|]. split; [reflexivity|]. split; [reflexivity|].
      split; [intros _; apply Hmissing; now right|].
      eexists. split; [reflexivity|]. cbn. split; [discriminate|intros [_ H]; discriminate].
    + destruct (includesKey (apiKeys config) (String c rest)); cbn [negb passes].
      * split; [reflexivity|]. split; [reflexivity|]. split; [reflexivity|].
        split; [discriminate|].
        eexists. split; [reflexivity|]. cbn. split; auto.
      * split; [reflexivity|]. split; [reflexivity|]. split; [reflexivity|].
        split.
        -- intros _. exists 403%Z, "Invalid API key".
           split; [reflexivity|]. split; [reflexivity|]. split; [now right|].
           split; [|reflexivity]. split; [discriminate|intros [H|H]; discriminate].
        -- eexists. split; [reflexivity|]. cbn.
           split; [discriminate|intros [_ H]; discriminate].
    + split; [reflexivity|]. split; [reflexivity|]. split; [reflexivity|].
      split; [intros _; apply Hmissing; now left|].
      eexists. split; [reflexivity|]. cbn. split; [discriminate|intros [_ H]; discriminate].
  - split; [reflexivity|]. split; [reflexivity|]. split; [reflexivity|].
    split; [discriminate|].
    eexists. split; [reflexivity|]. cbn. split; [discriminate|intros [H _]; discriminate].
Qed.

Section Route.
Context {DB : Type} {database : Database DB} {crypto : NodeCrypto} {web3 : Web3}
        {rt : JsRuntime}.

Lemma executeTool_lets_nothing_out
    (mcpServer : option (McpServer DB)) (entropy : Keypair * list byte)
    (toolName : string) (params : Params) (w : World DB) (e : thrown) :
  fst (executeTool mcpServer entropy toolName params w) <> Thrown e.
Proof.
  unfold executeTool. destruct mcpServer as [server|].
  - apply (try_catch_never_throws _ (fun error => handleToolError error toolName)).
  - discriminate.
Qed.


End Route.

End MiddlewareFacts.

(** ** Transfer history *)

Module HistoryFacts.
Import JsValue TransactionStore TransactionHistory JsFacts RecordVocabulary HistoryVocabulary.
Local Open Scope list_scope.
Local Open Scope string_scope.

Lemma unrecorded_existsb (sig : string) (rows : list TransactionRecord) :
  (forall r, In r rows -> signature r <> sig) ->
  existsb (fun r => String.eqb (signature r) sig) rows = false.
Proof.
  intros H. destruct (existsb _ rows) eqn:Ex; [|reflexivity].
  apply existsb_exists in Ex. destruct Ex as [r [Hin E]].
  apply String.eqb_eq in E. now elim (H r Hin).
Qed.

Lemma unrecorded_find (sig : string) (rows : list TransactionRecord) :
  (forall r, In r rows -> signature r <> sig) ->
  find (fun r => String.eqb (signature r) sig) rows = None.
Proof.
  intros H. destruct (find _ rows) as [r|] eqn:F; [|reflexivity].
  apply find_some in F. destruct F as [Hin E]. apply String.eqb_eq in E. now elim (H r Hin).
Qed.

Lemma find_app_last {A} (f : A -> bool) (xs : list A) (x : A) :
  find f xs = None -> f x = true -> find f (xs ++ [x]) = Some x.
Proof.
  intros Hn Hx. induction xs as [|y ys IH]; simpl in *.
  - now rewrite Hx.
  - destruct (f y); [discriminate|]. now apply IH.
Qed.

Lemma find_app_miss {A} (f : A -> bool) (xs : list A) (x : A) :
  find f xs = None -> f x = false -> find f (xs ++ [x]) = None.
Proof.
  intros Hn Hx. induction xs as [|y ys IH]; simpl in *.
  - now rewrite Hx.
  - destruct (f y); [discriminate|]. now apply IH.
Qed.

Lemma find_app_first {A} (f : A -> bool) (xs ys : list A) (x : A) :
  find f xs = Some x -> find f (xs ++ ys) = Some x.
Proof.
  intros H. induction xs as [|y l IH]; simpl in *; [discriminate|].
  destruct (f y); [exact H|now apply IH].
Qed.

Lemma nextId_fresh (rows : list TransactionRecord) :
  forall r, In r rows -> (id r < nextId rows)%Z.
Proof.
  unfold nextId. induction rows as [|a l IH]; intros r Hin; [destruct Hin|].
  cbn [fold_right]. destruct Hin as [->|Hin]; [lia|]. specialize (IH r Hin). lia.
Qed.

(** Recording a transfer on a connected, initialized service: a
    signature not yet in the table is stored as one new row, under an id
    no row had, stamped with the time of the call, and from then on
    looked up by its signature -- through the service and through
    GET /transaction/:signature -- it is that row, while every other
    signature is looked up as before; a signature already in the table
    is refused with the wrapped UNIQUE error and the table stays as it
    was.  So signatures stay unique. *)
Theorem recordTransaction_keeps_signatures_unique
    (now : string) (data : TransactionData) (s : TransactionService) :
  initialized s = true -> connected (db s) = true ->
  (unrecorded (d_signature data) (db s) ->
   let row := insertedRow (nextId (transactions (db s))) now data in
   let s' := withTransactions s (transactions (db s) ++ [row]) in
   exists recorded,
     recordTransaction now data s = (Returned recorded, s') /\
     rt_data recorded = data /\ rt_created_at recorded = now /\
     (d_id data = None -> rt_id recorded = Some (id row)) /\
     (forall r, In r (transactions (db s)) -> id r <> id row) /\
     getTransactionBySignature (d_signature data) s' = (Returned (Some row), s') /\
     (d_signature data <> EmptyString ->
      getBySignature (d_signature data) s' = (Returned (Found row), s')) /\
     (forall sig, sig <> d_signature data ->
        fst (getTransactionBySignature sig s') = fst (getTransactionBySignature sig s)) /\
     (signatures_unique (db s) -> signatures_unique (db s')))
  /\
  (~ unrecorded (d_signature data) (db s) ->
   recordTransaction now data s
   = (Thrown (JsError
        "Failed to record transaction in database: SQLITE_CONSTRAINT: UNIQUE constraint failed: transactions.signature"),
      s)).
Proof.
  intros Hi Hc. destruct s as [i [c rows o]]. simpl in Hi, Hc. subst i c.
  unfold unrecorded. cbn [db transactions].
  split.
  - intros Hfresh.
    pose proof (unrecorded_existsb _ _ Hfresh) as Ex.
    pose proof (unrecorded_find _ _ Hfresh) as Fn.
    set (row := insertedRow (nextId rows) now data).
    assert (Frow : find (fun r => String.eqb (signature r) (d_signature data)) (rows ++ [row])
                   = Some row)
      by (apply find_app_last; [exact Fn | cbn; apply String.eqb_refl]).
    eexists. split.
    { unfold recordTransaction, ensureService, onDatabase,
        Database_recordTransaction, requireConnected, run_insert, withTransactions,
        try_catch, bind, ret.
      cbn -[nextId insertedRow]. rewrite Ex. reflexivity. }
    cbn [rt_data rt_created_at rt_id].
    split; [reflexivity|]. split; [reflexivity|].
    split; [intros ->; reflexivity|].
    split.
    { intros r Hin E. pose proof (nextId_fresh rows r Hin) as Hlt.
      unfold row in E. cbn [id insertedRow] in E. lia. }
    split.
    { unfold getTransactionBySignature, ensureService, onDatabase,
        Database_getTransactionBySignature, requireConnected, withTransactions,
        try_catch, bind.
      cbn -[nextId insertedRow]. fold row. rewrite Frow. reflexivity. }
    split.
    { intros Hne. unfold getBySignature.
      destruct (d_signature data) as [|ch rest] eqn:Es; [now elim Hne|].
      unfold getTransactionBySignature, ensureService, onDatabase,
        Database_getTransactionBySignature, requireConnected, withTransactions,
        try_catch, bind, ret.
      cbn -[nextId insertedRow]. fold row. rewrite Frow. reflexivity. }
    split.
    { intros sig Hsig.
      unfold getTransactionBySignature, ensureService, onDatabase,
        Database_getTransactionBySignature, requireConnected, withTransactions,
        try_catch, bind.
      cbn -[nextId insertedRow]. fold row.
      assert (E : find (fun r => String.eqb (signature r) sig) (rows ++ [row])
                  = find (fun r => String.eqb (signature r) sig) rows).
      { destruct (find (fun r => String.eqb (signature r) sig) rows) as [r|] eqn:F.
        - now apply find_app_first.
        - apply find_app_miss; [exact F|]. cbn.
          destruct (String.eqb_spec (d_signature data) sig) as [E|_]; [|reflexivity].
          now elim Hsig. }
      now rewrite E. }
    { unfold signatures_unique, withTransactions. cbn. intros Hnd.
      rewrite map_app. cbn. apply NoDup_app; [exact Hnd | repeat constructor; intros [] |].
      intros x Hx [<-|[]]. apply in_map_iff in Hx. destruct Hx as [r [E Hin]].
      exact (Hfresh r Hin E). }
  - intros Hdup.
    assert (Ex : existsb (fun r => String.eqb (signature r) (d_signature data)) rows = true).
    { destruct (existsb _ rows) eqn:Ex; [reflexivity|]. exfalso. apply Hdup.
      intros r Hin E.
      assert (existsb (fun r => String.eqb (signature r) (d_signature data)) rows = true);
        [|congruence].
      apply existsb_exists. exists r. split; [exact Hin|]. now apply String.eqb_eq. }
    unfold recordTransaction, ensureService, onDatabase,
      Database_recordTransaction, requireConnected, run_insert, try_catch, bind.
    cbn -[nextId insertedRow]. rewrite Ex. reflexivity.
Qed.

Lemma signature_updateRow (sig : string) (st : Status) (c : option string)
    (bt fee : option Z) (r : TransactionRecord) :
  signature (updateRow sig st c bt fee r) = signature r.
Proof. unfold updateRow. now destruct (String.eqb (signature r) sig). Qed.

Lemma updateRow_absorbs (sig : string) (st st' : Status) (c c' : option string)
    (bt bt' fee fee' : option Z) (r : TransactionRecord) :
  updateRow sig st' c' bt' fee' (updateRow sig st c bt fee r)
  = updateRow sig st' c' bt' fee' r.
Proof.
  unfold updateRow. destruct (String.eqb (signature r) sig) eqn:E; cbn; rewrite E; reflexivity.
Qed.

Lemma map_updateRow_absorbs (sig : string) (st st' : Status) (c c' : option string)
    (bt bt' fee fee' : option Z) (rows : list TransactionRecord) :
  map (updateRow sig st' c' bt' fee') (map (updateRow sig st c bt fee) rows)
  = map (updateRow sig st' c' bt' fee') rows.
Proof.
  induction rows as [|r rows IH]; cbn [map]; [reflexivity|].
  now rewrite updateRow_absorbs, IH.
Qed.

Lemma matched_after_update (sig : string) (st : Status) (c : option string)
    (bt fee : option Z) (rows : list TransactionRecord) :
  filter (fun r => String.eqb (signature r) sig) (map (updateRow sig st c bt fee) rows)
  = map (updateRow sig st c bt fee) (filter (fun r => String.eqb (signature r) sig) rows).
Proof.
  induction rows as [|r rows IH]; cbn [map filter]; [reflexivity|].
  rewrite signature_updateRow. destruct (String.eqb (signature r) sig); cbn [map]; now rewrite IH.
Qed.

Lemma find_after_update (sig : string) (st : Status) (c : option string)
    (bt fee : option Z) (rows : list TransactionRecord) :
  find (fun r => String.eqb (signature r) sig) (map (updateRow sig st c bt fee) rows)
  = option_map (updateRow sig st c bt fee)
      (find (fun r => String.eqb (signature r) sig) rows).
Proof.
  induction rows as [|r rows IH]; cbn [map find]; [reflexivity|].
  rewrite signature_updateRow. destruct (String.eqb (signature r) sig); [reflexivity|exact IH].
Qed.

Lemma map_updateRow_unrecorded (sig : string) (st : Status) (c : option string)
    (bt fee : option Z) (rows : list TransactionRecord) :
  (forall r, In r rows -> signature r <> sig) ->
  map (updateRow sig st c bt fee) rows = rows /\
  filter (fun r => String.eqb (signature r) sig) rows = [].
Proof.
  induction rows as [|r rows IH]; intros H; [split; reflexivity|].
  destruct IH as [IH1 IH2]; [intros x Hx; apply H; now right|].
  cbn [map filter]. unfold updateRow at 1.
  destruct (String.eqb_spec (signature r) sig) as [E|_]; [now elim (H r (or_introl eq_refl))|].
  now rewrite IH1, IH2.
Qed.

(** The PATCH route on a bad request or an unknown signature: an empty
    signature and a status outside pending / confirmed / failed are
    answered 400 before the service is touched; a signature no row
    carries is answered 404 with the table as it was; and when the store
    cannot be opened the wrapped not-connected error is passed on. *)
Theorem patchStatus_refusals
    (now sig : string) (statusField : JsValue.t) (blockTime newFee : option Z)
    (s : TransactionService) :
  (sig = EmptyString ->
   patchStatus now sig statusField blockTime newFee s
   = (Returned (Next (JsApiError 400 "Transaction signature is required")), s))
  /\
  (sig <> EmptyString -> validStatus statusField = None ->
   patchStatus now sig statusField blockTime newFee s
   = (Returned (Next (JsApiError 400
                        "Valid status (pending, confirmed, failed) is required")), s))
  /\
  (sig <> EmptyString -> validStatus statusField <> None ->
   initialized s = true -> connected (db s) = true -> unrecorded sig (db s) ->
   patchStatus now sig statusField blockTime newFee s
   = (Returned (Next (JsApiError 404 "Transaction not found")), s))
  /\
  (sig <> EmptyString -> validStatus statusField <> None ->
   initialized s = false -> connected (db s) = false -> opens (db s) = false ->
   patchStatus now sig statusField blockTime newFee s
   = (Returned (Next (JsError
        "Failed to update transaction status in database: Database not connected")), s)).
Proof.
  split; [|split; [|split]].
  - intros ->. reflexivity.
  - intros Hsig V. unfold patchStatus. destruct sig; [now elim Hsig|]. now rewrite V.
  - intros Hsig V Hi Hc Hun. unfold patchStatus. destruct sig as [|ch rest]; [now elim Hsig|].
    destruct (validStatus statusField) as [newStatus|]; [|now elim V].
    destruct s as [i [conn rows op]]. simpl in Hi, Hc, Hun. subst i conn.
    unfold unrecorded in Hun. cbn [db transactions] in Hun.
    unfold updateTransactionStatus, onDatabase, Database_updateTransactionStatus, run_update,
      try_catch, bind, throw, ret. cbn [initialized db connected transactions opens fst snd].
    destruct (map_updateRow_unrecorded (String ch rest) newStatus
                match newStatus with confirmed => Some now | _ => None end
                (orNull blockTime) (orNull newFee) rows Hun) as [Em Ef].
    rewrite Em, Ef. reflexivity.
  - intros Hsig V Hi Hc Ho. unfold patchStatus. destruct sig as [|ch rest]; [now elim Hsig|].
    destruct (validStatus statusField) as [newStatus|]; [|now elim V].
    destruct s as [i [conn rows op]]. simpl in Hi, Hc, Ho. subst i conn op. reflexivity.
Qed.

(** The last PATCH of a signature wins: a second PATCH for the same
    signature that names a valid status -- whatever the first one asked
    for, and whenever it ran -- gets the answer and leaves the table it
    would have without the first.  In particular repeating a PATCH
    changes nothing. *)
Theorem patchStatus_last_write_wins
    (now now' sig : string) (statusField statusField' : JsValue.t)
    (blockTime blockTime' newFee newFee' : option Z) (s : TransactionService) :
  validStatus statusField' <> None ->
  patchStatus now' sig statusField' blockTime' newFee'
    (snd (patchStatus now sig statusField blockTime newFee s))
  = patchStatus now' sig statusField' blockTime' newFee' s.
Proof.
  intros Hvalid.
  unfold patchStatus. destruct sig as [|ch rest]; [reflexivity|].
  destruct (validStatus statusField) as [newStatus|]; [|reflexivity].
  destruct (validStatus statusField') as [newStatus'|]; [|now elim Hvalid].
  destruct s as [i [conn rows op]].
  unfold updateTransactionStatus, initialize, onDatabase, connect,
    Database_updateTransactionStatus, run_update, try_catch, bind, throw, ret.
  destruct i, conn, op; cbn [initialized db connected transactions opens fst snd];
    try reflexivity;
    match goal with
    | |- context [(0 <? Z.of_nat (length (filter ?f rows)))%Z] =>
        destruct (0 <? Z.of_nat (length (filter f rows)))%Z eqn:Hn
    end;
    cbn [initialized db connected transactions opens fst snd];
    rewrite ?matched_after_update, ?length_map, ?Hn, ?map_updateRow_absorbs;
    reflexivity.
Qed.

(** A PATCH is what a later GET serves: after the status of a recorded
    transfer has been updated, GET /transaction/:signature answers with
    that row carrying the new status, the confirmation time set exactly
    for confirmed, the block time and fee as given (zero read as
    absent), and every other field as recorded. *)
Theorem patched_status_is_served
    (now sig : string) (statusField : JsValue.t) (blockTime newFee : option Z)
    (s : TransactionService) (newStatus : Status) (r : TransactionRecord) :
  initialized s = true -> connected (db s) = true -> sig <> EmptyString ->
  validStatus statusField = Some newStatus ->
  fst (getTransactionBySignature sig s) = Returned (Some r) ->
  exists s' r',
    patchStatus now sig statusField blockTime newFee s
    = (Returned (Json true ("Transaction status updated to " ++ Status_toString newStatus)),
       s') /\
    getBySignature sig s' = (Returned (Found r'), s') /\
    sameTransfer r r' /\
    status r' = newStatus /\
    confirmed_at r' = confirmedAtFor now newStatus /\
    block_time r' = orNull blockTime /\ fee r' = orNull newFee.
Proof.
  intros Hi Hc Hsig V Hget. destruct s as [i [conn rows op]]. simpl in Hi, Hc. subst i conn.
  assert (F : find (fun x => String.eqb (signature x) sig) rows = Some r).
  { revert Hget.
    unfold getTransactionBySignature, ensureService, onDatabase,
      Database_getTransactionBySignature, requireConnected, try_catch, bind.
    cbn. intros E. now injection E. }
  assert (Hn : (0 <? Z.of_nat (length (filter (fun x => String.eqb (signature x) sig) rows)))%Z
               = true).
  { clear - F. induction rows as [|a l IH]; cbn in *; [discriminate|].
    destruct (String.eqb (signature a) sig); [reflexivity|now apply IH]. }
  set (upd := updateRow sig newStatus (confirmedAtFor now newStatus) (orNull blockTime)
                        (orNull newFee)).
  exists {| initialized := true;
            db := {| connected := true; transactions := map upd rows; opens := op |} |},
         (upd r).
  split; [|split].
  - unfold patchStatus. destruct sig as [|ch rest]; [now elim Hsig|]. rewrite V.
    unfold updateTransactionStatus, onDatabase, Database_updateTransactionStatus, run_update,
      try_catch, bind, throw, ret. cbn [initialized db connected transactions opens fst snd].
    rewrite Hn. subst upd. destruct newStatus; reflexivity.
  - unfold getBySignature. destruct sig as [|ch rest]; [now elim Hsig|].
    unfold getTransactionBySignature, ensureService, onDatabase,
      Database_getTransactionBySignature, requireConnected, try_catch, bind, ret.
    cbn [initialized db connected transactions opens fst snd].
    subst upd. rewrite find_after_update, F. reflexivity.
  - apply find_some in F. destruct F as [_ E]. apply String.eqb_eq in E.
    subst upd. unfold updateRow. rewrite <- E, String.eqb_refl. cbn.
    repeat split; reflexivity.
Qed.

End HistoryFacts.

(** ** The cipher of the [Database] class *)

Module DatabaseCipherFacts.
Import Buffer Cipher JsFacts DatabaseCipher.
Local Open Scope list_scope.
Local Open Scope string_scope.

Lemma length_from_hex_aux (n : nat) :
  forall s, (String.length s <= n)%nat -> (2 * length (from_hex s) <= String.length s)%nat.
Proof.
  induction n as [|n IH]; intros s Hs.
  - destruct s; simpl in *; lia.
  - destruct s as [|a [|b rest]]; simpl; try lia.
    destruct (hex_value a); [|simpl; lia]. destruct (hex_value b); [|simpl; lia].
    destruct (Byte.of_N _); [|simpl; lia].
    simpl in Hs. assert (Hrest : (String.length rest <= n)%nat) by lia.
    specialize (IH rest Hrest). simpl. lia.
Qed.

Lemma length_from_hex (s : string) : (2 * length (from_hex s) <= String.length s)%nat.
Proof. now apply (length_from_hex_aux (String.length s)). Qed.

Lemma length_slice0_at_most (n : nat) (s : string) :
  (String.length (slice0 n s) <= n)%nat.
Proof.
  unfold slice0. revert s. induction n as [|n IH]; intros s.
  - destruct s; simpl; lia.
  - destruct s as [|c s]; simpl; [lia|]. specialize (IH s). lia.
Qed.

(** Thirty-two hexadecimal characters make sixteen bytes at most. *)
Lemma keyBuffer_short (dbEncryptionKey : string) :
  (length (keyBuffer dbEncryptionKey) <= 16)%nat.
Proof.
  unfold keyBuffer. pose proof (length_from_hex (slice0 32 dbEncryptionKey)).
  pose proof (length_slice0_at_most 32 dbEncryptionKey). lia.
Qed.

Section WithCrypto.
Context {crypto : NodeCrypto}.

Lemma keyBuffer_rejected (dbEncryptionKey : string) (iv : list byte) :
  exists e, createCipheriv (keyBuffer dbEncryptionKey) iv = Thrown e /\
            (length iv = 16%nat -> e = JsError "Invalid key length").
Proof.
  unfold createCipheriv.
  assert (Hlen : (length (keyBuffer dbEncryptionKey) =? 32)%nat = false).
  { apply Nat.eqb_neq. pose proof (keyBuffer_short dbEncryptionKey). lia. }
  rewrite Hlen. destruct (length iv =? 16)%nat eqn:Hiv; cbn [negb].
  - eexists. split; reflexivity.
  - eexists. split; [reflexivity|]. intros E. rewrite E in Hiv. discriminate.
Qed.

(** The [Database] class cannot keep a secret, whatever its key: the
    32 characters it takes from DB_ENCRYPTION_KEY are decoded as
    hexadecimal, which gives at most 16 bytes where AES-256 needs 32, so
    [encryptPrivateKey] and [decryptPrivateKey] throw on every input and
    [createWallet] fails, storing nothing, for every wallet that comes
    with a private key. *)
Theorem database_class_cannot_keep_secrets (dbEncryptionKey : string) :
  (forall iv privateKey,
     exists e, encryptPrivateKey dbEncryptionKey iv privateKey = Thrown e /\
               (length iv = 16%nat -> e = JsError "Invalid key length")) /\
  (forall encryptedPrivateKey,
     exists message,
       decryptPrivateKey dbEncryptionKey encryptedPrivateKey
       = Thrown (JsError ("Failed to decrypt private key: " ++ message))) /\
  (forall iv now walletData t,
     WalletService.nonEmpty (encrypted_private_key walletData) <> None ->
     exists message,
       createWallet dbEncryptionKey iv now walletData t
       = (Thrown (JsError ("Failed to create wallet in database: " ++ message)), t) /\
       (connected t = true -> length iv = 16%nat -> message = "Invalid key length")).
Proof.
  split; [|split].
  - intros iv privateKey. destruct (keyBuffer_rejected dbEncryptionKey iv) as [e [E He]].
    exists e. unfold encryptPrivateKey. rewrite E. auto.
  - intros env. unfold decryptPrivateKey.
    destruct (split_colon env) as [|ivHex [|encryptedData rest]]; try (eexists; reflexivity).
    destruct (keyBuffer_rejected dbEncryptionKey (from_hex ivHex)) as [e [E _]].
    rewrite E. eexists; reflexivity.
  - intros iv now walletData t Hsecret.
    destruct (WalletService.nonEmpty (encrypted_private_key walletData)) as [secret|] eqn:Es;
      [|now elim Hsecret].
    destruct (keyBuffer_rejected dbEncryptionKey iv) as [e [E He]].
    unfold createWallet, try_catch, bind, lift, throw. rewrite Es.
    unfold encryptPrivateKey. rewrite E.
    destruct (connected t) eqn:Hc.
    + eexists. split; [reflexivity|]. intros _ Hiv. now rewrite (He Hiv).
    + eexists. split; [reflexivity|]. discriminate.
Qed.

End WithCrypto.

End DatabaseCipherFacts.

(** ** The tool list *)

Module ToolListFacts.
Import Repository Solana Cipher WalletService JsValue ToolService JsFacts Vocabulary ToolList.
Local Open Scope list_scope.
Local Open Scope string_scope.

Lemma addDirect_keeps (tools : list ToolDescription) (directTool t : ToolDescription) :
  In t tools -> In t (addDirect tools directTool).
Proof.
  intros H. unfold addDirect. destruct (existsb _ _); [exact H|].
  apply in_or_app. now left.
Qed.

Lemma fold_addDirect_keeps (directs tools : list ToolDescription) (t : ToolDescription) :
  In t tools -> In t (fold_left addDirect directs tools).
Proof.
  revert tools. induction directs as [|d ds IH]; intros tools H; [exact H|].
  cbn [fold_left]. apply IH. now apply addDirect_keeps.
Qed.

Lemma addDirect_names (tools : list ToolDescription) (directTool : ToolDescription) :
  In (td_name directTool) (map td_name (addDirect tools directTool)).
Proof.
  unfold addDirect. destruct (existsb _ _) eqn:Ex.
  - apply existsb_exists in Ex. destruct Ex as [n [Hin E]]. apply String.eqb_eq in E.
    now rewrite E.
  - rewrite map_app. apply in_or_app. right. now left.
Qed.

Lemma fold_addDirect_names (directs tools : list ToolDescription) (name : string) :
  In name (map td_name tools) \/ In name (map td_name directs) ->
  In name (map td_name (fold_left addDirect directs tools)).
Proof.
  revert tools. induction directs as [|d ds IH]; intros tools [H|H].
  - exact H.
  - destruct H.
  - cbn [fold_left]. apply IH. left. apply in_map_iff in H. destruct H as [t [E Hin]].
    apply in_map_iff. exists t. split; [exact E|]. now apply addDirect_keeps.
  - cbn [fold_left]. apply IH. destruct H as [<-|H]; [left; apply addDirect_names|now right].
Qed.

Lemma addDirect_new (tools : list ToolDescription) (directTool : ToolDescription) :
  ~ In (td_name directTool) (map td_name tools) ->
  In {| td_name := td_name directTool;
        td_description := "[DIRECT IMPL] " ++ td_description directTool |}
     (addDirect tools directTool).
Proof.
  intros Hnew. unfold addDirect. destruct (existsb _ _) eqn:Ex.
  - exfalso. apply Hnew. apply existsb_exists in Ex. destruct Ex as [n [Hin E]].
    apply String.eqb_eq in E. now rewrite E.
  - apply in_or_app. right. now left.
Qed.

Lemma addDirect_other (tools : list ToolDescription) (directTool : ToolDescription)
    (name : string) :
  name <> td_name directTool -> ~ In name (map td_name tools) ->
  ~ In name (map td_name (addDirect tools directTool)).
Proof.
  intros Hne Hnot. unfold addDirect. destruct (existsb _ _); [exact Hnot|].
  rewrite map_app. intros H. apply in_app_or in H. destruct H as [H|[H|[]]]; auto.
Qed.

(** A direct tool whose name the registry does not hold is listed as a
    direct implementation. *)
Lemma fold_addDirect_new (directs tools : list ToolDescription) (d : ToolDescription) :
  NoDup (map td_name directs) -> In d directs ->
  ~ In (td_name d) (map td_name tools) ->
  In {| td_name := td_name d; td_description := "[DIRECT IMPL] " ++ td_description d |}
     (fold_left addDirect directs tools).
Proof.
  revert tools. induction directs as [|x xs IH]; intros tools Hnd Hin Hnew; [destruct Hin|].
  cbn [map] in Hnd. inversion Hnd as [|n ns Hx Hnd']; subst.
  cbn [fold_left]. destruct Hin as [->|Hin].
  - apply fold_addDirect_keeps. now apply addDirect_new.
  - apply IH; [exact Hnd'|exact Hin|].
    apply addDirect_other; [|exact Hnew].
    intros E. apply Hx. rewrite <- E. now apply in_map.
Qed.

Lemma directTools_distinct : NoDup (map td_name directTools).
Proof.
  cbn. repeat (constructor; [cbn; intros H;
    repeat (destruct H as [H|H]; [discriminate|]); exact H|]).
  constructor.
Qed.

Lemma ownProperty_absent {DB} (registry : Registry DB) (name : string) :
  ownProperty registry name = None -> ~ In name (map fst registry).
Proof.
  induction registry as [|[k info] rest IH]; cbn; [tauto|].
  destruct (String.eqb_spec k name) as [E|Hne]; [discriminate|].
  intros H [E|Hin]; [now elim Hne|now apply IH].
Qed.

Section WithServices.
Context {DB : Type} {database : Database DB} {crypto : NodeCrypto} {web3 : Web3}
        {rt : JsRuntime}.

(** [listTools] answers on every initialized service and lists every
    registered tool and all nine direct tools; but two of the names it
    advertises as direct implementations, [sendSolSecure] and
    [sendTokenSecure], have no case in [executeTool]: on a server that
    does not register them they are listed, and executing them answers
    the not-found error envelope without touching anything. *)
Theorem listTools_advertises_unexecutable_tools
    (describe : string -> ToolInfo DB -> option string) (server : McpServer DB) :
  exists tools,
    listTools describe (Some server) = Returned tools /\
    (forall name, In name (map fst (registryOf server)) -> In name (map td_name tools)) /\
    (forall d, In d directTools -> In (td_name d) (map td_name tools)) /\
    (forall name description,
       (name = "sendSolSecure" /\ description = "Send SOL securely using the wallet service")
       \/ (name = "sendTokenSecure"
           /\ description = "Send SPL tokens securely using the wallet service") ->
       registryGet (registryOf server) name = None ->
       In {| td_name := name; td_description := "[DIRECT IMPL] " ++ description |} tools /\
       forall entropy params (w : World DB),
         executeTool (Some server) entropy name params w
         = (Returned (notFound name (registryOf server)), w) /\
         isError (notFound name (registryOf server)) = true).
Proof.
  eexists. split; [reflexivity|]. split; [|split].
  - intros name Hin. apply fold_addDirect_names. left.
    rewrite map_map. cbn [td_name]. exact Hin.
  - intros d Hin. apply fold_addDirect_names. right. now apply in_map.
  - intros name description Hname Hreg.
    assert (Hown : ~ In name (map fst (registryOf server))).
    { apply ownProperty_absent. unfold registryGet in Hreg.
      destruct (ownProperty (registryOf server) name); [discriminate|reflexivity]. }
    split.
    + destruct Hname as [[-> ->]|[-> ->]].
      * apply (fold_addDirect_new directTools _
                 {| td_name := "sendSolSecure";
                    td_description := "Send SOL securely using the wallet service" |}
                 directTools_distinct).
        -- cbn. tauto.
        -- rewrite map_map. cbn [td_name]. exact Hown.
      * apply (fold_addDirect_new directTools _
                 {| td_name := "sendTokenSecure";
                    td_description := "Send SPL tokens securely using the wallet service" |}
                 directTools_distinct).
        -- cbn. tauto.
        -- rewrite map_map. cbn [td_name]. exact Hown.
    + intros entropy params w. split; [|reflexivity].
      unfold executeTool. rewrite Hreg.
      rewrite (ToolFacts.directImplementation_unknown entropy (registryOf server) name params);
        [reflexivity|].
      destruct Hname as [[-> _]|[-> _]]; reflexivity.
Qed.

End WithServices.

End ToolListFacts.

(** ** The user service, key export and the registered token tool *)

Module UserFacts.
Import Repository Solana Cipher WalletService JsValue Ledger ToolService JsFacts
  WalletFacts TransferFacts Vocabulary VaultVocabulary ExecutorVocabulary VaultFacts
  UserService McpTokenTools.
Local Open Scope list_scope.
Local Open Scope string_scope.

Section OnAnyDatabase.
Context {DB : Type} {database : Database DB} {crypto : NodeCrypto} {web3 : Web3}.

(** The user service turns failure into absence: when the wallet
    service cannot be brought up -- it is not initialized and opening
    the database is rejected -- [getUserWallet] answers null and
    [unlinkAccount] answers false, as they do for an identity that has
    no wallet, while [createUserWallet] and [linkAccountToWallet] let
    the not-initialized error through. *)
Theorem user_service_turns_failure_into_absence
    (m : Manager DB) (failure : thrown) (keypair : Keypair) (iv : list byte)
    (platform platformId walletPublicKey : string) (label : option string) :
  initialized m = false ->
  getUserWallet (Thrown failure) platform platformId m = (Returned None, m) /\
  unlinkAccount (Thrown failure) platform platformId m = (Returned false, m) /\
  createUserWallet (Thrown failure) keypair iv platform platformId label m
  = (Thrown notInitialized, m) /\
  linkAccountToWallet (Thrown failure) platform platformId walletPublicKey m
  = (Thrown notInitialized, m) /\
  getOrCreateUserWallet (Thrown failure) keypair iv platform platformId label m
  = (Thrown notInitialized, m).
Proof.
  intros Hi.
  assert (Eensure : ensureWalletService (Thrown failure) m = (Returned tt, m)).
  { unfold ensureWalletService, isInitialized, initialize, try_catch, bind, lift, ret.
    rewrite Hi. reflexivity. }
  assert (Eguard : ensureInitialized m = (Thrown notInitialized, m))
    by (apply ensureInitialized_refuses; now left).
  assert (Eget : getUserWallet (Thrown failure) platform platformId m = (Returned None, m)).
  { unfold getUserWallet. rewrite (try_catch_thrown _ _ m m notInitialized); [reflexivity|].
    rewrite (bind_returned _ _ _ _ _ Eensure). now apply bind_thrown. }
  assert (Ecreate : forall l,
             createUserWallet (Thrown failure) keypair iv platform platformId l m
             = (Thrown notInitialized, m)).
  { intros l. unfold createUserWallet.
    rewrite (try_catch_thrown _ _ m m notInitialized); [reflexivity|].
    rewrite (bind_returned _ _ _ _ _ Eensure). now apply bind_thrown. }
  split; [exact Eget|]. split; [|split; [apply Ecreate|split]].
  - unfold unlinkAccount. rewrite (try_catch_thrown _ _ m m notInitialized); [reflexivity|].
    rewrite (bind_returned _ _ _ _ _ Eensure). now apply bind_thrown.
  - unfold linkAccountToWallet.
    rewrite (try_catch_thrown _ _ m m notInitialized); [reflexivity|].
    rewrite (bind_returned _ _ _ _ _ Eensure). now apply bind_thrown.
  - unfold getOrCreateUserWallet. rewrite (bind_returned _ _ _ _ _ Eget). apply Ecreate.
Qed.

End OnAnyDatabase.

Section OnSqlite.
Context {crypto : NodeCrypto} {web3 : Web3} {rt : JsRuntime}.

Lemma nonEmpty_some (s : string) : s <> EmptyString -> nonEmpty (Some s) = Some s.
Proof. destruct s; [now intros H; elim H | reflexivity]. Qed.

Lemma ensureWalletService_ready (opened : outcome MemDb) (m : Manager MemDb) :
  initialized m = true -> ensureWalletService opened m = (Returned tt, m).
Proof.
  intros Hi. unfold ensureWalletService, isInitialized, bind, ret. now rewrite Hi.
Qed.

(** [getOrCreateUserWallet] creates at most once: for an identity
    without a wallet it creates one, labelled with the given label or
    with "<platform>-<id>", and returns it; asked again, with whatever
    fresh randomness, it returns that same wallet and writes nothing. *)
Theorem getOrCreateUserWallet_creates_once
    (opened opened' : outcome MemDb) (m : Manager MemDb) (d : MemDb)
    (keypair keypair' : Keypair) (iv iv' : list byte)
    (platform platformId : string) (label label' : option string) :
  initialized m = true -> db m = Some d ->
  ids_within_sequence d -> unbound platform platformId d ->
  (forall w, In w (wallets d) -> w_public_key w <> publicKey keypair) ->
  (32 <= String.length (encryptionKey m))%nat -> length iv = 16%nat ->
  exists info m1,
    getOrCreateUserWallet opened keypair iv platform platformId label m
    = (Returned info, m1) /\
    wi_publicKey info = publicKey keypair /\
    WalletService.label info
    = Some (match nonEmpty label with
            | Some l => l
            | None => platform ++ "-" ++ platformId
            end) /\
    getOrCreateUserWallet opened' keypair' iv' platform platformId label' m1
    = (Returned info, m1).
Proof.
  intros Hi Hd Hwf Hs Hfresh Hk Hiv.
  set (label0 := Some (match nonEmpty label with
                       | Some l => l
                       | None => platform ++ "-" ++ platformId
                       end)).
  destruct (createWallet_stores m d keypair iv platform platformId label0
              Hi Hd Hwf Hs Hfresh Hk Hiv) as [envelope [Eenc Ecreate]].
  cbv zeta in Ecreate.
  pose proof (fresh_public_key _ _ Hfresh) as Hw.
  destruct (createWallet_unbound_plain m d keypair iv platform platformId label0
              Hi Hd Hwf Hs Hw Hk Hiv) as [info [d1 [Ecreate' [Hpk [_ Hlookup]]]]].
  set (m1 := {| initialized := true; db := Some d1; encryptionKey := encryptionKey m |}) in *.
  assert (Enone : getWalletBySocialAccount platform platformId m = (Returned None, m)).
  { destruct m as [i o k]. simpl in Hi, Hd. subst i o. unfold unbound in Hs.
    unfold getWalletBySocialAccount, try_catch, bind, ensureInitialized, onDb. cbn.
    now rewrite (find_none_of_existsb _ _ Hs). }
  exists info, m1. split; [|split; [exact Hpk|split]].
  - unfold getOrCreateUserWallet.
    rewrite (bind_returned _ _ m m None).
    + unfold createUserWallet. apply try_catch_returned.
      rewrite (bind_returned _ _ _ _ _ (ensureWalletService_ready opened m Hi)).
      exact Ecreate'.
    + unfold getUserWallet. apply try_catch_returned.
      rewrite (bind_returned _ _ _ _ _ (ensureWalletService_ready opened m Hi)).
      exact Enone.
  - rewrite Ecreate in Ecreate'. injection Ecreate' as <- _.
    cbn [WalletService.label toWalletInfo w_label createdRow].
    unfold label0. destruct (nonEmpty label) as [l|] eqn:El.
    + destruct label as [[|c l']|]; cbn in El; try discriminate.
      injection El as <-. reflexivity.
    + destruct platform; reflexivity.
  - unfold getOrCreateUserWallet.
    rewrite (bind_returned _ _ m1 m1 (Some info)); [reflexivity|].
    unfold getUserWallet. apply try_catch_returned.
    rewrite (bind_returned _ _ _ _ _ (ensureWalletService_ready opened' m1 eq_refl)).
    exact Hlookup.
Qed.

(** The key-export route hands out exactly the secret the wallet was
    created with: after [createWallet] has stored a generated keypair,
    POST /wallet/export-private-key for its public key answers with the
    base58 text of that keypair's secret key, and leaves the service as
    it is; a request without a public key is answered 400 and one for an
    unknown public key 404. *)
Theorem exported_key_is_the_generated_secret
    (opened : outcome MemDb) (m : Manager MemDb) (d : MemDb)
    (keypair : Keypair) (iv : list byte)
    (platform platformId : string) (label : option string) :
  initialized m = true -> db m = Some d ->
  (exportPrivateKey opened None m
   = (Returned (NextError (JsApiError 400 "Wallet public key is required")), m))
  /\
  (publicKey keypair <> EmptyString ->
   (forall w, In w (wallets d) -> w_public_key w <> publicKey keypair) ->
   exportPrivateKey opened (Some (publicKey keypair)) m
   = (Returned (NextError (JsApiError 404 "Wallet not found")), m))
  /\
  (publicKey keypair <> EmptyString ->
   ids_within_sequence d -> unbound platform platformId d ->
   (forall w, In w (wallets d) -> w_public_key w <> publicKey keypair) ->
   (32 <= String.length (encryptionKey m))%nat -> length iv = 16%nat ->
   exists info m1,
     createWallet keypair iv platform platformId label m = (Returned info, m1) /\
     exportPrivateKey opened (Some (publicKey keypair)) m1
     = (Returned (Exported (bs58_encode (secretKey keypair))), m1)).
Proof.
  intros Hi Hd. split; [reflexivity|]. split.
  - intros Hne Hfresh. unfold exportPrivateKey.
    rewrite (nonEmpty_some _ Hne).
    destruct m as [i o k]. simpl in Hi, Hd. subst i o.
    unfold ensureWalletService, isInitialized, getWalletByPublicKey, try_catch, bind,
      ensureInitialized, onDb, ret, throw.
    cbn. unfold mem_get_wallet_by_public_key.
    now rewrite (find_has_public_key_none _ _ Hfresh).
  - intros Hne Hwf Hs Hfresh Hk Hiv.
    destruct (createWallet_stores m d keypair iv platform platformId label
                Hi Hd Hwf Hs Hfresh Hk Hiv) as [envelope [Eenc Ecreate]].
    cbv zeta in Ecreate.
    destruct (decrypt_of_encrypt (encryptionKey m) iv (bs58_encode (secretKey keypair))
                Hk Hiv) as [envelope' [Eenc' [Hnonempty Edec]]].
    rewrite Eenc in Eenc'. injection Eenc' as <-.
    eexists. eexists. split; [exact Ecreate|].
    destruct m as [i o k]. simpl in Hi, Hd, Hk, Edec. subst i o.
    unfold exportPrivateKey. rewrite (nonEmpty_some _ Hne).
    unfold ensureWalletService, isInitialized, getWalletByPublicKey, try_catch, bind,
      ensureInitialized, onDb, lift, ret, throw, withDb, afterCreate.
    cbn. unfold mem_get_wallet_by_public_key. cbn.
    rewrite (find_app_new _ (wallets d));
      [| now apply find_has_public_key_none
       | unfold has_public_key; cbn; apply String.eqb_refl ].
    cbn. change (match envelope with EmptyString => None | String _ _ => Some envelope end) with (nonEmpty (Some envelope)). rewrite Hnonempty. cbn. rewrite Edec. reflexivity.
Qed.

(** The registered [sendTokenToUser] tool provisions before it checks
    the mint: for a sender with a wallet and a recipient without one, a
    call whose [tokenMint] is not a public key is answered with the
    error envelope "Invalid token mint address: ...", no request has
    gone to the endpoint, and yet a wallet has been created and bound
    to the recipient. *)
Theorem sendTokenToUser_provisions_before_checking_mint
    (opened : outcome MemDb) (keypair : Keypair) (iv : list byte)
    (sp sid rp rid tokenMint : string) (amount : Q) (decimals : Z)
    (w : World MemDb) (d : MemDb) (senderWallet : WalletInfo) :
  initialized (walletService w) = true -> db (walletService w) = Some d ->
  fst (getWalletBySocialAccount sp sid (walletService w)) = Returned (Some senderWallet) ->
  fst (getWalletBySocialAccount rp rid (walletService w)) = Returned None ->
  ids_within_sequence d ->
  existsb (has_public_key (publicKey keypair)) (wallets d) = false ->
  (32 <= String.length (encryptionKey (walletService w)))%nat -> length iv = 16%nat ->
  isPublicKey tokenMint = false ->
  exists created w1,
    sendTokenToUser opened (keypair, iv) sp sid rp rid tokenMint amount decimals w
    = (Returned (failure ("Invalid token mint address: " ++ tokenMint)), w1) /\
    walletCount w1 = S (walletCount w) /\
    fst (getWalletBySocialAccount rp rid (walletService w1)) = Returned (Some created) /\
    wi_publicKey created = publicKey keypair /\
    requestsOf w1 = requestsOf w.
Proof.
  intros Hi Hd Hsender Hrecipient Hwf Hfresh Hkey Hiv Hmint.
  pose proof (lookup_none_unbound _ d rp rid Hi Hd Hrecipient) as Hunbound.
  destruct (createWallet_unbound_plain (walletService w) d keypair iv rp rid
              (Some (rp ++ "-" ++ rid)) Hi Hd Hwf Hunbound Hfresh Hkey Hiv)
    as [created [d1 [Ecreate [Hpk [Hcount Hlookup]]]]].
  set (m1 := {| initialized := true; db := Some d1;
                encryptionKey := encryptionKey (walletService w) |}) in *.
  set (w1 := {| walletService := m1; connection := connection w |}).
  assert (Eon : onWalletService (createWallet keypair iv rp rid (Some (rp ++ "-" ++ rid))) w
                = (Returned created, w1)).
  { unfold onWalletService. now rewrite Ecreate. }
  exists created, w1. split; [|split; [|split; [|split]]].
  - unfold sendTokenToUser. apply try_catch_returned.
    rewrite (bind_returned _ _ w w true);
      [| apply onWalletService_eq; unfold isInitialized; now rewrite Hi ].
    rewrite (bind_returned _ _ w w true) by reflexivity.
    rewrite (bind_returned _ _ w w (Some senderWallet));
      [| apply onWalletService_eq; now apply lookup_eq ].
    rewrite (bind_returned _ _ w w1 (created, true)).
    + unfold new_PublicKey. now rewrite Hmint.
    + unfold recipientWalletOrCreate.
      rewrite (bind_returned _ _ w w None);
        [| apply onWalletService_eq; now apply lookup_eq ].
      cbn [fst snd]. now rewrite (bind_returned _ _ _ _ _ Eon).
  - unfold walletCount. cbn. now rewrite Hd.
  - cbn [walletService w1]. now rewrite Hlookup.
  - exact Hpk.
  - reflexivity.
Qed.

End OnSqlite.

End UserFacts.

(** ** Worked examples *)

Module ExecutorExamples.
Import Repository Solana Cipher WalletService JsValue Ledger ToolService JsFacts
  Vocabulary VaultVocabulary ExecutorVocabulary Stubs ServiceSamples ExecutorFacts.
Local Open Scope list_scope.
Local Open Scope string_scope.

Lemma sendTokenSecure_requires_holding_accounts_witness :
  sendTokenSecure "alicePublicKey" "bobPublicKey" "mint" (3 # 2) 6 bare_world
  = (Thrown (JsError "Failed to send token: No token account found for mint mint"),
     logged bare_world [GetParsedTokenAccountsByOwner "alicePublicKey" (ByMint "mint")]).
Proof.
  exact (proj1 (sendTokenSecure_requires_holding_accounts "alicePublicKey" "bobPublicKey"
                  "mint" (3 # 2) 6 bare_world bare_connection
                  eq_refl eq_refl eq_refl eq_refl) eq_refl).
Defined.



Lemma networkStatus_reports_health_witness :
  executeTool (Some bare_server) sample_entropy "networkStatus" [] bare_world
  = (Returned (success (networkStatusText "down"
                          {| epoch := 700; blockHeight := None; absoluteSlot := 2000 |})),
     logged bare_world [GetVersion; GetEpochInfo]).
Proof.
  exact (proj2 (proj1 (networkStatus_reports_health bare_server sample_entropy []
                         bare_world bare_connection eq_refl eq_refl)
                  _ eq_refl)
           (JsError "fetch failed") eq_refl).
Defined.

End ExecutorExamples.

Module DispatchExamples.
Import Repository Solana Cipher WalletService JsValue Ledger ToolService JsFacts
  Vocabulary VaultVocabulary ExecutorVocabulary DispatchVocabulary Stubs ServiceSamples
  VaultFacts DispatchFacts.
Local Open Scope list_scope.
Local Open Scope string_scope.

Lemma executeTool_validates_before_acting_witness :
  exists text,
    executeTool (Some bare_server) sample_entropy "getBalance"
      [("walletAddress", VNumber 7)] alice_world
    = (Returned (failure text), alice_world).
Proof.
  exact (executeTool_validates_before_acting bare_server sample_entropy "getBalance"
           [("walletAddress", VNumber 7)] alice_world eq_refl eq_refl).
Defined.

Lemma failed_transfer_keeps_provisioned_wallet_witness :
  exists created w1,
    executeTool (Some bare_server) sample_entropy "sendSolToUser"
      (transferParams "twitter" "alice" "twitter" "bob" 0) alice_world
    = (Returned (handleToolError invalidAmount "sendSolToUser"), w1) /\
    walletCount w1 = S (walletCount alice_world) /\
    fst (getWalletBySocialAccount "twitter" "bob" (walletService w1))
    = Returned (Some created).
Proof.
  destruct (failed_transfer_keeps_provisioned_wallet bare_server
              (keypairOf "bobPublicKey") sample_iv' "twitter" "alice" "twitter" "bob" 0
              alice_world alice_db alice_info eq_refl eq_refl eq_refl
              ltac:(discriminate) ltac:(discriminate) ltac:(discriminate)
              ltac:(discriminate) eq_refl eq_refl alice_db_within_sequence eq_refl
              ltac:(vm_compute; lia) eq_refl)
    as [created [w1 [_ [Hcount [Hbound [_ [_ Hrefused]]]]]]].
  exists created, w1.
  split; [exact (Hrefused eq_refl ltac:(discriminate) eq_refl eq_refl)|].
  split; assumption.
Defined.

End DispatchExamples.

Module HistoryExamples.
Import JsValue TransactionStore TransactionHistory JsFacts RecordVocabulary HistoryVocabulary
  Stubs ServiceSamples HistoryFacts.
Local Open Scope list_scope.
Local Open Scope string_scope.

Lemma second_transfer_unrecorded :
  unrecorded (d_signature second_transfer) (db confirmed_service).
Proof. intros r [<-|[]]. discriminate. Qed.

Lemma recordTransaction_keeps_signatures_unique_witness :
  exists recorded s',
    recordTransaction sample_now second_transfer confirmed_service
    = (Returned recorded, s') /\
    rt_id recorded = Some 2%Z /\
    getBySignature "signature2" s'
    = (Returned (Found (insertedRow 2 sample_now second_transfer)), s') /\
    recordTransaction sample_now second_transfer s'
    = (Thrown (JsError
         "Failed to record transaction in database: SQLITE_CONSTRAINT: UNIQUE constraint failed: transactions.signature"),
       s').
Proof.
  destruct (proj1 (recordTransaction_keeps_signatures_unique sample_now second_transfer
                     confirmed_service eq_refl eq_refl) second_transfer_unrecorded)
    as [recorded [E [_ [_ [Hid [_ [_ [Hget _]]]]]]]].
  eexists. eexists. split; [exact E|]. split; [exact (Hid eq_refl)|].
  split; [exact (Hget ltac:(discriminate))|].
  reflexivity.
Defined.

Lemma patchStatus_last_write_wins_witness :
  patchStatus sample_now "signature1" (VString "failed") None None
    (snd (patchStatus sample_now "signature1" (VString "pending") (Some 7%Z) None
            confirmed_service))
  = patchStatus sample_now "signature1" (VString "failed") None None confirmed_service.
Proof.
  exact (patchStatus_last_write_wins sample_now sample_now "signature1"
           (VString "pending") (VString "failed") (Some 7%Z) None None None
           confirmed_service ltac:(discriminate)).
Defined.

Lemma patched_status_is_served_witness :
  exists s' r',
    patchStatus sample_now "signature1" (VString "failed") None None confirmed_service
    = (Returned (Json true "Transaction status updated to failed"), s') /\
    getBySignature "signature1" s' = (Returned (Found r'), s') /\
    status r' = failed /\ confirmed_at r' = None /\ amount r' = amount confirmed_record.
Proof.
  destruct (patched_status_is_served sample_now "signature1" (VString "failed") None None
              confirmed_service failed confirmed_record eq_refl eq_refl
              ltac:(discriminate) eq_refl eq_refl)
    as [s' [r' [E [Hget [Hsame [Hst [Hc _]]]]]]].
  exists s', r'. split; [exact E|]. split; [exact Hget|]. split; [exact Hst|].
  split; [exact Hc|]. exact (proj1 (proj2 (proj2 (proj2 (proj2 (proj2 Hsame)))))).
Defined.

End HistoryExamples.

Module UserExamples.
Import Repository Solana Cipher WalletService JsValue Ledger ToolService JsFacts
  Vocabulary VaultVocabulary VaultSamples ExecutorVocabulary Stubs ServiceSamples VaultFacts
  UserService McpTokenTools UserFacts.
Local Open Scope list_scope.
Local Open Scope string_scope.

Lemma user_service_turns_failure_into_absence_witness :
  getUserWallet (Thrown (JsError "SQLITE_CANTOPEN")) "twitter" "alice" cold_manager
  = (Returned None, cold_manager) /\
  unlinkAccount (Thrown (JsError "SQLITE_CANTOPEN")) "twitter" "alice" cold_manager
  = (Returned false, cold_manager).
Proof.
  destruct (user_service_turns_failure_into_absence cold_manager (JsError "SQLITE_CANTOPEN")
              (keypairOf "bobPublicKey") sample_iv' "twitter" "alice" "alicePublicKey" None
              eq_refl) as [H1 [H2 _]].
  split; assumption.
Defined.

Lemma getOrCreateUserWallet_creates_once_witness :
  exists info m1,
    getOrCreateUserWallet Pending (keypairOf "bobPublicKey") sample_iv' "twitter" "bob" None
      alice_plain
    = (Returned info, m1) /\
    WalletService.label info = Some "twitter-bob" /\
    getOrCreateUserWallet Pending (keypairOf "carolPublicKey") sample_iv "twitter" "bob"
      (Some "another") m1
    = (Returned info, m1).
Proof.
  destruct (getOrCreateUserWallet_creates_once Pending Pending alice_plain alice_db
              (keypairOf "bobPublicKey") (keypairOf "carolPublicKey") sample_iv' sample_iv
              "twitter" "bob" None (Some "another") eq_refl eq_refl
              alice_db_within_sequence eq_refl
              (alice_db_only_alice "bobPublicKey" ltac:(discriminate))
              ltac:(vm_compute; lia) eq_refl)
    as [info [m1 [E [_ [Hl Hagain]]]]].
  exists info, m1. repeat split; assumption.
Defined.

Lemma exported_key_is_the_generated_secret_witness :
  exportPrivateKey Pending (Some "bobPublicKey") alice_plain
  = (Returned (NextError (JsApiError 404 "Wallet not found")), alice_plain) /\
  exists info m1,
    createWallet (keypairOf "bobPublicKey") sample_iv' "twitter" "bob" None alice_plain
    = (Returned info, m1) /\
    exportPrivateKey Pending (Some "bobPublicKey") m1
    = (Returned (Exported (bs58_encode (secretKey (keypairOf "bobPublicKey")))), m1).
Proof.
  destruct (exported_key_is_the_generated_secret Pending alice_plain alice_db
              (keypairOf "bobPublicKey") sample_iv' "twitter" "bob" None eq_refl eq_refl)
    as [_ [Hunknown Hexport]].
  split.
  - exact (Hunknown ltac:(discriminate)
             (alice_db_only_alice "bobPublicKey" ltac:(discriminate))).
  - exact (Hexport ltac:(discriminate) alice_db_within_sequence eq_refl
             (alice_db_only_alice "bobPublicKey" ltac:(discriminate))
             ltac:(vm_compute; lia) eq_refl).
Defined.

Lemma sendTokenToUser_provisions_before_checking_mint_witness :
  exists created w1,
    sendTokenToUser Pending sample_entropy "twitter" "alice" "twitter" "bob" EmptyString 1 6
      alice_world
    = (Returned (failure "Invalid token mint address: "), w1) /\
    walletCount w1 = S (walletCount alice_world) /\
    fst (getWalletBySocialAccount "twitter" "bob" (walletService w1))
    = Returned (Some created).
Proof.
  destruct (sendTokenToUser_provisions_before_checking_mint Pending
              (keypairOf "bobPublicKey") sample_iv' "twitter" "alice" "twitter" "bob"
              EmptyString 1 6 alice_world alice_db alice_info eq_refl eq_refl eq_refl eq_refl
              alice_db_within_sequence eq_refl ltac:(vm_compute; lia) eq_refl eq_refl)
    as [created [w1 [E [Hcount [Hbound _]]]]].
  exists created, w1. repeat split; assumption.
Defined.

End UserExamples.
